(** * NLP notebooks: the ranking, selection and preprocessing logic

    The notebooks of this repository fetch a feed or a web page, hand text
    to an external model or ranking library, and then sort, slice and print
    the answers.  This development embeds the code that the notebooks
    themselves contain (the Python around the library calls) and proves
    what it does with the values the libraries return.

    Conventions.
    - A Python [str] is a [string] and a character an [ascii]: the character
      with code point [n], for [n] below 256 (ASCII and Latin-1).  So [e]
      with an acute accent is the one character of code 233, not the two
      bytes of an encoding of it.  Text with a code point above 255 is
      outside the model.  A list is a [list]; a [dict] with string keys is a
      [gmap string _].
    - A Python [float] that takes part in a comparison (a BM25 score, an
      entailment score, a cosine similarity, a time in seconds) is a rational
      [Q]: the ordered values of the finite floats, where two representations
      may compare equal ([==]) without being identical, as [0.0] and [-0.0]
      do.  The ranking loop of the article notebook only stores the score it
      is given, so it is defined for any type of floats, [Py.float] with its
      infinities and nan among them.
    - A call into an external library (rank_bm25, NLTK, transformers,
      sentence_transformers, numpy's argsort, requests, BeautifulSoup's
      parser, the regular expressions of [re]) is a parameter of the
      definitions that use it.
    - An exception is a value of [Py.exn]; a computation that may raise
      returns a [Py.result], and a loop that may be cut short returns what it
      built together with the exception that ended it, if one did. *)

From Stdlib Require Import ZArith QArith List String Ascii Bool Lia.
From Stdlib Require Import Sorting.Permutation Sorting.Sorted.
From stdpp Require Import base list strings gmap sorting.

Set Warnings "-register-all".

Close Scope Q_scope.
Open Scope Z_scope.
Open Scope nat_scope.
Open Scope string_scope.
Open Scope list_scope.

(** ** Python values and builtins used by the notebooks *)

Module Py.

Inductive exn : Type :=
| AttributeError (name : string)
| KeyError (key : string)
| IndexError
| TypeError
| LibraryError (what : string).

(** The outcome of evaluating an expression: a value, or a raised
    exception.  No notebook catches one, so [Raised] only ever propagates. *)
Inductive result (A : Type) : Type :=
| Ok (a : A)
| Raised (e : exn).
Arguments Ok {A} a.
Arguments Raised {A} e.

#[global] Instance result_ret : MRet result := @Ok.
#[global] Instance result_bind : MBind result :=
  fun A B f m => match m with Ok a => f a | Raised e => Raised e end.

(** [obj.name] on an object whose attribute may be missing. *)
Definition attr {A} (name : string) (field : option A) : result A :=
  match field with
  | Some v => Ok v
  | None => Raised (AttributeError name)
  end.

(** [l[i]] for an index [i >= 0]. *)
Definition getitem {A} (l : list A) (i : nat) : result A :=
  match nth_error l i with
  | Some v => Ok v
  | None => Raised IndexError
  end.

(** [[f(x) for x in l]] where [f] may raise. *)
Fixpoint list_comp {A B} (f : A -> result B) (l : list A) : result (list B) :=
  match l with
  | [] => Ok []
  | x :: l' => y ← f x; ys ← list_comp f l'; mret (y :: ys)
  end.

(** [for x in xs: acc.append(body(x))]: the list as the loop leaves it, and
    the exception that ended the loop, if one did.  The iteration that
    raises appends nothing and no later iteration runs. *)
Fixpoint for_append {X Y} (body : X -> result Y) (xs : list X) (acc : list Y)
    : list Y * option exn :=
  match xs with
  | [] => (acc, None)
  | x :: xs' =>
      match body x with
      | Raised e => (acc, Some e)
      | Ok y => for_append body xs' (acc ++ [y])
      end
  end.

(** The comparison [x < y] of two floats. *)
Definition float_lt (x y : Q) : bool := negb (Qle_bool y x).

(** A slice bound of a sequence of length [len]: a negative bound counts
    from the end, and every bound is clipped to [0 .. len]. *)
Definition slice_bound (len : nat) (i : Z) : nat :=
  if (i <? 0)%Z then Z.to_nat (Z.max 0 (Z.of_nat len + i))
  else Nat.min (Z.to_nat i) len.

(** [l[:stop]] *)
Definition slice_to {A} (l : list A) (stop : Z) : list A :=
  firstn (slice_bound (length l) stop) l.

(** [l[start:]] *)
Definition slice_from {A} (l : list A) (start : Z) : list A :=
  skipn (slice_bound (length l) start) l.

(** [l[::-1]] *)
Definition reversed {A} (l : list A) : list A := rev l.

(** [s[:stop]] on a string, character by character. *)
Definition str_slice_to (s : string) (stop : Z) : string :=
  string_of_list_ascii (slice_to (list_ascii_of_string s) stop).

(** [enumerate(l)] as a list. *)
Definition enumerate {A} (l : list A) : list (nat * A) :=
  combine (seq 0 (length l)) l.

(** The character classes of Python for the code points below 256:
    [c.isupper()], [c.islower()], [c.isalpha()] and [c.isspace()] on one
    character.  Besides the letters [A] to [Z] and [a] to [z] these are the
    accented letters of Latin-1 (upper case 192 to 222 without the
    multiplication sign 215, lower case 223 to 255 without the division sign
    247), the ordinal indicators 170 and 186 and the micro sign 181, which
    are lower case, and the spaces 133 (next line) and 160 (no-break
    space). *)
Definition code_in (lo hi : nat) (c : ascii) : bool :=
  ((lo <=? nat_of_ascii c) && (nat_of_ascii c <=? hi))%nat.

Definition isupper_char (c : ascii) : bool :=
  code_in 65 90 c || code_in 192 214 c || code_in 216 222 c.
Definition islower_char (c : ascii) : bool :=
  code_in 97 122 c || code_in 170 170 c || code_in 181 181 c || code_in 186 186 c
  || code_in 223 246 c || code_in 248 255 c.
Definition isalpha_char (c : ascii) : bool := isupper_char c || islower_char c.
Definition isspace_char (c : ascii) : bool :=
  code_in 9 13 c || code_in 28 32 c || code_in 133 133 c || code_in 160 160 c.

(** [c.lower()]: every upper-case letter below 256 has its lower-case form
    32 places further on. *)
Definition lower_char (c : ascii) : ascii :=
  if isupper_char c then ascii_of_nat (nat_of_ascii c + 32) else c.

(** [s.lower()] *)
Definition lower (s : string) : string :=
  string_of_list_ascii (map lower_char (list_ascii_of_string s)).

(** [s.isalpha()]: at least one character, and letters only. *)
Definition isalpha (s : string) : bool :=
  match list_ascii_of_string s with
  | [] => false
  | cs => forallb isalpha_char cs
  end.

Fixpoint lstrip_chars (cs : list ascii) : list ascii :=
  match cs with
  | [] => []
  | c :: cs' => if isspace_char c then lstrip_chars cs' else cs
  end.

(** [s.strip()] *)
Definition strip (s : string) : string :=
  string_of_list_ascii
    (rev (lstrip_chars (rev (lstrip_chars (list_ascii_of_string s))))).

(** [sep.join(l)] *)
Definition join (sep : string) (l : list string) : string := String.concat sep l.

(** [x in l] for a list of strings. *)
Definition str_in (x : string) (l : list string) : bool :=
  existsb (String.eqb x) l.

Section Sort.
Context {A K : Type}.
Variable lt : K -> K -> bool.
Variable key : A -> K.

(** One step of the stable forward sort: [x] stood before every element
    of [l] in the input, so it passes only the elements whose key is
    strictly smaller than its own.  Only [<] is ever asked of two keys. *)
Fixpoint insort (x : A) (l : list A) : list A :=
  match l with
  | [] => [x]
  | y :: l' => if lt (key y) (key x) then y :: insort x l' else x :: y :: l'
  end.

(** The stable ascending sort behind [sorted] and [list.sort]. *)
Fixpoint stable_sort (l : list A) : list A :=
  match l with
  | [] => []
  | x :: l' => insort x (stable_sort l')
  end.

(** [sorted(l, key=key, reverse=reverse)]; [l.sort(key=..., reverse=...)]
    leaves the same list in [l].  With [reverse=True] the list is
    reversed, sorted forward by the stable sort, and reversed again, which
    is how the descending sort keeps equal keys in their input order. *)
Definition sorted (reverse : bool) (l : list A) : list A :=
  if reverse then rev (stable_sort (rev l)) else stable_sort l.

(** [a] may stand before [b] in an ascending list: the key of [b] is not
    smaller than the key of [a]. *)
Definition key_le (a b : A) : Prop := lt (key b) (key a) = false.
End Sort.

(** [a] stands before [b] in [l]. *)
Inductive precedes {A} (a b : A) : list A -> Prop :=
| precedes_here l : In b l -> precedes a b (a :: l)
| precedes_later x l : precedes a b l -> precedes a b (x :: l).

(** Two keys that compare equal: neither is smaller than the other. *)
Definition same_key {K} (lt : K -> K -> bool) (k1 k2 : K) : bool :=
  negb (lt k1 k2) && negb (lt k2 k1).

(** [s.split(sep)] for a separator of one character: the pieces of [s]
    between the occurrences of [sep], empty pieces included.  The empty
    string gives one empty piece. *)
Fixpoint split (s : string) (sep : ascii) : list string :=
  match s with
  | EmptyString => [""]
  | String c s' =>
      if Ascii.eqb c sep then "" :: split s' sep
      else match split s' sep with
           | piece :: pieces => String c piece :: pieces
           | [] => [String c ""]
           end
  end.

(** [l[i]] for any integer [i]: a negative index counts from the end, and
    an index outside the list raises. *)
Definition subscript {A} (l : list A) (i : Z) : result A :=
  let j := if (i <? 0)%Z then (Z.of_nat (length l) + i)%Z else i in
  if (j <? 0)%Z then Raised IndexError else getitem l (Z.to_nat j).

(** [{key: f(val) for key, val in d.items()}] where [f] may raise.  The
    dictionary built does not depend on the order of the items; which
    exception ends the comprehension does, when two items raise different
    ones. *)
Definition dict_comp {A B} (f : A -> result B) (d : gmap string A)
    : result (gmap string B) :=
  items ← list_comp (fun item => v ← f item.2; mret (item.1, v)) (map_to_list d);
  mret (list_to_map items).

(** A Python float with the values that are not numbers: what a library may
    hand to code that only stores the float it is given. *)
Inductive float : Type :=
| Finite (x : Q)
| PosInf
| NegInf
| NaN.

(** [math.isfinite(x)] *)
Definition isfinite (x : float) : bool :=
  match x with Finite _ => true | _ => false end.

End Py.

Import Py (result, Ok, Raised, result_ret, result_bind).

(** ** Feed entries, as feedparser hands them to the notebooks *)

Module Feed.

(** [time.struct_time] *)
Record struct_time : Type := {
  tm_year : Z; tm_mon : Z; tm_mday : Z;
  tm_hour : Z; tm_min : Z; tm_sec : Z;
  tm_wday : Z; tm_yday : Z; tm_isdst : Z
}.

(** One element of [feed.entries]: the attributes the notebooks read.  An
    attribute the entry does not have is [None], and reading it raises.
    [published_parsed], when the entry has it, is a time tuple or Python's
    [None], which feedparser stores for a date it could not parse. *)
Record entry : Type := {
  title : option string;
  link : option string;
  summary : option string;
  published_parsed : option (option struct_time)
}.

End Feed.

(** ** tag_visible and text_from_html (article-ranking and semantic-search
       notebooks, same text in both) *)

Module Html.

(** A parsed document: text nodes, comments, and tags with their children. *)
Inductive node : Type :=
| NavigableString (s : string)
| Comment (s : string)
| Tag (name : string) (children : list node).

(** A text node as [findAll(text=True)] yields it: the string, the name of
    its parent tag, and whether it is an instance of [Comment]. *)
Record element : Type := {
  parent_name : string;
  is_comment : bool;
  text : string
}.

Fixpoint text_nodes (parent : string) (n : node) : list element :=
  match n with
  | NavigableString s =>
      [{| parent_name := parent; is_comment := false; text := s |}]
  | Comment s =>
      [{| parent_name := parent; is_comment := true; text := s |}]
  | Tag name children => flat_map (text_nodes name) children
  end.

(** [soup.findAll(text=True)]: every text node of the document, comments
    included, in document order.  The soup itself is the parent of the
    top-level nodes, under the name [[document]]. *)
Definition findAll_text (soup : list node) : list element :=
  flat_map (text_nodes "[document]") soup.

(**
<<
  def tag_visible(element):
      if element.parent.name in ['p']:
          return True
      if isinstance(element, Comment):
          return False
      return False
>> *)
Definition tag_visible (element : element) : bool :=
  if Py.str_in (parent_name element) ["p"] then true
  else if is_comment element then false
  else false.

(** [filter(tag_visible, texts)] *)
Definition visible_texts (soup : list node) : list element :=
  List.filter tag_visible (findAll_text soup).

Section TextFromHtml.
Context {response : Type}.
(** [BeautifulSoup(html.content, 'lxml')] *)
Variable BeautifulSoup_lxml : response -> list node.

(**
<<
def text_from_html(html):
    soup = BeautifulSoup(html.content, 'lxml')
    texts = soup.findAll(text=True)
    visible_texts = filter(tag_visible, texts)
    return u" ".join(t.strip() for t in visible_texts)
>> *)
Definition text_from_html (html : response) : string :=
  let soup := BeautifulSoup_lxml html in
  let texts := findAll_text soup in
  let visible_texts := List.filter tag_visible texts in
  Py.join " " (map (fun t => Py.strip (text t)) visible_texts).
End TextFromHtml.

(** Whether a tag named [name] occurs in a node, at any depth. *)
Fixpoint has_tag (name : string) (n : node) : bool :=
  match n with
  | NavigableString _ => false
  | Comment _ => false
  | Tag t children => String.eqb t name || existsb (has_tag name) children
  end.

End Html.

(** ** simple-search-engine-with-bm25.ipynb *)

Module Bm25.

Section Preprocessing.
(** [list(stopwords.words('english'))] *)
Variable stop_words : list string.
(** The first [re.sub], which puts a space on each side of a special
    character that stands between word characters *)
Variable re_sub_specials : string -> string.
(** The second [re.sub], which turns each run of white space into one
    space *)
Variable re_sub_spaces : string -> string.
(** NLTK's [word_tokenize] *)
Variable word_tokenize : string -> list string.

(** The body of the loop, from the abstract of one entry to its tokens:
<<
    doc = str(doc.summary).lower()
    doc = re.sub(<special characters>, <spaced>, doc)
    doc = re.sub(<white space>, <one space>, doc)
    doc = [token for token in word_tokenize(doc.lower())
           if token not in stop_words and token.isalpha()]
>> *)
Definition tokenize_summary (summary : string) : list string :=
  let doc := Py.lower summary in
  let doc := re_sub_specials doc in
  let doc := re_sub_spaces doc in
  List.filter
    (fun token => negb (Py.str_in token stop_words) && Py.isalpha token)
    (word_tokenize (Py.lower doc)).

Definition tokenize_entry (doc : Feed.entry) : result (list string) :=
  summary ← Py.attr "summary" (Feed.summary doc);
  mret (tokenize_summary summary).

(**
<<
tokenized_docs = []
for doc in feed.entries:
    ...
    tokenized_docs.append(doc)
>> *)
Definition tokenized_docs (feed_entries : list Feed.entry)
    : list (list string) * option Py.exn :=
  Py.for_append tokenize_entry feed_entries [].
End Preprocessing.

Section Scoring.
(** [BM25Okapi(tokenized_docs).get_scores(query)]: the array of scores the
    rank_bm25 library computes, one float per document of the corpus. *)
Variable BM25Okapi_get_scores : list (list string) -> list string -> list Q.

(**
<<
def get_bm25_scores(tokenized_docs, query):
    bm25 = BM25Okapi(tokenized_docs)
    scores = bm25.get_scores(query)
    scores = [(i, v) for i, v in enumerate(scores)]
    scores.sort(key=lambda x: x[1], reverse=True)
    return scores
>> *)
Definition get_bm25_scores (tokenized_docs : list (list string))
    (query : list string) : list (nat * Q) :=
  let scores := BM25Okapi_get_scores tokenized_docs query in
  let scores := map (fun iv => (fst iv, snd iv)) (Py.enumerate scores) in
  Py.sorted Py.float_lt snd true scores.

(** The score the library assigns to document [i]. *)
Definition document_score (tokenized_docs : list (list string))
    (query : list string) (i : nat) : Q :=
  nth i (BM25Okapi_get_scores tokenized_docs query) 0%Q.
End Scoring.

(** [np.array(scores)] for a list of pairs [(i, v)]: the table with one row
    per pair, or, for the empty list, an empty array of one dimension. *)
Inductive ndarray : Type :=
| Array1d
| Array2d (rows : list (nat * Q)).

Definition np_array (scores : list (nat * Q)) : ndarray :=
  match scores with
  | [] => Array1d
  | _ :: _ => Array2d scores
  end.

(** [a[:stop, c]]: column [c] of the first [stop] rows.  An array of one
    dimension has no second axis to index. *)
Definition column_to {C} (a : ndarray) (stop : Z) (column : nat * Q -> C)
    : result (list C) :=
  match a with
  | Array1d => Raised Py.IndexError
  | Array2d rows => Ok (map column (Py.slice_to rows stop))
  end.

(** The selection step; [astype(int)] gives back the indices that
    [enumerate] produced.
<<
  idx = np.array(scores)[:num_results, 0].astype(int)
  final_scores = np.array(scores)[:num_results, 1]
  documents = [feed.entries[i] for i in idx]
>> *)
Definition idx (scores : list (nat * Q)) (num_results : Z) : result (list nat) :=
  column_to (np_array scores) num_results fst.

Definition final_scores (scores : list (nat * Q)) (num_results : Z)
    : result (list Q) :=
  column_to (np_array scores) num_results snd.

Definition documents (feed_entries : list Feed.entry) (idx : list nat)
    : result (list Feed.entry) :=
  Py.list_comp (fun i => Py.getitem feed_entries i) idx.

Definition select (feed_entries : list Feed.entry) (scores : list (nat * Q))
    (num_results : Z) : result (list Feed.entry * list Q) :=
  idx ← idx scores num_results;
  final_scores ← final_scores scores num_results;
  documents ← documents feed_entries idx;
  mret (documents, final_scores).

(** What the print loop prints for one document: the values formatted into
    the line, the score being the number handed to [round(score, 4)]. *)
Record printed : Type := {
  printed_title : string;
  printed_link : string;
  printed_summary : string;
  printed_score : Q
}.

(** The body of the print loop, which reads three attributes of the
    document before it prints:
<<
    print(f"{doc.title}\n{doc.link}\n\n{doc.summary}\n[Score: {str(round(score, 4))}]\n\n")
>> *)
Definition print_result (doc_score : Feed.entry * Q) : result printed :=
  let (doc, score) := doc_score in
  title ← Py.attr "title" (Feed.title doc);
  link ← Py.attr "link" (Feed.link doc);
  summary ← Py.attr "summary" (Feed.summary doc);
  mret {| printed_title := title; printed_link := link;
          printed_summary := summary; printed_score := score |}.

(** The line shows the title, the link and the abstract of [doc]. *)
Definition shows (doc : Feed.entry) (line : printed) : Prop :=
  Feed.title doc = Some (printed_title line)
  /\ Feed.link doc = Some (printed_link line)
  /\ Feed.summary doc = Some (printed_summary line).

(** An entry with the three attributes that the print loop reads. *)
Definition printable (doc : Feed.entry) : Prop :=
  is_Some (Feed.title doc) /\ is_Some (Feed.link doc) /\ is_Some (Feed.summary doc).

(** The selection followed by the print loop,
    [for doc, score in zip(documents, final_scores): print(...)]: the lines
    printed, in order, and the exception that stopped the notebook, if one
    did: in the selection, before anything is printed, or at the first
    document that lacks an attribute the loop reads. *)
Definition search_output (feed_entries : list Feed.entry)
    (scores : list (nat * Q)) (num_results : Z)
    : list printed * option Py.exn :=
  match select feed_entries scores num_results with
  | Raised e => ([], Some e)
  | Ok (documents, final_scores) =>
      Py.for_append print_result (combine documents final_scores) []
  end.

(** [query = search_term.lower().split(' ')] *)
Definition query (search_term : string) : list string :=
  Py.split (Py.lower search_term) " ".

Section Notebook.
Variable stop_words : list string.
Variables re_sub_specials re_sub_spaces : string -> string.
Variable word_tokenize : string -> list string.
(** [BM25Okapi(tokenized_docs)]: the constructor, which raises when it
    cannot build its statistics (it divides by the number of documents), and
    otherwise gives the [get_scores] of the object built. *)
Variable BM25Okapi : list (list string) -> result (list string -> list Q).

(** The cells of the notebook from the feed to the printed lines, run in
    order: the preprocessing loop, the query, [get_bm25_scores], the
    selection and the print loop.  An exception stops the run; what the
    print loop had printed by then stays printed.  [get_bm25_scores] runs
    with the object that the constructor built from [tokenized_docs]. *)
Definition search (feed_entries : list Feed.entry) (search_term : string)
    (num_results : Z) : list printed * option Py.exn :=
  match tokenized_docs stop_words re_sub_specials re_sub_spaces word_tokenize
          feed_entries with
  | (_, Some e) => ([], Some e)
  | (tokenized_docs, None) =>
      let query := query search_term in
      match BM25Okapi tokenized_docs with
      | Raised e => ([], Some e)
      | Ok get_scores =>
          let scores := get_bm25_scores (fun _ => get_scores) tokenized_docs query in
          search_output feed_entries scores num_results
      end
  end.
End Notebook.

End Bm25.

(** ** article-ranking-with-an-nli-model.ipynb *)

Module Articles.

(** The values the notebook stores in an article.  [float] is the type of
    the floats: the ranking loop stores the score the pipeline returns and
    does nothing else with it, so its definitions leave the type open.  The
    sort and the printing loop compare and multiply the scores; they take
    them as rationals, as the rest of this development takes floats. *)
Inductive value (float : Type) : Type :=
| VStr (s : string)
| VFloat (x : float)
| VTime (t : Feed.struct_time)
| VNone.
Arguments VStr {float} s.
Arguments VFloat {float} x.
Arguments VTime {float} t.
Arguments VNone {float}.

Abbreviation pyval := (value Q).

(** What the zero-shot pipeline returns. *)
Record classification_of (float : Type) : Type := {
  sequence : string;
  labels : list string;
  scores : list float
}.
Arguments sequence {float} _.
Arguments labels {float} _.
Arguments scores {float} _.

Abbreviation classification := (classification_of Q).

(** The value stored for [entry.published_parsed]. *)
Definition date_value {float} (published : option Feed.struct_time) : value float :=
  match published with
  | Some t => VTime t
  | None => VNone
  end.

(** What [printmd] is given for one article: the values formatted into
    the markdown line. *)
Record shown : Type := {
  shown_title : pyval;
  shown_link : pyval;
  shown_summary : string;
  shown_search_term : string;
  shown_score : Q
}.

(** [d[key]] *)
Definition getkey (d : gmap string pyval) (key : string) : result pyval :=
  match d !! key with
  | Some v => Ok v
  | None => Raised (Py.KeyError key)
  end.

(** The loop stores a float under [relevancy] and a string under
    [src_text], and the sort and the printing loop are modelled on such
    articles.  On a value of another type the model raises [TypeError] at
    once, where Python raises when an operation rejects the value: when the
    sort compares it with a float, or the line formats it as one. *)
Definition as_float (v : pyval) : result Q :=
  match v with VFloat x => Ok x | _ => Raised Py.TypeError end.

Definition as_str (v : pyval) : result string :=
  match v with VStr s => Ok s | _ => Raised Py.TypeError end.

Section Notebook.
Context {response float : Type}.
(** [requests.get(url)] *)
Variable requests_get : string -> result response.
(** [BeautifulSoup(html.content, 'lxml')] *)
Variable BeautifulSoup_lxml : response -> list Html.node.
(** [pipeline("zero-shot-classification", device=0)(src_text, search_term)] *)
Variable zero_shot_classification :
  string -> string -> result (classification_of float).
(** [pipeline("summarization")(src_text, min_length = 100)], as the list of
    the [summary_text] entries of its answers *)
Variable summarization : string -> result (list string).
(** The [re.sub] of [summarise], which removes the white space before a
    closing punctuation mark *)
Variable re_sub_punctuation : string -> string.
(** [time.time()] at the [k]-th reading of the clock, and [time.mktime] on a
    time tuple, which raises when it cannot convert the tuple *)
Variable time_time : nat -> Q.
Variable time_mktime : Feed.struct_time -> result Q.
(** The settings of the notebook. *)
Variable search_term : string.
Variable days : Z.
Variable number_of_articles : Z.

(**
<<
def classifier(source_text, search_term):
    src_text = source_text[:1024]
    classification = pipeline("zero-shot-classification", device=0)
    results = classification(src_text, search_term)
    return results
>> *)
Definition classifier (source_text search_term : string)
    : result (classification_of float) :=
  let src_text := Py.str_slice_to source_text 1024 in
  results ← zero_shot_classification src_text search_term;
  mret results.

(**
<<
def summarise(source_text):
    src_text = source_text[:1024]
    summarization = pipeline("summarization")
    summary_text = summarization(src_text, min_length = 100)[0]['summary_text']
    summary_text = re.sub(<space before punctuation>, <punctuation>, summary_text)
    return summary_text
>> *)
Definition summarise (source_text : string) : result string :=
  let src_text := Py.str_slice_to source_text 1024 in
  summaries ← summarization src_text;
  summary_text ← Py.getitem summaries 0;
  let summary_text := re_sub_punctuation summary_text in
  mret summary_text.

(** [time.mktime(t)] for the value found under [published_parsed]: [None] is
    not a time tuple. *)
Definition mktime (published : option Feed.struct_time) : result Q :=
  match published with
  | Some t => time_mktime t
  | None => Raised Py.TypeError
  end.

(**
<<
entries = [entry for entry in newsfeed.entries
           if time.time() - time.mktime(entry.published_parsed) < (86400*days)]
>>
    [k] counts the readings of the clock so far. *)
Fixpoint recent_entries (k : nat) (entries : list Feed.entry)
    : result (list Feed.entry) :=
  match entries with
  | [] => mret []
  | entry :: rest =>
      let now := time_time k in
      published ← Py.attr "published_parsed" (Feed.published_parsed entry);
      seconds ← mktime published;
      let recent := Py.float_lt (now - seconds)%Q (inject_Z (86400 * days)) in
      kept ← recent_entries (S k) rest;
      mret (if recent then entry :: kept else kept)
  end.

(** The body of the loop up to [articles.append(article)]:
<<
    html = requests.get(entry.link)
    src_text = text_from_html(html)
    classification = classifier(src_text, search_term)
    article = dict()
    article["title"] = entry.title
    article["link"] = entry.link
    article["src_text"] = src_text
    article["published"] = entry.published_parsed
    article["relevancy"] = classification["scores"][0]
>> *)
Definition rank_entry (entry : Feed.entry) : result (gmap string (value float)) :=
  url ← Py.attr "link" (Feed.link entry);
  html ← requests_get url;
  let src_text := Html.text_from_html BeautifulSoup_lxml html in
  classification ← classifier src_text search_term;
  let article : gmap string (value float) := ∅ in
  title ← Py.attr "title" (Feed.title entry);
  let article := <["title" := VStr title]> article in
  link ← Py.attr "link" (Feed.link entry);
  let article := <["link" := VStr link]> article in
  let article := <["src_text" := VStr src_text]> article in
  published ← Py.attr "published_parsed" (Feed.published_parsed entry);
  let article := <["published" := date_value published]> article in
  relevancy ← Py.getitem (scores classification) 0;
  let article := <["relevancy" := VFloat relevancy]> article in
  mret article.

(**
<<
articles = []
entries = [...]
for entry in tqdm(entries, total=len(entries)):
    ...
    articles.append(article)
>>
    The list [articles] as the cell leaves it, and the exception that
    ended the cell, if one did. *)
Definition rank_feed (newsfeed_entries : list Feed.entry)
    : list (gmap string (value float)) * option Py.exn :=
  match recent_entries 0 newsfeed_entries with
  | Raised e => ([], Some e)
  | Ok entries => Py.for_append rank_entry entries []
  end.

(** [itemgetter("relevancy")], with the float taken out of its value. *)
Definition relevancy (article : gmap string pyval) : result Q :=
  v ← getkey article "relevancy"; as_float v.

(** [sorted(articles, key=itemgetter("relevancy"), reverse=True)]: the key
    of every element is computed first, then the list is sorted on the
    keys. *)
Definition sorted_articles (articles : list (gmap string pyval))
    : result (list (gmap string pyval)) :=
  keys ← Py.list_comp relevancy articles;
  mret (map snd (Py.sorted Py.float_lt fst true (combine keys articles))).

(** The body of the printing loop:
<<
    summary = summarise(article["src_text"])
    printmd("...".format(article["title"], article["link"], summary,
                         search_term, 100*article["relevancy"]))
>> *)
Definition show_article (article : gmap string pyval) : result shown :=
  src_text ← (v ← getkey article "src_text"; as_str v);
  summary ← summarise src_text;
  title ← getkey article "title";
  link ← getkey article "link";
  relevancy ← relevancy article;
  mret {| shown_title := title; shown_link := link; shown_summary := summary;
          shown_search_term := search_term;
          shown_score := (100 * relevancy)%Q |}.

(** [for article in sorted_articles[:number_of_articles]: ...] *)
Definition print_articles (sorted_articles : list (gmap string pyval))
    : list shown * option Py.exn :=
  Py.for_append show_article
    (Py.slice_to sorted_articles number_of_articles) [].
End Notebook.

(** An article with all five fields. *)
Definition make_article {float} (title link src_text : string)
    (published : option Feed.struct_time) (relevancy : float)
    : gmap string (value float) :=
  <["relevancy" := VFloat relevancy]>
    (<["published" := date_value published]>
      (<["src_text" := VStr src_text]>
        (<["link" := VStr link]>
          (<["title" := VStr title]> ∅)))).

(** The fields that sorting and printing read from an article. *)
Definition has_fields (article : gmap string pyval) (title link : pyval)
    (src_text : string) (relevancy : Q) : Prop :=
  article !! "title" = Some title
  /\ article !! "link" = Some link
  /\ article !! "src_text" = Some (VStr src_text)
  /\ article !! "relevancy" = Some (VFloat relevancy).

(** The test of the date filter, for an entry read at clock reading [k]:
    whether the comprehension of [recent_entries] keeps it. *)
Definition passes_date_filter (time_time : nat -> Q)
    (time_mktime : Feed.struct_time -> result Q) (days : Z)
    (k : nat) (entry : Feed.entry) : bool :=
  match Feed.published_parsed entry with
  | Some (Some published) =>
      match time_mktime published with
      | Ok seconds =>
          Py.float_lt (time_time k - seconds)%Q (inject_Z (86400 * days))
      | Raised _ => false
      end
  | _ => false
  end.

(** The cells of the notebook after the settings, run in order: the ranking
    cell, the sort and the printing loop.  An exception in a cell stops the
    run; what the printing loop had shown by then stays shown. *)
Definition run {response : Type}
    (requests_get : string -> result response)
    (BeautifulSoup_lxml : response -> list Html.node)
    (zero_shot_classification : string -> string -> result classification)
    (summarization : string -> result (list string))
    (re_sub_punctuation : string -> string)
    (time_time : nat -> Q) (time_mktime : Feed.struct_time -> result Q)
    (search_term : string) (days : Z) (number_of_articles : Z)
    (newsfeed_entries : list Feed.entry) : list shown * option Py.exn :=
  match rank_feed requests_get BeautifulSoup_lxml zero_shot_classification
          time_time time_mktime search_term days newsfeed_entries with
  | (_, Some e) => ([], Some e)
  | (articles, None) =>
      match sorted_articles articles with
      | Raised e => ([], Some e)
      | Ok sorted_articles =>
          print_articles summarization re_sub_punctuation search_term
            number_of_articles sorted_articles
      end
  end.

(** Whether the relevancy of an article compares equal to [x]. *)
Definition relevancy_is (x : Q) (article : gmap string pyval) : bool :=
  match article !! "relevancy" with
  | Some (VFloat y) => Qeq_bool y x
  | _ => false
  end.

End Articles.

(** ** The semantic-search notebook *)

Module Semantic.

Section Search.
(** [cosine_similarity(encoded_query, encoded_text)[0]], the encodings
    being [model.encode(input_text)] and [model.encode([search_term])] *)
Variable similarities : list string -> string -> list Q.
(** numpy's [argsort] *)
Variable argsort : list Q -> list nat.

(**
<<
results = cosine_similarity(encoded_query, encoded_text)[0]
num_results = results.argsort()[-num_results:][::-1]
scores = results[num_results]
sentences = [input_text[idx] for idx in num_results]
...
for sentence, score in zip(sentences, scores):
    printmd(f'* {sentence} (score: {score:<.4f})')
>>
    The sentences and scores the loop prints, in order. *)
Definition search_results (input_text : list string) (search_term : string)
    (num_results : Z) : result (list (string * Q)) :=
  let results := similarities input_text search_term in
  let num_results := Py.reversed (Py.slice_from (argsort results) (- num_results)) in
  scores ← Py.list_comp (fun i => Py.getitem results i) num_results;
  sentences ← Py.list_comp (fun idx => Py.getitem input_text idx) num_results;
  mret (combine sentences scores).
End Search.

(** The line printed for sentence [i]: the sentence and its similarity. *)
Definition search_result (similarities : list string -> string -> list Q)
    (input_text : list string) (search_term : string) (i : nat) : string * Q :=
  (nth i input_text "", nth i (similarities input_text search_term) 0%Q).

(** [input_text = src_text.split('.')] *)
Definition input_text (src_text : string) : list string :=
  Py.split src_text ".".

Section Notebook.
Context {response : Type}.
Variable requests_get : string -> result response.
Variable BeautifulSoup_lxml : response -> list Html.node.
Variable similarities : list string -> string -> list Q.
Variable argsort : list Q -> list nat.

(** The cells of the notebook from the web page to the printed lines:
<<
html = requests.get(website)
src_text = text_from_html(html)
input_text = src_text.split('.')
>>
    followed by the search. *)
Definition search (website search_term : string) (num_results : Z)
    : result (list (string * Q)) :=
  html ← requests_get website;
  let src_text := Html.text_from_html BeautifulSoup_lxml html in
  let input_text := input_text src_text in
  search_results similarities argsort input_text search_term num_results.
End Notebook.

End Semantic.

(** ** The fine-tuning notebook: the dataset handed to the data loader *)

Module Nli.

(** What [torch.tensor] builds from one row of an encoding (a list of token
    ids or of mask bits) and from one label.  The tensor is one of 64-bit
    integers: the ids of a tokeniser and the labels of the data fit, and an
    integer that does not, on which [torch.tensor] raises, is outside the
    model. *)
Inductive tensor : Type :=
| Tensor1d (row : list Z)
| Tensor0d (value : Z).

(** An integer that a tensor of 64-bit integers holds. *)
Definition int64 (z : Z) : Prop := (- 2 ^ 63 <= z < 2 ^ 63)%Z.

(** [class NLIDataset(torch.utils.data.Dataset)].  [encodings] is the
    tokeniser's answer, a mapping from a column name ([input_ids],
    [attention_mask]) to one row per sentence pair. *)
Record NLIDataset : Type := {
  encodings : gmap string (list (list Z));
  labels : list Z
}.

(** [NLIDataset.__getitem__] *)
Definition __getitem__ (self : NLIDataset) (idx : Z) : result (gmap string tensor) :=
  item ← Py.dict_comp (fun val => row ← Py.subscript val idx; mret (Tensor1d row))
         (encodings self);
  label ← Py.subscript (labels self) idx;
  mret (<["labels" := Tensor0d label]> item).

(** [NLIDataset.__len__]: the attribute [input_ids] of the encodings is
    their column of that name. *)
Definition __len__ (self : NLIDataset) : result nat :=
  input_ids ← Py.attr "input_ids" (encodings self !! "input_ids");
  mret (length input_ids).

(** One split of the MultiNLI data: the columns that the notebook reads. *)
Record split : Type := {
  premise : list string;
  hypothesis : list string;
  label : list Z
}.

(** [data[:stop]] on a split: every column cut alike. *)
Definition split_slice_to (data : split) (stop : Z) : split :=
  {| premise := Py.slice_to (premise data) stop;
     hypothesis := Py.slice_to (hypothesis data) stop;
     label := Py.slice_to (label data) stop |}.

Section Notebook.
Variable tokeniser : list string -> list string -> gmap string (list (list Z)).

Definition train_data (train : split) : split := split_slice_to train 20000.

Definition train_labels (train : split) : list Z :=
  Py.slice_to (label (train_data train)) 20000.

Definition train_encodings (train : split) : gmap string (list (list Z)) :=
  tokeniser (premise (train_data train)) (hypothesis (train_data train)).

Definition train_dataset (train : split) : NLIDataset :=
  {| encodings := train_encodings train; labels := train_labels train |}.

Definition val_dataset (dev_data : split) : NLIDataset :=
  {| encodings := tokeniser (premise dev_data) (hypothesis dev_data);
     labels := label dev_data |}.
End Notebook.

End Nli.

(** ** Sample inputs *)

Module Samples.

(** A stand-in for the ranking library: the score of a document is the
    number of its tokens that occur in the query. *)
Definition count_scores (docs : list (list string)) (query : list string) : list Q :=
  map (fun d => inject_Z (Z.of_nat (length
         (List.filter (fun t => Py.str_in t query) d)))) docs.

(** The constructor of the stand-in: like the library, it fails on a corpus
    without documents. *)
Definition BM25Okapi (docs : list (list string)) : result (list string -> list Q) :=
  match docs with
  | [] => Raised (Py.LibraryError "ZeroDivisionError")
  | _ :: _ => Ok (count_scores docs)
  end.

Definition docs : list (list string) :=
  [ ["language"; "model"];
    ["natural"; "language"; "inference"];
    ["speech"];
    ["inference"; "natural"; "language"] ].

Definition query : list string := ["natural"; "language"; "inference"].

(** A small feed, one abstract per document of [docs]. *)
Definition abstract (name text : string) : Feed.entry :=
  {| Feed.title := Some name;
     Feed.link := Some ("http://arxiv.org/abs/" +:+ name);
     Feed.summary := Some text;
     Feed.published_parsed := None |}.

Definition feed_entries : list Feed.entry :=
  [ abstract "A" "The Language Model";
    abstract "B" "Natural language inference";
    abstract "C" "Speech of 2";
    abstract "D" "Inference in natural language" ].

Definition stop_words : list string := ["the"; "of"; "in"].

(** A stand-in for the tokenizer: the text is cut at every space. *)
Fixpoint split_chars (word rest : list ascii) : list (list ascii) :=
  match rest with
  | [] => [rev word]
  | c :: rest' =>
      if Ascii.eqb c " " then rev word :: split_chars [] rest'
      else split_chars (c :: word) rest'
  end.

Definition split_words (s : string) : list string :=
  map string_of_list_ascii (split_chars [] (list_ascii_of_string s)).

(** Stand-ins for the web, the parser and the models of the
    article-ranking notebook.  A page is the text of its one paragraph;
    the address [http://down] does not answer. *)
Definition requests_get (url : string) : result string :=
  if String.eqb url "http://down" then Raised (Py.LibraryError "ConnectionError")
  else Ok ("All about " +:+ url).

Definition parse_page (page : string) : list Html.node :=
  [Html.Tag "html" [Html.Tag "body" [Html.Tag "p" [Html.NavigableString page]]]].

Definition zero_shot (text label : string) : result Articles.classification :=
  Ok {| Articles.sequence := text;
        Articles.labels := [label];
        Articles.scores := [(Z.of_nat (String.length text) # 100)%Q] |}.

(** The same classifier with its scores as Python floats, and a classifier
    that answers with nan. *)
Definition zero_shot_float (text label : string)
    : result (Articles.classification_of Py.float) :=
  Ok {| Articles.sequence := text;
        Articles.labels := [label];
        Articles.scores := [Py.Finite (Z.of_nat (String.length text) # 100)] |}.

Definition zero_shot_nan (text label : string)
    : result (Articles.classification_of Py.float) :=
  Ok {| Articles.sequence := text;
        Articles.labels := [label];
        Articles.scores := [Py.NaN] |}.

Definition summarization (text : string) : result (list string) := Ok [text].

Definition day (d : Z) : Feed.struct_time :=
  {| Feed.tm_year := 2021; Feed.tm_mon := 1; Feed.tm_mday := d;
     Feed.tm_hour := 0; Feed.tm_min := 0; Feed.tm_sec := 0;
     Feed.tm_wday := 0; Feed.tm_yday := d; Feed.tm_isdst := 0 |}.

(** A stand-in for [time.mktime], which does not convert a year that
    overflows a C [int]. *)
Definition mktime (t : Feed.struct_time) : result Q :=
  if (2147483647 <? Feed.tm_year t)%Z then Raised (Py.LibraryError "OverflowError")
  else Ok (inject_Z (86400 * Feed.tm_yday t)).

(** Every reading of the clock falls on day 10. *)
Definition clock (k : nat) : Q := inject_Z (86400 * 10 + Z.of_nat k).

Definition news (name : string) (d : Z) : Feed.entry :=
  {| Feed.title := Some name;
     Feed.link := Some ("http://blog/" +:+ name);
     Feed.summary := None;
     Feed.published_parsed := Some (Some (day d)) |}.

Definition newsfeed : list Feed.entry :=
  [ news "ml" 5; news "old" 1; news "sagemaker" 8 ].

(** A feed whose second recent entry has no title. *)
Definition broken_newsfeed : list Feed.entry :=
  [ news "ml" 5;
    {| Feed.title := None; Feed.link := Some "http://blog/untitled";
       Feed.summary := None; Feed.published_parsed := Some (Some (day 6)) |};
    news "sagemaker" 8 ].

(** Two texts of more than 1024 characters that differ only after the
    1024th. *)
Definition long_text (tail : string) : string :=
  string_of_list_ascii (repeat "a"%char 1024) +:+ tail.

(** The article the stand-ins give for [news name d]. *)
Definition ranked (name : string) (d : Z) : gmap string Articles.pyval :=
  let text := "All about http://blog/" +:+ name in
  Articles.make_article name ("http://blog/" +:+ name) text (Some (day d))
    (Z.of_nat (String.length text) # 100)%Q.

Definition ranked_float (name : string) (d : Z)
    : gmap string (Articles.value Py.float) :=
  let text := "All about http://blog/" +:+ name in
  Articles.make_article name ("http://blog/" +:+ name) text (Some (day d))
    (Py.Finite (Z.of_nat (String.length text) # 100)).

(** Stand-ins for the sentence encoder and for numpy's [argsort]: the
    similarity of a sentence is its length in hundredths, and the indices
    are sorted by the stable sort. *)
Definition similarities (input_text : list string) (search_term : string) : list Q :=
  map (fun sentence => (Z.of_nat (String.length sentence) # 100)%Q) input_text.

Definition argsort (a : list Q) : list nat :=
  map fst (Py.sorted Py.float_lt snd false (Py.enumerate a)).

Definition sentences : list string :=
  ["Deep learning is a field"; " It is used in language processing"; " End"].

(** A page without a paragraph: its text sits in a [div]. *)
Definition parse_without_paragraph (page : string) : list Html.node :=
  [Html.Tag "html" [Html.Tag "body" [Html.Tag "div" [Html.NavigableString page];
                                     Html.Comment "no paragraph"]]].


(** A stand-in for the tokeniser: the ids of a pair are the lengths of its
    two sentences, and nothing is masked. *)
Definition tokeniser (premises hypotheses : list string) : gmap string (list (list Z)) :=
  let pairs := combine premises hypotheses in
  <["input_ids" :=
      map (fun pair => [Z.of_nat (String.length pair.1);
                        Z.of_nat (String.length pair.2)]) pairs]>
    (<["attention_mask" := map (fun _ => [1; 1]%Z) pairs]> ∅).

Definition nli_train : Nli.split :=
  {| Nli.premise := ["A man eats"; "It rains"; "She sings"];
     Nli.hypothesis := ["Somebody eats"; "The sun shines"; "She is asleep"];
     Nli.label := [0; 2; 1]%Z |}.

End Samples.

(** * Properties *)

(** ** The stable sort *)

Section SortFacts.
Context {A K : Type}.
Variable lt : K -> K -> bool.
Variable key : A -> K.

Lemma insort_perm (x : A) (l : list A) :
  Permutation (Py.insort lt key x l) (x :: l).
Proof.
  induction l as [|y l IH]; simpl; [reflexivity|].
  destruct (lt (key y) (key x)); [|reflexivity].
  rewrite IH. apply perm_swap.
Qed.

Lemma stable_sort_perm (l : list A) :
  Permutation (Py.stable_sort lt key l) l.
Proof.
  induction l as [|x l IH]; simpl; [reflexivity|].
  rewrite insort_perm. now constructor.
Qed.

Lemma sorted_perm (reverse : bool) (l : list A) :
  Permutation (Py.sorted lt key reverse l) l.
Proof.
  destruct reverse; simpl; [|apply stable_sort_perm].
  rewrite <- Permutation_rev, stable_sort_perm.
  symmetry. apply Permutation_rev.
Qed.

(** What [<] on the keys must satisfy for the result to be ordered: it is
    asymmetric, and "not greater" is transitive. *)
Hypothesis lt_asym : forall a b, lt a b = true -> lt b a = false.
Hypothesis ge_trans : forall a b c, lt b a = false -> lt c b = false -> lt c a = false.

Let key_le := Py.key_le lt key.

Lemma insort_sorted (x : A) (l : list A) :
  StronglySorted key_le l -> StronglySorted key_le (Py.insort lt key x l).
Proof.
  induction 1 as [|y l Hl IH Hy]; simpl.
  - repeat constructor.
  - destruct (lt (key y) (key x)) eqn:E.
    + constructor; [exact IH|].
      eapply Permutation_Forall; [symmetry; apply insort_perm|].
      constructor; [apply lt_asym, E | exact Hy].
    + constructor; [now constructor|].
      constructor; [exact E|].
      eapply Forall_impl; [exact Hy|].
      intros z Hz. unfold key_le in *. eapply ge_trans; eauto.
Qed.

Lemma stable_sort_sorted (l : list A) :
  StronglySorted key_le (Py.stable_sort lt key l).
Proof.
  induction l; simpl; [constructor | now apply insort_sorted].
Qed.

Lemma StronglySorted_rev (R : A -> A -> Prop) (l : list A) :
  StronglySorted R l -> StronglySorted (fun a b => R b a) (rev l).
Proof.
  induction 1 as [|x l Hl IH Hx]; simpl; [constructor|].
  apply StronglySorted_app. split; [|split]; [|exact IH|repeat constructor].
  intros a b Ha Hb. apply list_elem_of_In in Ha, Hb.
  destruct Hb as [<-|[]]. apply in_rev in Ha.
  rewrite Forall_forall in Hx. apply Hx. now apply list_elem_of_In.
Qed.

(** The descending sort leaves no element before one with a greater key. *)
Lemma sorted_reverse_sorted (l : list A) :
  StronglySorted (fun a b => lt (key a) (key b) = false) (Py.sorted lt key true l).
Proof.
  simpl. apply (StronglySorted_rev key_le), stable_sort_sorted.
Qed.

(** Stability: the elements of one key class come out in their input order. *)
Lemma insort_filter_same (k : K) (x : A) (l : list A) :
  List.filter (fun a => Py.same_key lt (key a) k) (Py.insort lt key x l)
  = List.filter (fun a => Py.same_key lt (key a) k) (x :: l).
Proof.
  induction l as [|y l IH]; [reflexivity|].
  cbn [Py.insort]. destruct (lt (key y) (key x)) eqn:E; [|reflexivity].
  cbn [List.filter] in *. rewrite IH.
  destruct (Py.same_key lt (key x) k) eqn:Ex; [|reflexivity].
  assert (Py.same_key lt (key y) k = false) as ->; [|reflexivity].
  unfold Py.same_key in *.
  apply andb_true_iff in Ex as [Ex1 Ex2].
  apply negb_true_iff in Ex1, Ex2.
  destruct (lt (key y) k) eqn:E2; [reflexivity|].
  rewrite (ge_trans _ _ _ Ex2 E2) in E. discriminate.
Qed.

Lemma stable_sort_filter_same (k : K) (l : list A) :
  List.filter (fun a => Py.same_key lt (key a) k) (Py.stable_sort lt key l)
  = List.filter (fun a => Py.same_key lt (key a) k) l.
Proof.
  induction l as [|x l IH]; [reflexivity|].
  cbn [Py.stable_sort]. rewrite insort_filter_same.
  cbn [List.filter]. now rewrite IH.
Qed.

Lemma sorted_stable (reverse : bool) (k : K) (l : list A) :
  List.filter (fun a => Py.same_key lt (key a) k) (Py.sorted lt key reverse l)
  = List.filter (fun a => Py.same_key lt (key a) k) l.
Proof.
  destruct reverse; simpl; [|apply stable_sort_filter_same].
  rewrite List.filter_rev, stable_sort_filter_same, List.filter_rev.
  apply rev_involutive.
Qed.
End SortFacts.

Lemma StronglySorted_weaken {A} (R S : A -> A -> Prop) (l : list A) :
  (forall a b, R a b -> S a b) -> StronglySorted R l -> StronglySorted S l.
Proof.
  intros HRS. induction 1 as [|x l _ IH Hx]; constructor; [exact IH|].
  eapply Forall_impl; [exact Hx | apply HRS].
Qed.

(** ** Order of appearance *)

Section PrecedesFacts.
Context {A : Type}.
Implicit Types (a b : A) (l : list A).

Lemma precedes_positions a b l :
  Py.precedes a b l ->
  exists p q, p < q /\ nth_error l p = Some a /\ nth_error l q = Some b.
Proof.
  induction 1 as [l Hb | x l _ (p & q & Hpq & Hp & Hq)].
  - apply In_nth_error in Hb as [n Hn].
    exists 0, (S n). repeat split; [lia | exact Hn].
  - exists (S p), (S q). repeat split; [lia | exact Hp | exact Hq].
Qed.

Lemma precedes_filter (P : A -> bool) a b l :
  Py.precedes a b l -> P a = true -> P b = true ->
  Py.precedes a b (List.filter P l).
Proof.
  intros H Ha Hb. induction H as [l Hin | x l _ IH]; simpl.
  - rewrite Ha. constructor. apply filter_In. now split.
  - destruct (P x); [now constructor | exact IH].
Qed.

Lemma filter_precedes (P : A -> bool) a b l :
  Py.precedes a b (List.filter P l) -> Py.precedes a b l.
Proof.
  induction l as [|x l IH]; simpl; [inversion 1|].
  destruct (P x); [|intros H; apply Py.precedes_later, IH, H].
  inversion 1 as [l' Hin | x' l' H']; subst.
  - constructor. apply filter_In in Hin. tauto.
  - apply Py.precedes_later, IH, H'.
Qed.

Lemma precedes_tabulate (f : nat -> A) (n a i j : nat) :
  a <= i -> i < j -> j < a + n ->
  Py.precedes (f i) (f j) (map f (seq a n)).
Proof.
  revert a. induction n as [|n IH]; intros a Hai Hij Hj; [lia|].
  simpl. destruct (Nat.eq_dec a i) as [->|Hne].
  - constructor. apply in_map, in_seq. lia.
  - apply Py.precedes_later, IH; lia.
Qed.
End PrecedesFacts.

(** ** Comparison of floats *)

Lemma float_lt_true (x y : Q) : Py.float_lt x y = true <-> (x < y)%Q.
Proof.
  unfold Py.float_lt. rewrite negb_true_iff, <- not_true_iff_false, Qle_bool_iff.
  split; [apply Qnot_le_lt | apply Qlt_not_le].
Qed.

Lemma float_lt_false (x y : Q) : Py.float_lt x y = false <-> (y <= x)%Q.
Proof.
  unfold Py.float_lt. now rewrite negb_false_iff, Qle_bool_iff.
Qed.

Lemma float_lt_asym (x y : Q) : Py.float_lt x y = true -> Py.float_lt y x = false.
Proof. rewrite float_lt_true, float_lt_false. apply Qlt_le_weak. Qed.

Lemma float_ge_trans (x y z : Q) :
  Py.float_lt y x = false -> Py.float_lt z y = false -> Py.float_lt z x = false.
Proof. rewrite !float_lt_false. apply Qle_trans. Qed.

Lemma float_same_key (x y : Q) : Py.same_key Py.float_lt x y = true <-> (x == y)%Q.
Proof.
  unfold Py.same_key.
  rewrite andb_true_iff, !negb_true_iff, !float_lt_false. split.
  - intros [H1 H2]. now apply Qle_antisym.
  - intros ->. split; apply Qle_refl.
Qed.

(** ** [enumerate] *)

Lemma enumerate_tabulate {A} (d : A) (l : list A) :
  Py.enumerate l = map (fun i => (i, nth i l d)) (seq 0 (length l)).
Proof.
  unfold Py.enumerate.
  enough (forall a, combine (seq a (length l)) l
                    = map (fun i => (i, nth (i - a) l d)) (seq a (length l))) as H.
  { rewrite H. apply map_ext. intros i. now rewrite Nat.sub_0_r. }
  induction l as [|x l IH]; intros a; [reflexivity|].
  simpl. rewrite Nat.sub_diag. f_equal. rewrite IH.
  apply map_ext_in. intros i Hi. apply in_seq in Hi.
  replace (i - a) with (S (i - S a)) by lia. reflexivity.
Qed.

(** ** get_bm25_scores *)

Section GetBm25ScoresFacts.
Variable get_scores : list (list string) -> list string -> list Q.

Lemma get_bm25_scores_unfold docs query :
  Bm25.get_bm25_scores get_scores docs query
  = Py.sorted Py.float_lt snd true
      (map (fun i => (i, Bm25.document_score get_scores docs query i))
           (seq 0 (length (get_scores docs query)))).
Proof.
  unfold Bm25.get_bm25_scores, Bm25.document_score.
  rewrite (enumerate_tabulate 0%Q), map_map. reflexivity.
Qed.
End GetBm25ScoresFacts.

(** The list [get_bm25_scores] returns rearranges the indexed scores and is
    in non-increasing order of score. *)
Lemma get_bm25_scores_sorted_permutation_aux
    (get_scores : list (list string) -> list string -> list Q)
    (docs : list (list string)) (query : list string) :
  length (get_scores docs query) = length docs ->
  Permutation (Bm25.get_bm25_scores get_scores docs query)
    (map (fun i => (i, Bm25.document_score get_scores docs query i))
         (seq 0 (length docs)))
  /\ StronglySorted (fun p q => (snd q <= snd p)%Q)
       (Bm25.get_bm25_scores get_scores docs query).
Proof.
  intros Hlen. rewrite get_bm25_scores_unfold, Hlen. split.
  - apply sorted_perm.
  - eapply StronglySorted_weaken;
      [|apply (sorted_reverse_sorted Py.float_lt snd float_lt_asym float_ge_trans)].
    intros p q H. now apply float_lt_false.
Qed.

(** C1. For every corpus and query for which the library returns one score
    per document, [get_bm25_scores] returns a permutation of the pairs
    [(i, s_i)], [i = 0 .. len(tokenized_docs) - 1], where [s_i] is the
    library's score of document [i], and the returned list is in
    non-increasing order of score. *)
Theorem get_bm25_scores_sorted_permutation
    (get_scores : list (list string) -> list string -> list Q)
    (docs : list (list string)) (query : list string) :
  length (get_scores docs query) = length docs ->
  Permutation (Bm25.get_bm25_scores get_scores docs query)
    (map (fun i => (i, Bm25.document_score get_scores docs query i))
         (seq 0 (length docs)))
  /\ StronglySorted (fun p q => (snd q <= snd p)%Q)
       (Bm25.get_bm25_scores get_scores docs query).
Proof.
  intros Hlen. rewrite get_bm25_scores_unfold, Hlen. split.
  - apply sorted_perm.
  - eapply StronglySorted_weaken.
    + intros p q H. apply float_lt_false. exact H.
    + apply (sorted_reverse_sorted Py.float_lt snd float_lt_asym float_ge_trans).
Qed.

Lemma get_bm25_scores_sorted_permutation_witness :
  length (Samples.count_scores Samples.docs Samples.query) = length Samples.docs
  /\ (Permutation
        (Bm25.get_bm25_scores Samples.count_scores Samples.docs Samples.query)
        (map (fun i => (i, Bm25.document_score Samples.count_scores
                             Samples.docs Samples.query i))
             (seq 0 (length Samples.docs)))
      /\ StronglySorted (fun p q => (snd q <= snd p)%Q)
           (Bm25.get_bm25_scores Samples.count_scores Samples.docs Samples.query)).
Proof.
  split; [reflexivity|].
  apply (get_bm25_scores_sorted_permutation
           Samples.count_scores Samples.docs Samples.query).
  reflexivity.
Defined.

(** On the sample corpus documents 1 and 3 tie with three query words each,
    and come out in that order. *)
Example get_bm25_scores_sample :
  Bm25.get_bm25_scores Samples.count_scores Samples.docs Samples.query
  = [(1, (3 # 1)%Q); (3, (3 # 1)%Q); (0, (1 # 1)%Q); (2, (0 # 1)%Q)].
Proof. reflexivity. Qed.

(** C10. When documents [i < j] receive equal scores, the pair of [i] stands
    before the pair of [j] in the list [get_bm25_scores] returns; and the
    returned list depends on the corpus and the query only through the list
    of scores. *)
Theorem get_bm25_scores_ties_by_index
    (get_scores : list (list string) -> list string -> list Q)
    (docs : list (list string)) (query : list string) :
  (forall i j,
      length (get_scores docs query) = length docs ->
      i < j -> j < length docs ->
      (Bm25.document_score get_scores docs query i
       == Bm25.document_score get_scores docs query j)%Q ->
      exists p q, p < q
        /\ nth_error (Bm25.get_bm25_scores get_scores docs query) p
           = Some (i, Bm25.document_score get_scores docs query i)
        /\ nth_error (Bm25.get_bm25_scores get_scores docs query) q
           = Some (j, Bm25.document_score get_scores docs query j))
  /\ (forall get_scores' docs' query',
        get_scores' docs' query' = get_scores docs query ->
        Bm25.get_bm25_scores get_scores' docs' query'
        = Bm25.get_bm25_scores get_scores docs query).
Proof.
  split.
  - intros i j Hlen Hij Hj Heq.
    apply precedes_positions. rewrite get_bm25_scores_unfold, Hlen.
    set (s := Bm25.document_score get_scores docs query) in *.
    apply (filter_precedes (fun a => Py.same_key Py.float_lt (snd a) (s i))).
    rewrite (sorted_stable Py.float_lt snd float_ge_trans).
    apply precedes_filter.
    + apply (precedes_tabulate (fun i => (i, s i))); lia.
    + now apply float_same_key.
    + apply float_same_key. simpl. now symmetry.
  - intros get_scores' docs' query' H.
    unfold Bm25.get_bm25_scores. now rewrite H.
Qed.

Lemma get_bm25_scores_ties_by_index_witness :
  length (Samples.count_scores Samples.docs Samples.query) = length Samples.docs
  /\ 1 < 3 /\ 3 < length Samples.docs
  /\ (Bm25.document_score Samples.count_scores Samples.docs Samples.query 1
      == Bm25.document_score Samples.count_scores Samples.docs Samples.query 3)%Q
  /\ exists p q, p < q
    /\ nth_error (Bm25.get_bm25_scores Samples.count_scores Samples.docs Samples.query) p
       = Some (1, Bm25.document_score Samples.count_scores Samples.docs Samples.query 1)
    /\ nth_error (Bm25.get_bm25_scores Samples.count_scores Samples.docs Samples.query) q
       = Some (3, Bm25.document_score Samples.count_scores Samples.docs Samples.query 3).
Proof.
  assert (length (Samples.count_scores Samples.docs Samples.query)
          = length Samples.docs) as Hlen by reflexivity.
  assert (3 < length Samples.docs) as Hj by (simpl; lia).
  assert (Bm25.document_score Samples.count_scores Samples.docs Samples.query 1
          == Bm25.document_score Samples.count_scores Samples.docs Samples.query 3)%Q
    as Heq by reflexivity.
  split; [exact Hlen|]. split; [lia|]. split; [exact Hj|]. split; [exact Heq|].
  exact (proj1 (get_bm25_scores_ties_by_index
                  Samples.count_scores Samples.docs Samples.query)
               1 3 Hlen ltac:(lia) Hj Heq).
Defined.

(** ** Slices, indexing and comprehensions *)

Lemma slice_to_nat {A} (l : list A) (n : nat) :
  Py.slice_to l (Z.of_nat n) = firstn n l.
Proof.
  unfold Py.slice_to, Py.slice_bound.
  destruct (Z.ltb_spec (Z.of_nat n) 0) as [H|_]; [lia|].
  rewrite Nat2Z.id. destruct (Nat.le_gt_cases n (length l)) as [H|H].
  - now rewrite Nat.min_l.
  - rewrite Nat.min_r by lia.
    now rewrite !firstn_all2 by lia.
Qed.

Lemma getitem_Ok {A} (l : list A) (i : nat) (x : A) :
  Py.getitem l i = Ok x <-> nth_error l i = Some x.
Proof.
  unfold Py.getitem. destruct (nth_error l i); split; congruence.
Qed.

Lemma getitem_lt {A} (l : list A) (i : nat) :
  i < length l -> exists x, Py.getitem l i = Ok x /\ nth_error l i = Some x.
Proof.
  intros H. apply nth_error_Some in H.
  unfold Py.getitem. destruct (nth_error l i) as [x|]; [|congruence].
  now exists x.
Qed.

Lemma list_comp_Ok {A B} (f : A -> result B) (l : list A) (ys : list B) :
  Py.list_comp f l = Ok ys <-> Forall2 (fun x y => f x = Ok y) l ys.
Proof.
  revert ys. induction l as [|x l IH]; intros ys; simpl.
  - split; [intros [= <-]; constructor | inversion 1; reflexivity].
  - unfold mbind, result_bind, mret, result_ret.
    destruct (f x) as [y|e] eqn:Ef.
    + destruct (Py.list_comp f l) as [ys'|e'] eqn:El.
      * split.
        -- intros [= <-]. constructor; [exact Ef | now apply IH].
        -- inversion 1 as [|? y' ? ys'' Hy Hys]; subst.
           apply IH in Hys. congruence.
      * split; [discriminate|].
        inversion 1 as [|? y' ? ys'' Hy Hys]; subst.
        apply IH in Hys. discriminate.
    + split; [discriminate|].
      inversion 1; subst. congruence.
Qed.

Lemma list_comp_total {A B} (f : A -> result B) (l : list A) :
  Forall (fun x => exists y, f x = Ok y) l ->
  exists ys, Py.list_comp f l = Ok ys.
Proof.
  induction 1 as [|x l [y Hy] _ [ys Hys]].
  - now exists [].
  - exists (y :: ys). apply list_comp_Ok. constructor; [exact Hy|].
    now apply list_comp_Ok.
Qed.

(** ** The selection step of the BM25 notebook *)

Section SelectionFacts.
Variable get_scores : list (list string) -> list string -> list Q.
Variables (tokenized_docs : list (list string)) (query : list string).
Hypothesis get_scores_length :
  length (get_scores tokenized_docs query) = length tokenized_docs.

Let scores := Bm25.get_bm25_scores get_scores tokenized_docs query.

Lemma scores_entry (i : nat) (s : Q) :
  In (i, s) scores ->
  i < length tokenized_docs
  /\ s = Bm25.document_score get_scores tokenized_docs query i.
Proof.
  intros H.
  destruct (get_bm25_scores_sorted_permutation_aux get_scores tokenized_docs query
              get_scores_length) as [Hperm _].
  eapply Permutation_in in H; [|exact Hperm].
  apply in_map_iff in H as (i' & [= <- <-] & Hi).
  apply in_seq in Hi. split; [lia | reflexivity].
Qed.

Lemma scores_complete (i : nat) :
  i < length tokenized_docs ->
  In (i, Bm25.document_score get_scores tokenized_docs query i) scores.
Proof.
  intros H.
  destruct (get_bm25_scores_sorted_permutation_aux get_scores tokenized_docs query
              get_scores_length) as [Hperm _].
  eapply Permutation_in; [symmetry; exact Hperm|].
  apply in_map_iff. exists i. split; [reflexivity|]. apply in_seq. lia.
Qed.

Lemma scores_length : length scores = length tokenized_docs.
Proof.
  destruct (get_bm25_scores_sorted_permutation_aux get_scores tokenized_docs query
              get_scores_length) as [Hperm _].
  apply Permutation_length in Hperm. unfold scores.
  now rewrite Hperm, length_map, length_seq.
Qed.
End SelectionFacts.

Lemma In_firstn {A} (n : nat) (l : list A) (x : A) : In x (firstn n l) -> In x l.
Proof.
  intros H. rewrite <- (firstn_skipn n l). apply in_or_app. now left.
Qed.

Lemma nth_error_firstn_lt {A} (n j : nat) (l : list A) :
  j < n -> nth_error (firstn n l) j = nth_error l j.
Proof.
  revert j l. induction n as [|n IH]; intros j l Hj; [lia|].
  destruct l as [|x l]; [reflexivity|].
  destruct j as [|j]; [reflexivity|]. simpl. apply IH. lia.
Qed.

Lemma nth_error_combine {A B} (l1 : list A) (l2 : list B) (j : nat) (a : A) (b : B) :
  nth_error l1 j = Some a -> nth_error l2 j = Some b ->
  nth_error (combine l1 l2) j = Some (a, b).
Proof.
  revert l2 j. induction l1 as [|x l1 IH]; intros [|y l2] [|j]; simpl; try discriminate.
  - now intros [= ->] [= ->].
  - apply IH.
Qed.

Lemma Forall2_nth_error {A B} (P : A -> B -> Prop) (l1 : list A) (l2 : list B)
    (j : nat) (a : A) :
  Forall2 P l1 l2 -> nth_error l1 j = Some a ->
  exists b, nth_error l2 j = Some b /\ P a b.
Proof.
  intros H. revert j. induction H as [|x y l1 l2 Hxy _ IH]; intros [|j]; simpl;
    try discriminate.
  - intros [= ->]. now exists y.
  - apply IH.
Qed.

Lemma StronglySorted_map {A B} (f : A -> B) (R : B -> B -> Prop) (l : list A) :
  StronglySorted (fun a b => R (f a) (f b)) l -> StronglySorted R (map f l).
Proof.
  induction 1 as [|x l _ IH Hx]; simpl; constructor; [exact IH|].
  apply Forall_forall. intros y Hy.
  apply list_elem_of_In, in_map_iff in Hy as (a & <- & Ha).
  rewrite Forall_forall in Hx. apply Hx, list_elem_of_In, Ha.
Qed.

Lemma StronglySorted_firstn_skipn {A} (R : A -> A -> Prop) (n : nat) (l : list A) :
  StronglySorted R l ->
  StronglySorted R (firstn n l)
  /\ (forall a b, In a (firstn n l) -> In b (skipn n l) -> R a b).
Proof.
  intros H. rewrite <- (firstn_skipn n l) in H.
  apply StronglySorted_app in H as (Hab & H1 & _). split; [exact H1|].
  intros a b Ha Hb. apply Hab; now apply list_elem_of_In.
Qed.

Lemma list_comp_getitem {A} (l : list A) (idx : list nat) :
  Forall (fun i => i < length l) idx ->
  exists ys, Py.list_comp (fun i => Py.getitem l i) idx = Ok ys
             /\ Forall2 (fun i y => nth_error l i = Some y) idx ys.
Proof.
  intros H.
  destruct (list_comp_total (fun i => Py.getitem l i) idx) as [ys Hys].
  - eapply Forall_impl; [exact H|]. intros i Hi.
    destruct (getitem_lt l i Hi) as (x & Hx & _). now exists x.
  - exists ys. split; [exact Hys|].
    apply list_comp_Ok in Hys.
    eapply Forall2_impl; [exact Hys|]. intros i y. apply getitem_Ok.
Qed.

(** ** The print loop of the BM25 notebook *)

Lemma print_result_Ok (doc : Feed.entry) (score : Q) (line : Bm25.printed) :
  Bm25.print_result (doc, score) = Ok line ->
  Bm25.shows doc line /\ Bm25.printed_score line = score.
Proof.
  unfold Bm25.print_result, Bm25.shows.
  destruct (Feed.title doc) as [title|]; simpl; [|discriminate].
  destruct (Feed.link doc) as [link|]; simpl; [|discriminate].
  destruct (Feed.summary doc) as [summary|]; simpl; [|discriminate].
  intros [= <-]. simpl. now repeat split.
Qed.

Lemma print_result_printable (doc : Feed.entry) (score : Q) :
  Bm25.printable doc -> exists line, Bm25.print_result (doc, score) = Ok line.
Proof.
  intros ([title Ht] & [link Hl] & [summary Hs]).
  unfold Bm25.print_result. rewrite Ht, Hl, Hs. simpl. now eexists.
Qed.

(** The print loop prints the lines of the documents it is given, in their
    order, up to the first document that lacks an attribute. *)
Lemma print_loop_lines (selected : list (Feed.entry * Q)) (acc : list Bm25.printed) :
  exists printed stopped,
    Py.for_append Bm25.print_result selected acc = (acc ++ printed, stopped)
    /\ length printed <= length selected
    /\ Forall2 (fun doc_score line =>
                  Bm25.shows (fst doc_score) line
                  /\ Bm25.printed_score line = snd doc_score)
         (firstn (length printed) selected) printed
    /\ (Forall (fun doc_score => Bm25.printable (fst doc_score)) selected ->
        stopped = None /\ length printed = length selected).
Proof.
  revert acc. induction selected as [|[doc score] selected IH]; intros acc.
  - exists [], None. rewrite app_nil_r. repeat split; constructor.
  - cbn [Py.for_append].
    destruct (Bm25.print_result (doc, score)) as [line|e] eqn:E.
    + destruct (IH (acc ++ [line])) as (printed & stopped & Hrun & Hlen & Hall & Hfull).
      exists (line :: printed), stopped. rewrite Hrun, <- app_assoc. simpl.
      split; [reflexivity|]. split; [lia|]. split.
      * constructor; [|exact Hall]. now apply print_result_Ok.
      * intros H. apply Forall_cons in H as [_ H].
        destruct (Hfull H) as [-> ->]. now split.
    + exists [], (Some e). rewrite app_nil_r. simpl.
      split; [reflexivity|]. split; [lia|]. split; [constructor|].
      intros H. apply Forall_cons in H as [H _]. simpl in H.
      destruct (print_result_printable doc score H) as [line Hline]. congruence.
Qed.

Lemma Forall2_firstn {A B} (R : A -> B -> Prop) (n : nat) (l : list A) (k : list B) :
  Forall2 R l k -> Forall2 R (firstn n l) (firstn n k).
Proof.
  intros H. revert n. induction H as [|a b l k Hab _ IH]; intros [|n]; simpl;
    constructor; auto.
Qed.

Lemma Forall2_compose {A B C} (R : A -> B -> Prop) (S : B -> C -> Prop)
    (l : list A) (k : list B) (m : list C) :
  Forall2 R l k -> Forall2 S k m ->
  Forall2 (fun a c => exists b, R a b /\ S b c) l m.
Proof.
  intros H. revert m. induction H as [|a b l k Hab _ IH]; intros m Hm.
  - inversion Hm. constructor.
  - inversion Hm as [|? c ? m' Hbc Hrest]; subst.
    constructor; [now exists b | now apply IH].
Qed.

(** C3. When there is one token list per feed entry and [num_results] does
    not exceed the number of entries: if [num_results] is positive the
    selection step succeeds, and for every [j < num_results], with
    [(i_j, s_j)] the [j]-th pair of the list [get_bm25_scores] returned,
    [documents[j]] is [feed.entries[i_j]] and [final_scores[j]] is [s_j], the
    score of that very entry; the scores selected are in non-increasing
    order, and no entry left out scores higher than an entry selected.  The
    print loop reads the title, the link and the summary of each document
    selected, in turn: every line it prints shows the entry and the score of
    the pair at its place in the list, and when every entry of the feed has
    the three attributes it prints exactly [num_results] lines. *)
Theorem documents_are_top_scored
    (get_scores : list (list string) -> list string -> list Q)
    (feed_entries : list Feed.entry)
    (tokenized_docs : list (list string)) (query : list string)
    (num_results : nat) :
  length tokenized_docs = length feed_entries ->
  num_results <= length feed_entries ->
  length (get_scores tokenized_docs query) = length tokenized_docs ->
  let scores := Bm25.get_bm25_scores get_scores tokenized_docs query in
  (0 < num_results ->
   exists documents final_scores,
     Bm25.select feed_entries scores (Z.of_nat num_results)
     = Ok (documents, final_scores)
     /\ length documents = num_results
     /\ length final_scores = num_results
     /\ (forall j, j < num_results ->
         exists i s doc,
           nth_error scores j = Some (i, s)
           /\ nth_error feed_entries i = Some doc
           /\ s = Bm25.document_score get_scores tokenized_docs query i
           /\ nth_error documents j = Some doc
           /\ nth_error final_scores j = Some s)
     /\ StronglySorted (fun a b => (b <= a)%Q) final_scores
     /\ (forall i s,
           i < length feed_entries ->
           ~ In i (map fst (firstn num_results scores)) ->
           In s final_scores ->
           (Bm25.document_score get_scores tokenized_docs query i <= s)%Q))
  /\ exists printed stopped,
       Bm25.search_output feed_entries scores (Z.of_nat num_results)
       = (printed, stopped)
       /\ length printed <= num_results
       /\ Forall2
            (fun pair line =>
               (exists doc, nth_error feed_entries (fst pair) = Some doc
                            /\ Bm25.shows doc line)
               /\ Bm25.printed_score line = snd pair
               /\ Bm25.printed_score line
                  = Bm25.document_score get_scores tokenized_docs query (fst pair))
            (firstn (length printed) scores) printed
       /\ (Forall Bm25.printable feed_entries -> length printed = num_results).
Proof.
  intros Hdocs Hnum Hlen scores.
  pose proof (scores_length get_scores tokenized_docs query Hlen) as Hslen.
  fold scores in Hslen.
  destruct (get_bm25_scores_sorted_permutation_aux get_scores tokenized_docs query Hlen)
    as [_ Hsorted]. fold scores in Hsorted.
  destruct (StronglySorted_firstn_skipn _ num_results scores Hsorted) as [Hfirst Hcut].
  assert (Forall (fun i => i < length feed_entries) (map fst (firstn num_results scores)))
    as Hrange.
  { apply Forall_forall. intros i Hi. apply list_elem_of_In, in_map_iff in Hi.
    destruct Hi as ([i' s] & <- & Hin). apply In_firstn in Hin.
    apply (scores_entry get_scores tokenized_docs query Hlen) in Hin.
    simpl. lia. }
  destruct (list_comp_getitem feed_entries _ Hrange) as (documents & Hdoc & Hall).
  assert (length (firstn num_results scores) = num_results) as Hn.
  { rewrite length_firstn. lia. }
  assert (scores <> [] ->
          Bm25.select feed_entries scores (Z.of_nat num_results)
          = Ok (documents, map snd (firstn num_results scores))) as Hselect.
  { intros Hne. unfold Bm25.select, Bm25.idx, Bm25.final_scores, Bm25.np_array.
    destruct scores as [|pair rest] eqn:Es; [congruence|]. rewrite <- Es in *.
    simpl. rewrite !slice_to_nat. unfold Bm25.documents. now rewrite Hdoc. }
  assert (forall j, j < num_results ->
            exists i s doc,
              nth_error scores j = Some (i, s)
              /\ nth_error feed_entries i = Some doc
              /\ s = Bm25.document_score get_scores tokenized_docs query i
              /\ nth_error documents j = Some doc
              /\ nth_error (map snd (firstn num_results scores)) j = Some s) as Hjth.
  { intros j Hj.
    destruct (nth_error scores j) as [[i s]|] eqn:Ej;
      [|apply nth_error_None in Ej; lia].
    assert (nth_error (firstn num_results scores) j = Some (i, s)) as Ej'
      by now rewrite nth_error_firstn_lt.
    assert (nth_error (map fst (firstn num_results scores)) j = Some i) as Ei
      by now rewrite nth_error_map, Ej'.
    destruct (Forall2_nth_error _ _ _ _ _ Hall Ei) as (doc & Hdj & Hdi).
    exists i, s, doc. repeat split; try assumption.
    - apply nth_error_In in Ej.
      now apply (scores_entry get_scores tokenized_docs query Hlen) in Ej.
    - now rewrite nth_error_map, Ej'. }
  assert (length documents = num_results) as Hdlen.
  { apply Forall2_length in Hall. now rewrite <- Hall, length_map. }
  split.
  - intros Hpos.
    assert (scores <> []) as Hne.
    { intros E. rewrite E in Hslen. simpl in Hslen. lia. }
    exists documents, (map snd (firstn num_results scores)).
    split; [now apply Hselect|]. split; [exact Hdlen|].
    split; [now rewrite length_map|]. split; [exact Hjth|]. split.
    + apply StronglySorted_map. exact Hfirst.
    + intros i s Hi Hnot Hs.
      apply in_map_iff in Hs as ([i' s'] & <- & Hin'). simpl.
      assert (In (i, Bm25.document_score get_scores tokenized_docs query i) scores)
        as Hin by (apply scores_complete; [exact Hlen | lia]).
      rewrite <- (firstn_skipn num_results scores) in Hin.
      apply in_app_or in Hin as [Hin|Hin].
      * exfalso. apply Hnot. apply in_map_iff.
        now exists (i, Bm25.document_score get_scores tokenized_docs query i).
      * apply (Hcut _ _ Hin' Hin).
  - unfold Bm25.search_output.
    destruct (Nat.eq_dec (length scores) 0) as [Hz|Hnz].
    + assert (num_results = 0) as -> by lia.
      apply length_zero_iff_nil in Hz. rewrite Hz.
      exists [], (Some Py.IndexError). simpl.
      split; [reflexivity|]. split; [lia|]. split; [constructor | reflexivity].
    + rewrite Hselect by (intros E; rewrite E in Hnz; simpl in Hnz; lia).
      set (selected := combine documents (map snd (firstn num_results scores))).
      assert (Forall2
                (fun pair doc_score =>
                   nth_error feed_entries (fst pair) = Some (fst doc_score)
                   /\ snd doc_score = snd pair
                   /\ snd pair
                      = Bm25.document_score get_scores tokenized_docs query (fst pair))
                (firstn num_results scores) selected) as Hsel.
      { assert (Forall (fun pair => snd pair
                  = Bm25.document_score get_scores tokenized_docs query (fst pair))
                  (firstn num_results scores)) as Hown.
        { apply Forall_forall. intros [i s] Hin.
          apply list_elem_of_In, In_firstn in Hin.
          now apply (scores_entry get_scores tokenized_docs query Hlen) in Hin. }
        unfold selected. clear Hselect Hjth Hrange Hdoc Hcut Hfirst Hn Hdlen selected.
        revert documents Hall Hown. generalize (firstn num_results scores).
        intros pairs. induction pairs as [|[i s] pairs IH]; intros documents Hall Hown.
        - inversion Hall. constructor.
        - inversion Hall as [|? doc ? docs Hdoc Hrest]; subst.
          apply Forall_cons in Hown as [Hs Hown]. simpl.
          constructor; [now repeat split | now apply IH]. }
      assert (length selected = num_results) as Hslen'.
      { rewrite <- (Forall2_length _ _ _ Hsel). exact Hn. }
      destruct (print_loop_lines selected [])
        as (printed & stopped & Hrun & Hplen & Hlines & Hfull).
      exists printed, stopped. split; [exact Hrun|].
      split; [lia|]. split.
      * assert (firstn (length printed) scores
                = firstn (length printed) (firstn num_results scores)) as ->.
        { rewrite firstn_firstn. f_equal. lia. }
        eapply Forall2_impl;
          [exact (Forall2_compose _ _ _ _ _
                    (Forall2_firstn _ (length printed) _ _ Hsel) Hlines)|].
        intros pair line ([doc score] & (Hdoc' & Hscore & Hown) & Hshow & Hpscore).
        simpl in *. split; [now exists doc|]. split; congruence.
      * intros Hprintable. rewrite <- Hslen'. apply Hfull.
        apply Forall_forall. intros [doc score] Hin. simpl.
        apply list_elem_of_In, In_nth_error in Hin as [j Hj].
        destruct (Forall2_nth_error _ _ _ _ _ (proj2 (Forall2_flip _ _ _) Hsel) Hj)
          as (pair & _ & Hentry & _).
        simpl in Hentry. apply nth_error_In in Hentry.
        rewrite Forall_forall in Hprintable.
        now apply Hprintable, list_elem_of_In.
Qed.

Lemma sample_feed_printable : Forall Bm25.printable Samples.feed_entries.
Proof. repeat constructor; eexists; reflexivity. Qed.

Lemma documents_are_top_scored_witness :
  length Samples.docs = length Samples.feed_entries
  /\ 2 <= length Samples.feed_entries
  /\ length (Samples.count_scores Samples.docs Samples.query) = length Samples.docs
  /\ 0 < 2
  /\ (exists documents final_scores,
        Bm25.select Samples.feed_entries
          (Bm25.get_bm25_scores Samples.count_scores Samples.docs Samples.query) 2%Z
        = Ok (documents, final_scores)
        /\ length documents = 2)
  /\ exists printed stopped,
       Bm25.search_output Samples.feed_entries
         (Bm25.get_bm25_scores Samples.count_scores Samples.docs Samples.query) 2%Z
       = (printed, stopped)
       /\ length printed = 2.
Proof.
  assert (length Samples.docs = length Samples.feed_entries) as H1 by reflexivity.
  assert (2 <= length Samples.feed_entries) as H2 by (simpl; lia).
  assert (length (Samples.count_scores Samples.docs Samples.query)
          = length Samples.docs) as H3 by reflexivity.
  assert (0 < 2) as H4 by lia.
  split; [exact H1|]. split; [exact H2|]. split; [exact H3|]. split; [exact H4|].
  destruct (documents_are_top_scored Samples.count_scores Samples.feed_entries
              Samples.docs Samples.query 2 H1 H2 H3)
    as (Hselect & printed & stopped & Hrun & _ & _ & Hall).
  split.
  - destruct (Hselect H4) as (documents & final_scores & Hs & Hl & _).
    exists documents, final_scores. split; [exact Hs | exact Hl].
  - exists printed, stopped. split; [exact Hrun|].
    exact (Hall sample_feed_printable).
Defined.

(** On the sample feed the two entries printed are B and D, with three
    query words each; an empty score list stops the notebook at the
    selection; and an entry without a title stops the print loop when its
    turn comes. *)
Example selection_sample :
  let scores := Bm25.get_bm25_scores Samples.count_scores Samples.docs Samples.query in
  let line name text score :=
    {| Bm25.printed_title := name;
       Bm25.printed_link := "http://arxiv.org/abs/" +:+ name;
       Bm25.printed_summary := text;
       Bm25.printed_score := score |} in
  let untitled :=
    {| Feed.title := None; Feed.link := Some "http://arxiv.org/abs/E";
       Feed.summary := Some "Speech"; Feed.published_parsed := None |} in
  Bm25.search_output Samples.feed_entries scores 2%Z
  = ([line "B" "Natural language inference" (3 # 1)%Q;
      line "D" "Inference in natural language" (3 # 1)%Q], None)
  /\ Bm25.search_output [] [] 0%Z = ([], Some Py.IndexError)
  /\ Bm25.search_output [Samples.abstract "A" "The Language Model"; untitled]
       [(0, 1%Q); (1, 0%Q)] 2%Z
     = ([line "A" "The Language Model" 1%Q], Some (Py.AttributeError "title")).
Proof. repeat split; reflexivity. Qed.

(** ** Loops that append *)

Section ForAppendFacts.
Context {X Y : Type}.
Variable body : X -> result Y.

Lemma for_append_Ok (xs : list X) (ys acc : list Y) :
  Forall2 (fun x y => body x = Ok y) xs ys ->
  Py.for_append body xs acc = (acc ++ ys, None).
Proof.
  intros H. revert acc. induction H as [|x y xs ys Hxy _ IH]; intros acc; simpl.
  - now rewrite app_nil_r.
  - rewrite Hxy, IH, <- app_assoc. reflexivity.
Qed.

Lemma for_append_Raised (done rest : list X) (x : X) (ys acc : list Y) (e : Py.exn) :
  Forall2 (fun x y => body x = Ok y) done ys ->
  body x = Raised e ->
  Py.for_append body (done ++ x :: rest) acc = (acc ++ ys, Some e).
Proof.
  intros H Hx. revert acc. induction H as [|x' y xs ys Hxy _ IH]; intros acc; simpl.
  - now rewrite Hx, app_nil_r.
  - rewrite Hxy, IH, <- app_assoc. reflexivity.
Qed.

Lemma for_append_completes (xs : list X) (acc out : list Y) :
  Py.for_append body xs acc = (out, None) ->
  exists ys, out = acc ++ ys /\ Forall2 (fun x y => body x = Ok y) xs ys.
Proof.
  revert acc. induction xs as [|x xs IH]; intros acc; simpl.
  - intros [= <-]. exists []. split; [now rewrite app_nil_r | constructor].
  - destruct (body x) as [y|e] eqn:Ex; [|discriminate].
    intros H. apply IH in H as (ys & -> & Hys).
    exists (y :: ys). split; [now rewrite <- app_assoc | now constructor].
Qed.

Lemma for_append_total (xs : list X) (acc : list Y) :
  Forall (fun x => exists y, body x = Ok y) xs ->
  exists ys, Py.for_append body xs acc = (acc ++ ys, None)
             /\ Forall2 (fun x y => body x = Ok y) xs ys.
Proof.
  intros H.
  assert (exists ys, Forall2 (fun x y => body x = Ok y) xs ys) as [ys Hys].
  { induction H as [|x xs [y Hy] _ [ys Hys]]; [now exists []|].
    exists (y :: ys). now constructor. }
  exists ys. split; [now apply for_append_Ok | exact Hys].
Qed.
End ForAppendFacts.

(** ** Strings *)

Lemma lower_char_idempotent (c : ascii) :
  Py.lower_char (Py.lower_char c) = Py.lower_char c.
Proof. destruct c as [[] [] [] [] [] [] [] []]; reflexivity. Qed.

Lemma lower_chars (s : string) :
  list_ascii_of_string (Py.lower s) = map Py.lower_char (list_ascii_of_string s).
Proof. unfold Py.lower. apply list_ascii_of_string_of_list_ascii. Qed.

Lemma lower_idempotent (s : string) : Py.lower (Py.lower s) = Py.lower s.
Proof.
  unfold Py.lower at 1. rewrite lower_chars, map_map. unfold Py.lower. f_equal.
  apply map_ext. intros c. apply lower_char_idempotent.
Qed.

(** A string made of characters of a lowercased text is its own lowercase. *)
Lemma lower_incl (t s : string) :
  incl (list_ascii_of_string t) (list_ascii_of_string (Py.lower s)) ->
  Py.lower t = t.
Proof.
  intros H. unfold Py.lower.
  rewrite <- (string_of_list_ascii_of_string t) at 2. f_equal.
  rewrite <- (map_id (list_ascii_of_string t)) at 2.
  apply map_ext_in. intros c Hc. apply H in Hc.
  rewrite lower_chars in Hc. apply in_map_iff in Hc as (c' & <- & _).
  apply lower_char_idempotent.
Qed.



(** ** The preprocessing loop of the BM25 notebook *)

Section PreprocessingFacts.
Variable stop_words : list string.
Variables re_sub_specials re_sub_spaces : string -> string.
Variable word_tokenize : string -> list string.

Let tokenize_summary :=
  Bm25.tokenize_summary stop_words re_sub_specials re_sub_spaces word_tokenize.

(** The tokenizer cuts the text: an alphabetic token is made of characters
    of the text it was cut from. *)
Hypothesis word_tokenize_cuts :
  forall s t, In t (word_tokenize s) -> Py.isalpha t = true ->
    incl (list_ascii_of_string t) (list_ascii_of_string s).

End PreprocessingFacts.





(** The sample feed gives the sample corpus. *)
Example tokenized_docs_sample :
  Bm25.tokenized_docs Samples.stop_words id id Samples.split_words Samples.feed_entries
  = (Samples.docs, None).
Proof. reflexivity. Qed.

(** Accented letters are letters: [Na<239>ve Bayes at the <201>cole], with
    the code points 239 (i with diaeresis) and 201 (capital e with acute
    accent), keeps its accented words, in lower case. *)
Example tokenize_summary_accents :
  Bm25.tokenize_summary Samples.stop_words id id Samples.split_words
    ("Na" +:+ String "239" "ve Bayes at the " +:+ String "201" "cole")
  = ["na" +:+ String "239" "ve"; "bayes"; "at"; String "233" "cole"].
Proof. reflexivity. Qed.

(** ** Visible text *)

Lemma tag_visible_parent (element : Html.element) :
  Html.tag_visible element = true <-> Html.parent_name element = "p".
Proof.
  unfold Html.tag_visible, Py.str_in. simpl.
  destruct (String.eqb_spec (Html.parent_name element) "p") as [E|E]; simpl.
  - tauto.
  - destruct (Html.is_comment element); split; intros H; congruence.
Qed.

(** C9. [tag_visible] returns [True] exactly for the elements whose parent
    tag is [p]; whether the element is a comment never changes the answer;
    and the texts that [text_from_html] joins are exactly the text nodes of
    the document, comments included, whose direct parent is a [p] tag, in
    document order. *)
Theorem tag_visible_iff_parent_is_p :
  (forall element,
      Html.tag_visible element = true <-> Html.parent_name element = "p")
  /\ (forall parent comment comment' text,
        Html.tag_visible {| Html.parent_name := parent; Html.is_comment := comment;
                            Html.text := text |}
        = Html.tag_visible {| Html.parent_name := parent; Html.is_comment := comment';
                              Html.text := text |})
  /\ (forall soup,
        Html.visible_texts soup
        = List.filter (fun e => String.eqb (Html.parent_name e) "p")
            (Html.findAll_text soup))
  /\ (forall soup element,
        In element (Html.visible_texts soup)
        <-> In element (Html.findAll_text soup) /\ Html.parent_name element = "p")
  /\ (forall (response : Type) (parse : response -> list Html.node) (html : response),
        Html.text_from_html parse html
        = Py.join " " (map (fun t => Py.strip (Html.text t))
                         (Html.visible_texts (parse html)))).
Proof.
  split; [exact tag_visible_parent|]. split; [|split; [|split]].
  - intros parent comment comment' text. unfold Html.tag_visible. simpl.
    destruct (Py.str_in parent ["p"]), comment, comment'; reflexivity.
  - intros soup. unfold Html.visible_texts. apply filter_ext.
    intros e. unfold Html.tag_visible, Py.str_in. simpl.
    destruct (String.eqb (Html.parent_name e) "p"), (Html.is_comment e); reflexivity.
  - intros soup element. unfold Html.visible_texts.
    rewrite filter_In, tag_visible_parent. reflexivity.
  - reflexivity.
Qed.

(** A comment inside a paragraph is kept; a text inside a [div] is not. *)
Example text_from_html_sample :
  Html.text_from_html (fun html : list Html.node => html)
    [Html.Tag "html"
       [Html.Tag "body"
          [Html.Tag "div" [Html.NavigableString "menu"];
           Html.Tag "p" [Html.NavigableString " Deep learning ";
                         Html.Comment "a note";
                         Html.Tag "b" [Html.NavigableString "bold"]];
           Html.Comment "footer"]]]
  = "Deep learning a note".
Proof. reflexivity. Qed.

(** ** classifier and summarise *)

Lemma str_slice_to_chars (s : string) (n : nat) :
  list_ascii_of_string (Py.str_slice_to s (Z.of_nat n))
  = firstn n (list_ascii_of_string s).
Proof.
  unfold Py.str_slice_to.
  now rewrite list_ascii_of_string_of_list_ascii, slice_to_nat.
Qed.

Lemma str_slice_to_agree (s1 s2 : string) (n : nat) :
  firstn n (list_ascii_of_string s1) = firstn n (list_ascii_of_string s2) ->
  Py.str_slice_to s1 (Z.of_nat n) = Py.str_slice_to s2 (Z.of_nat n).
Proof.
  intros H. unfold Py.str_slice_to. now rewrite !slice_to_nat, H.
Qed.

(** C5. [classifier] and [summarise] hand the pipeline the first 1024
    characters of [source_text] and nothing else: each calls its pipeline on
    [source_text[:1024]], [summarise] then taking the first summary of the
    answer, so two source texts that agree on their first 1024 characters
    give the same pipeline input, hence the same call and the same answer,
    whatever the pipeline is. *)
Theorem pipelines_get_first_1024_characters
    (zero_shot_classification : string -> string -> result Articles.classification)
    (summarization : string -> result (list string))
    (re_sub_punctuation : string -> string)
    (search_term source_text source_text' : string) :
  firstn 1024 (list_ascii_of_string source_text)
  = firstn 1024 (list_ascii_of_string source_text') ->
  Py.str_slice_to source_text 1024 = Py.str_slice_to source_text' 1024
  /\ list_ascii_of_string (Py.str_slice_to source_text 1024)
     = firstn 1024 (list_ascii_of_string source_text)
  /\ Articles.classifier zero_shot_classification source_text search_term
     = zero_shot_classification (Py.str_slice_to source_text 1024) search_term
  /\ Articles.classifier zero_shot_classification source_text search_term
     = Articles.classifier zero_shot_classification source_text' search_term
  /\ Articles.summarise summarization re_sub_punctuation source_text
     = (summaries ← summarization (Py.str_slice_to source_text 1024);
        summary_text ← Py.getitem summaries 0;
        mret (re_sub_punctuation summary_text))
  /\ Articles.summarise summarization re_sub_punctuation source_text
     = Articles.summarise summarization re_sub_punctuation source_text'.
Proof.
  intros H.
  pose proof (str_slice_to_agree _ _ 1024 H) as Hslice.
  change (Z.of_nat 1024) with 1024%Z in Hslice.
  split; [exact Hslice|]. split; [apply (str_slice_to_chars _ 1024)|].
  split; [|split; [|split]].
  - unfold Articles.classifier.
    now destruct (zero_shot_classification _ _).
  - unfold Articles.classifier. now rewrite Hslice.
  - reflexivity.
  - unfold Articles.summarise. now rewrite Hslice.
Qed.

Lemma pipelines_get_first_1024_characters_witness :
  firstn 1024 (list_ascii_of_string (Samples.long_text "x"))
  = firstn 1024 (list_ascii_of_string (Samples.long_text "yz"))
  /\ Articles.classifier Samples.zero_shot (Samples.long_text "x") "machine learning"
     = Articles.classifier Samples.zero_shot (Samples.long_text "yz") "machine learning"
  /\ Articles.summarise Samples.summarization id (Samples.long_text "x")
     = Articles.summarise Samples.summarization id (Samples.long_text "yz").
Proof.
  assert (firstn 1024 (list_ascii_of_string (Samples.long_text "x"))
          = firstn 1024 (list_ascii_of_string (Samples.long_text "yz"))) as H
    by (vm_compute; reflexivity).
  split; [exact H|].
  destruct (pipelines_get_first_1024_characters Samples.zero_shot
              Samples.summarization id "machine learning" _ _ H)
    as (_ & _ & _ & Hc & _ & Hs).
  split; [exact Hc | exact Hs].
Defined.

(** The sample summariser answers with the text it is given: the summary of
    a text of 1025 characters is its first 1024 characters, and the sample
    classifier scores that many hundredths. *)
Example pipelines_sample :
  (s ← Articles.summarise Samples.summarization id (Samples.long_text "x");
   mret (String.length s)) = Ok 1024
  /\ (c ← Articles.classifier Samples.zero_shot (Samples.long_text "x") "machine learning";
      mret (Articles.scores c)) = Ok [(1024 # 100)%Q].
Proof. split; vm_compute; reflexivity. Qed.

(** ** The ranking loop of the article notebook *)

Section RankingFacts.
Context {response float : Type}.
Variable requests_get : string -> result response.
Variable BeautifulSoup_lxml : response -> list Html.node.
Variable zero_shot_classification :
  string -> string -> result (Articles.classification_of float).
Variable time_time : nat -> Q.
Variable time_mktime : Feed.struct_time -> result Q.
Variable search_term : string.
Variable days : Z.

Let rank_entry :=
  Articles.rank_entry requests_get BeautifulSoup_lxml zero_shot_classification
    search_term.
Let rank_feed :=
  Articles.rank_feed requests_get BeautifulSoup_lxml zero_shot_classification
    time_time time_mktime search_term days.

(** What a successful iteration read and stored. *)
Lemma rank_entry_Ok (entry : Feed.entry)
    (article : gmap string (Articles.value float)) :
  rank_entry entry = Ok article ->
  exists title link html published classification relevancy,
    Feed.title entry = Some title
    /\ Feed.link entry = Some link
    /\ Feed.published_parsed entry = Some published
    /\ requests_get link = Ok html
    /\ Articles.classifier zero_shot_classification
         (Html.text_from_html BeautifulSoup_lxml html) search_term
       = Ok classification
    /\ nth_error (Articles.scores classification) 0 = Some relevancy
    /\ article = Articles.make_article title link
                   (Html.text_from_html BeautifulSoup_lxml html)
                   published relevancy.
Proof.
  unfold rank_entry, Articles.rank_entry.
  destruct (Feed.link entry) as [link|]; simpl; [|discriminate].
  destruct (requests_get link) as [html|] eqn:Eg; simpl; [|discriminate].
  destruct (Articles.classifier _ _ _) as [classification|] eqn:Ec; simpl;
    [|discriminate].
  destruct (Feed.title entry) as [title|]; simpl; [|discriminate].
  destruct (Feed.published_parsed entry) as [published|]; simpl; [|discriminate].
  unfold Py.getitem.
  destruct (nth_error (Articles.scores classification) 0) as [relevancy|] eqn:Er;
    simpl; [|discriminate].
  intros [= <-].
  exists title, link, html, published, classification, relevancy.
  repeat split; try reflexivity; assumption.
Qed.

Lemma make_article_fields title link src_text published (relevancy : float) :
  let article := Articles.make_article title link src_text published relevancy in
  dom article = ({["title"; "link"; "src_text"; "published"; "relevancy"]} : gset string)
  /\ article !! "title" = Some (Articles.VStr title)
  /\ article !! "link" = Some (Articles.VStr link)
  /\ article !! "src_text" = Some (Articles.VStr src_text)
  /\ article !! "published" = Some (Articles.date_value published)
  /\ article !! "relevancy" = Some (Articles.VFloat relevancy).
Proof.
  unfold Articles.make_article. simpl. split.
  - rewrite !dom_insert_L, dom_empty_L. set_solver.
  - repeat split; now simplify_map_eq.
Qed.
End RankingFacts.

(** C6. Nothing in the notebooks catches an exception.  In the ranking
    cell a missing attribute of an entry, a failure of [requests.get] and a
    failure of the classifier each end the iteration with that exception; an
    exception in the date filter ends the cell with [articles] still empty;
    and when the iteration of entry [k] raises, the cell ends with that
    exception while [articles] holds exactly the records of the entries
    before [k]: no entry after [k] is processed, and nothing appended is
    taken back.  The preprocessing loop of the BM25 notebook ends the same
    way at an entry without a summary. *)
Theorem rank_feed_stops_at_first_failure
    {response : Type}
    (requests_get : string -> result response)
    (BeautifulSoup_lxml : response -> list Html.node)
    (zero_shot_classification : string -> string -> result Articles.classification)
    (time_time : nat -> Q) (time_mktime : Feed.struct_time -> result Q)
    (search_term : string) (days : Z) :
  let rank_entry :=
    Articles.rank_entry requests_get BeautifulSoup_lxml zero_shot_classification
      search_term in
  let recent_entries := Articles.recent_entries time_time time_mktime days in
  let rank_feed :=
    Articles.rank_feed requests_get BeautifulSoup_lxml zero_shot_classification
      time_time time_mktime search_term days in
  (forall entry,
      Feed.link entry = None ->
      rank_entry entry = Raised (Py.AttributeError "link"))
  /\ (forall entry url e,
        Feed.link entry = Some url -> requests_get url = Raised e ->
        rank_entry entry = Raised e)
  /\ (forall entry url html e,
        Feed.link entry = Some url -> requests_get url = Ok html ->
        Articles.classifier zero_shot_classification
          (Html.text_from_html BeautifulSoup_lxml html) search_term = Raised e ->
        rank_entry entry = Raised e)
  /\ (forall entry url html classification,
        Feed.link entry = Some url -> requests_get url = Ok html ->
        Articles.classifier zero_shot_classification
          (Html.text_from_html BeautifulSoup_lxml html) search_term
        = Ok classification ->
        Feed.title entry = None ->
        rank_entry entry = Raised (Py.AttributeError "title"))
  /\ (forall newsfeed_entries e,
        recent_entries 0 newsfeed_entries = Raised e ->
        rank_feed newsfeed_entries = ([], Some e))
  /\ (forall newsfeed_entries before entry after articles e,
        recent_entries 0 newsfeed_entries = Ok (before ++ entry :: after) ->
        Forall2 (fun entry article => rank_entry entry = Ok article) before articles ->
        rank_entry entry = Raised e ->
        rank_feed newsfeed_entries = (articles, Some e))
  /\ (forall stop_words re_sub_specials re_sub_spaces word_tokenize
             before doc after docs,
        Forall2 (fun doc tokens =>
                   Bm25.tokenize_entry stop_words re_sub_specials re_sub_spaces
                     word_tokenize doc = Ok tokens) before docs ->
        Feed.summary doc = None ->
        Bm25.tokenized_docs stop_words re_sub_specials re_sub_spaces word_tokenize
          (before ++ doc :: after)
        = (docs, Some (Py.AttributeError "summary"))).
Proof.
  intros rank_entry recent_entries rank_feed.
  subst rank_entry recent_entries rank_feed.
  split; [intros entry Hl; unfold Articles.rank_entry; now rewrite Hl|].
  split.
  { intros entry url e Hl Hg. unfold Articles.rank_entry.
    rewrite Hl. simpl. now rewrite Hg. }
  split.
  { intros entry url html e Hl Hg Hc. unfold Articles.rank_entry.
    rewrite Hl. simpl. rewrite Hg. simpl. now rewrite Hc. }
  split.
  { intros entry url html classification Hl Hg Hc Ht. unfold Articles.rank_entry.
    rewrite Hl. simpl. rewrite Hg. simpl. rewrite Hc. simpl. now rewrite Ht. }
  split; [intros newsfeed_entries e He; unfold Articles.rank_feed; now rewrite He|].
  split.
  { intros newsfeed_entries before entry after articles e Hrecent Hbefore Hentry.
    unfold Articles.rank_feed. rewrite Hrecent.
    now rewrite (for_append_Raised _ before after entry articles [] e Hbefore Hentry). }
  intros stop_words re_sub_specials re_sub_spaces word_tokenize before doc after docs
    Hbefore Hdoc.
  unfold Bm25.tokenized_docs.
  rewrite (for_append_Raised _ before after doc docs [] (Py.AttributeError "summary")
             Hbefore); [reflexivity|].
  unfold Bm25.tokenize_entry. now rewrite Hdoc.
Qed.

Lemma rank_feed_stops_at_first_failure_witness :
  let rank_entry :=
    Articles.rank_entry Samples.requests_get Samples.parse_page Samples.zero_shot
      "machine learning" in
  Articles.recent_entries Samples.clock Samples.mktime 7 0 Samples.broken_newsfeed
  = Ok ([Samples.news "ml" 5]
          ++ {| Feed.title := None; Feed.link := Some "http://blog/untitled";
                Feed.summary := None;
                Feed.published_parsed := Some (Some (Samples.day 6)) |}
          :: [Samples.news "sagemaker" 8])
  /\ Forall2 (fun entry article => rank_entry entry = Ok article)
       [Samples.news "ml" 5] [Samples.ranked "ml" 5]
  /\ Articles.rank_feed Samples.requests_get Samples.parse_page Samples.zero_shot
       Samples.clock Samples.mktime "machine learning" 7 Samples.broken_newsfeed
     = ([Samples.ranked "ml" 5], Some (Py.AttributeError "title")).
Proof.
  intros rank_entry.
  assert (Articles.recent_entries Samples.clock Samples.mktime 7 0
            Samples.broken_newsfeed
          = Ok ([Samples.news "ml" 5]
                  ++ {| Feed.title := None; Feed.link := Some "http://blog/untitled";
                        Feed.summary := None;
                        Feed.published_parsed := Some (Some (Samples.day 6)) |}
                  :: [Samples.news "sagemaker" 8])) as Hrecent
    by (vm_compute; reflexivity).
  assert (Forall2 (fun entry article => rank_entry entry = Ok article)
            [Samples.news "ml" 5] [Samples.ranked "ml" 5]) as Hbefore
    by (repeat constructor; vm_compute; reflexivity).
  split; [exact Hrecent|]. split; [exact Hbefore|].
  refine (proj1 (proj2 (proj2 (proj2 (proj2 (proj2
            (rank_feed_stops_at_first_failure Samples.requests_get Samples.parse_page
               Samples.zero_shot Samples.clock Samples.mktime "machine learning" 7))))))
            _ _ _ _ _ _ Hrecent Hbefore _).
  vm_compute; reflexivity.
Defined.

Lemma Forall2_Forall_l {A B} (P : A -> Prop) (Q : A -> B -> Prop)
    (l : list A) (k : list B) :
  Forall P l -> Forall2 Q l k -> Forall2 (fun a b => P a /\ Q a b) l k.
Proof.
  intros HP HQ. induction HQ as [|a b l k Hab _ IH]; [constructor|].
  apply Forall_cons in HP as [Ha Hl]. constructor; [now split | now apply IH].
Qed.

(** ** The date filter *)

Section DateFilterFacts.
Variable time_time : nat -> Q.
Variable time_mktime : Feed.struct_time -> result Q.
Variable days : Z.

Lemma recent_entries_filter (k : nat) (newsfeed_entries entries : list Feed.entry) :
  Articles.recent_entries time_time time_mktime days k newsfeed_entries = Ok entries ->
  entries
  = map snd (List.filter
               (fun ke => Articles.passes_date_filter time_time time_mktime days
                            (fst ke) (snd ke))
               (combine (seq k (length newsfeed_entries)) newsfeed_entries)).
Proof.
  revert k entries. induction newsfeed_entries as [|entry rest IH]; intros k entries.
  - now intros [= <-].
  - cbn [Articles.recent_entries length seq combine List.filter fst snd].
    unfold Articles.passes_date_filter at 1.
    destruct (Feed.published_parsed entry) as [[published|]|]; simpl;
      [|discriminate|discriminate].
    destruct (time_mktime published) as [seconds|]; simpl; [|discriminate].
    destruct (Articles.recent_entries _ _ _ (S k) rest) as [kept|] eqn:Ek; simpl;
      [|discriminate].
    intros [= <-]. rewrite (IH _ _ Ek).
    now destruct (Py.float_lt _ _).
Qed.

(** The filter returns only when every entry of the feed has a date that
    [time.mktime] converts. *)
Lemma recent_entries_dated (k : nat) (newsfeed_entries entries : list Feed.entry) :
  Articles.recent_entries time_time time_mktime days k newsfeed_entries = Ok entries ->
  Forall (fun entry => exists published seconds,
            Feed.published_parsed entry = Some (Some published)
            /\ time_mktime published = Ok seconds) newsfeed_entries.
Proof.
  revert k entries. induction newsfeed_entries as [|entry rest IH]; intros k entries.
  - constructor.
  - cbn [Articles.recent_entries].
    destruct (Feed.published_parsed entry) as [[published|]|] eqn:Ep; simpl;
      [|discriminate|discriminate].
    destruct (time_mktime published) as [seconds|] eqn:Em; simpl; [|discriminate].
    destruct (Articles.recent_entries _ _ _ (S k) rest) as [kept|] eqn:Ek; simpl;
      [|discriminate].
    intros _. constructor; [now exists published, seconds | eapply IH, Ek].
Qed.

Lemma recent_entries_incl (k : nat) (newsfeed_entries entries : list Feed.entry) :
  Articles.recent_entries time_time time_mktime days k newsfeed_entries = Ok entries ->
  incl entries newsfeed_entries.
Proof.
  intros H entry Hin. rewrite (recent_entries_filter _ _ _ H) in Hin.
  apply in_map_iff in Hin as ([j e] & <- & Hin). apply filter_In in Hin as [Hin _].
  now apply in_combine_r in Hin.
Qed.
End DateFilterFacts.

(** C7. When the ranking cell completes, [articles] holds one record per
    feed entry that passed the date filter, in the order of the feed.  Each
    record has exactly the keys [title], [link], [src_text], [published] and
    [relevancy]; its title, link and date are those of its entry; its
    [src_text] is the visible text of the page fetched from the link; and its
    relevancy is the first score that the classifier returned for that text
    and the search term, stored as it came.  The loop checks nothing about
    the score: it is a finite number because the scores of the pipeline are,
    which is the hypothesis here.  Records of entries with
    different links are different records. *)
Theorem rank_feed_one_article_per_recent_entry
    {response : Type}
    (requests_get : string -> result response)
    (BeautifulSoup_lxml : response -> list Html.node)
    (zero_shot_classification :
       string -> string -> result (Articles.classification_of Py.float))
    (time_time : nat -> Q) (time_mktime : Feed.struct_time -> result Q)
    (search_term : string) (days : Z)
    (newsfeed_entries : list Feed.entry)
    (articles : list (gmap string (Articles.value Py.float))) :
  (forall text label classification,
      zero_shot_classification text label = Ok classification ->
      Forall (fun score => Py.isfinite score = true)
        (Articles.scores classification)) ->
  Articles.rank_feed requests_get BeautifulSoup_lxml zero_shot_classification
    time_time time_mktime search_term days newsfeed_entries = (articles, None) ->
  exists entries,
    entries
    = map snd (List.filter
                 (fun ke => Articles.passes_date_filter time_time time_mktime days
                              (fst ke) (snd ke))
                 (Py.enumerate newsfeed_entries))
    /\ length articles = length entries
    /\ Forall2
         (fun entry article =>
            dom article
            = ({["title"; "link"; "src_text"; "published"; "relevancy"]} : gset string)
            /\ (exists title, Feed.title entry = Some title
                  /\ article !! "title" = Some (Articles.VStr title))
            /\ (exists published, Feed.published_parsed entry = Some (Some published)
                  /\ article !! "published" = Some (Articles.VTime published))
            /\ (exists link html classification relevancy,
                  Feed.link entry = Some link
                  /\ article !! "link" = Some (Articles.VStr link)
                  /\ requests_get link = Ok html
                  /\ article !! "src_text"
                     = Some (Articles.VStr (Html.text_from_html BeautifulSoup_lxml html))
                  /\ Articles.classifier zero_shot_classification
                       (Html.text_from_html BeautifulSoup_lxml html) search_term
                     = Ok classification
                  /\ nth_error (Articles.scores classification) 0 = Some relevancy
                  /\ article !! "relevancy" = Some (Articles.VFloat relevancy)
                  /\ Py.isfinite relevancy = true))
         entries articles
    /\ (NoDup (map Feed.link entries) -> NoDup articles).
Proof.
  intros Hfinite. unfold Articles.rank_feed.
  destruct (Articles.recent_entries _ _ _ 0 newsfeed_entries) as [entries|] eqn:Er;
    [|discriminate].
  intros Hrun. apply for_append_completes in Hrun as (ys & -> & Hall). simpl.
  exists entries. split; [now apply recent_entries_filter|].
  split; [symmetry; eapply Forall2_length, Hall|].
  assert (Forall (fun entry => exists published,
                    Feed.published_parsed entry = Some (Some published)) entries)
    as Hdated.
  { apply Forall_forall. intros entry Hin. apply list_elem_of_In in Hin.
    apply (recent_entries_incl _ _ _ _ _ _ Er) in Hin.
    pose proof (recent_entries_dated _ _ _ _ _ _ Er) as Hall'.
    rewrite Forall_forall in Hall'. apply list_elem_of_In, Hall' in Hin.
    destruct Hin as (published & _ & Hp & _). now exists published. }
  assert (Forall2
            (fun entry article =>
               exists title link html published classification relevancy,
                 Feed.title entry = Some title /\ Feed.link entry = Some link
                 /\ Feed.published_parsed entry = Some (Some published)
                 /\ requests_get link = Ok html
                 /\ Articles.classifier zero_shot_classification
                      (Html.text_from_html BeautifulSoup_lxml html) search_term
                    = Ok classification
                 /\ nth_error (Articles.scores classification) 0 = Some relevancy
                 /\ article = Articles.make_article title link
                                (Html.text_from_html BeautifulSoup_lxml html)
                                (Some published) relevancy) entries ys) as Hmade.
  { eapply Forall2_impl; [exact (Forall2_Forall_l _ _ _ _ Hdated Hall)|].
    intros entry article [[published Hdate] H].
    apply rank_entry_Ok in H
      as (title & link & html & published' & c & relevancy
          & Ht & Hl & Hp & Hg & Hc & Hr & ->).
    assert (published' = Some published) as -> by congruence.
    now exists title, link, html, published, c, relevancy. }
  clear Hall Er Hdated. split.
  - eapply Forall2_impl; [exact Hmade|]. intros entry article
      (title & link & html & published & c & relevancy
       & Ht & Hl & Hp & Hg & Hc & Hr & ->).
    destruct (make_article_fields title link
                (Html.text_from_html BeautifulSoup_lxml html) (Some published) relevancy)
      as (Hdom & H1 & H2 & H3 & H4 & H5).
    split; [exact Hdom|].
    split; [now exists title|]. split; [now exists published|].
    exists link, html, c, relevancy.
    split; [exact Hl|]. split; [exact H2|]. split; [exact Hg|]. split; [exact H3|].
    split; [exact Hc|]. split; [exact Hr|]. split; [exact H5|].
    unfold Articles.classifier in Hc.
    destruct (zero_shot_classification _ _) as [c'|] eqn:Ez; simpl in Hc;
      [|discriminate].
    injection Hc as <-. pose proof (Hfinite _ _ _ Ez) as Hall.
    rewrite Forall_forall in Hall. apply Hall, list_elem_of_In.
    eapply nth_error_In, Hr.
  - induction Hmade as [|entry article entries ys Hhead Htail IH]; [constructor|].
    simpl. rewrite !NoDup_cons. intros [Hnew Hrest]. split; [|now apply IH].
    intros Hin. apply Hnew. apply list_elem_of_In in Hin.
    apply In_nth_error in Hin as [j Hj].
    destruct (Forall2_nth_error _ _ _ _ _ (proj2 (Forall2_flip _ _ _) Htail) Hj)
      as (entry' & Hj' & Hrel).
    unfold flip in Hrel.
    destruct Hrel as (t' & l' & h' & p' & c' & r' & _ & Hl' & _ & _ & _ & _ & Ha').
    destruct Hhead as (t & l & h & p & c & r & _ & Hl & _ & _ & _ & _ & Ha).
    assert (l = l') as <-.
    { pose proof (proj1 (proj2 (proj2 (make_article_fields t l
                    (Html.text_from_html BeautifulSoup_lxml h) (Some p) r)))) as H1.
      pose proof (proj1 (proj2 (proj2 (make_article_fields t' l'
                    (Html.text_from_html BeautifulSoup_lxml h') (Some p') r')))) as H2.
      simpl in H1, H2. rewrite <- Ha in H1. rewrite <- Ha' in H2. congruence. }
    apply list_elem_of_In, in_map_iff. exists entry'. split; [congruence|].
    eapply nth_error_In, Hj'.
Qed.

Lemma sample_scores_finite (text label : string)
    (classification : Articles.classification_of Py.float) :
  Samples.zero_shot_float text label = Ok classification ->
  Forall (fun score => Py.isfinite score = true) (Articles.scores classification).
Proof. intros [= <-]. now repeat constructor. Qed.

Lemma rank_feed_one_article_per_recent_entry_witness :
  Articles.rank_feed Samples.requests_get Samples.parse_page Samples.zero_shot_float
    Samples.clock Samples.mktime "machine learning" 7 Samples.newsfeed
  = ([Samples.ranked_float "ml" 5; Samples.ranked_float "sagemaker" 8], None)
  /\ exists entries,
       length [Samples.ranked_float "ml" 5; Samples.ranked_float "sagemaker" 8]
       = length entries
       /\ (NoDup (map Feed.link entries) ->
           NoDup [Samples.ranked_float "ml" 5; Samples.ranked_float "sagemaker" 8]).
Proof.
  assert (Articles.rank_feed Samples.requests_get Samples.parse_page
            Samples.zero_shot_float
            Samples.clock Samples.mktime "machine learning" 7 Samples.newsfeed
          = ([Samples.ranked_float "ml" 5; Samples.ranked_float "sagemaker" 8], None))
    as Hrun by (vm_compute; reflexivity).
  split; [exact Hrun|].
  destruct (rank_feed_one_article_per_recent_entry _ _ _ _ _ _ _ _ _
              sample_scores_finite Hrun)
    as (entries & _ & Hlen & _ & Hnodup).
  exists entries. split; [exact Hlen | exact Hnodup].
Defined.

(** A classifier that answers with nan completes the ranking cell all the
    same, and the record carries the nan: the finiteness of the relevancy is
    the classifier's, not the loop's. *)
Example rank_feed_stores_nan :
  exists article,
    Articles.rank_feed Samples.requests_get Samples.parse_page Samples.zero_shot_nan
      Samples.clock Samples.mktime "machine learning" 7 [Samples.news "ml" 5]
    = ([article], None)
    /\ article !! "relevancy" = Some (Articles.VFloat Py.NaN).
Proof. eexists. split; vm_compute; reflexivity. Qed.

(** ** Sorting and showing the articles *)

Lemma map_snd_combine_Forall2 {A B} (P : A -> B -> Prop) (l : list A) (k : list B) :
  Forall2 P l k ->
  map snd (combine k l) = l /\ Forall (fun p => P (snd p) (fst p)) (combine k l).
Proof.
  induction 1 as [|a b l k Hab _ [IH1 IH2]]; simpl; [split; [reflexivity|constructor]|].
  split; [now rewrite IH1 | now constructor].
Qed.

Lemma StronglySorted_map_Forall {A B} (f : A -> B) (P : A -> Prop)
    (R : A -> A -> Prop) (S : B -> B -> Prop) (l : list A) :
  (forall x y, P x -> P y -> R x y -> S (f x) (f y)) ->
  Forall P l -> StronglySorted R l -> StronglySorted S (map f l).
Proof.
  intros HS HP H. induction H as [|x l _ IH Hx]; simpl; [constructor|].
  apply Forall_cons in HP as [Px Pl]. constructor; [now apply IH|].
  rewrite Forall_forall in Hx, Pl.
  apply Forall_forall. intros y Hy.
  apply list_elem_of_In, in_map_iff in Hy as (a & <- & Ha).
  apply list_elem_of_In in Ha. apply HS; auto.
Qed.

Lemma make_article_has_fields title link src_text published relevancy :
  Articles.has_fields
    (Articles.make_article title link src_text published relevancy)
    (Articles.VStr title) (Articles.VStr link) src_text relevancy.
Proof.
  destruct (make_article_fields title link src_text published relevancy)
    as (_ & H1 & H2 & H3 & _ & H5).
  now repeat split.
Qed.

Lemma relevancy_has_fields article title link src_text relevancy :
  Articles.has_fields article title link src_text relevancy ->
  Articles.relevancy article = Ok relevancy.
Proof.
  intros (_ & _ & _ & H). unfold Articles.relevancy, Articles.getkey.
  now rewrite H.
Qed.

Section ShowFacts.
Variable summarization : string -> result (list string).
Variable re_sub_punctuation : string -> string.
Variable search_term : string.

Lemma show_article_has_fields article title link src_text relevancy summary :
  Articles.has_fields article title link src_text relevancy ->
  Articles.summarise summarization re_sub_punctuation src_text = Ok summary ->
  Articles.show_article summarization re_sub_punctuation search_term article
  = Ok {| Articles.shown_title := title;
          Articles.shown_link := link;
          Articles.shown_summary := summary;
          Articles.shown_search_term := search_term;
          Articles.shown_score := (100 * relevancy)%Q |}.
Proof.
  intros Hf Hs. unfold Articles.show_article.
  rewrite (relevancy_has_fields _ _ _ _ _ Hf). unfold Articles.getkey.
  destruct Hf as (-> & -> & -> & _).
  simpl. now rewrite Hs.
Qed.
End ShowFacts.

(** C2. For a list of articles with the fields the ranking loop stores,
    [sorted_articles] is a permutation of [articles] in non-increasing order
    of [relevancy]; and, given that the summariser answers, the printing loop
    shows exactly the first [number_of_articles] records of that order, each
    with its own title, link, summary and score, and all records when there
    are fewer than [number_of_articles]. *)
Theorem sorted_articles_ranked_and_shown
    (summarization : string -> result (list string))
    (re_sub_punctuation : string -> string)
    (search_term : string) (number_of_articles : nat)
    (articles : list (gmap string Articles.pyval)) :
  Forall (fun article => exists title link src_text relevancy,
            Articles.has_fields article title link src_text relevancy)
         articles ->
  Forall (fun article => forall src_text,
            article !! "src_text" = Some (Articles.VStr src_text) ->
            exists summary,
              Articles.summarise summarization re_sub_punctuation src_text = Ok summary)
         articles ->
  exists sorted_articles,
    Articles.sorted_articles articles = Ok sorted_articles
    /\ Permutation sorted_articles articles
    /\ StronglySorted
         (fun a b => exists x y,
            Articles.relevancy a = Ok x /\ Articles.relevancy b = Ok y /\ (y <= x)%Q)
         sorted_articles
    /\ (length articles <= number_of_articles ->
        firstn number_of_articles sorted_articles = sorted_articles)
    /\ exists shown,
         Articles.print_articles summarization re_sub_punctuation search_term
           (Z.of_nat number_of_articles) sorted_articles = (shown, None)
         /\ length shown = Nat.min number_of_articles (length articles)
         /\ Forall2
              (fun article item =>
                 exists title link src_text relevancy,
                   Articles.has_fields article title link src_text relevancy
                   /\ Articles.summarise summarization re_sub_punctuation src_text
                      = Ok (Articles.shown_summary item)
                   /\ Articles.shown_title item = title
                   /\ Articles.shown_link item = link
                   /\ Articles.shown_search_term item = search_term
                   /\ Articles.shown_score item = (100 * relevancy)%Q)
              (firstn number_of_articles sorted_articles) shown.
Proof.
  intros Hfields Hsum.
  (* the keys *)
  destruct (list_comp_total Articles.relevancy articles) as [keys Hkeys].
  { eapply Forall_impl; [exact Hfields|].
    intros a (t & l & s & r & Hf). exists r. eapply relevancy_has_fields, Hf. }
  pose proof (proj1 (list_comp_Ok _ _ _) Hkeys) as Hall.
  destruct (map_snd_combine_Forall2 _ _ _ Hall) as [Hsnd Hpairs].
  set (pairs := Py.sorted Py.float_lt fst true (combine keys articles)).
  assert (Permutation pairs (combine keys articles)) as Hperm by apply sorted_perm.
  exists (map snd pairs).
  assert (Permutation (map snd pairs) articles) as Hperm'.
  { transitivity (map snd (combine keys articles));
      [now apply Permutation_map | now rewrite Hsnd]. }
  split; [unfold Articles.sorted_articles; now rewrite Hkeys|].
  split; [exact Hperm'|]. split; [|split].
  - apply (StronglySorted_map_Forall snd
             (fun p => Articles.relevancy (snd p) = Ok (fst p))
             (fun p q => Py.float_lt (fst p) (fst q) = false)).
    + intros [x a] [y b] Hx Hy Hle. simpl in *.
      exists x, y. repeat split; try assumption. now apply float_lt_false.
    + eapply Permutation_Forall; [symmetry; exact Hperm | exact Hpairs].
    + apply (sorted_reverse_sorted Py.float_lt fst float_lt_asym float_ge_trans).
  - intros Hlen. apply firstn_all2.
    now rewrite (Permutation_length Hperm').
  - unfold Articles.print_articles. rewrite slice_to_nat.
    set (top := firstn number_of_articles (map snd pairs)).
    assert (Forall (fun a => In a articles) top) as Htop.
    { apply Forall_forall. intros a Ha. apply list_elem_of_In in Ha.
      apply In_firstn in Ha. eapply Permutation_in; eauto. }
    assert (Forall (fun article => exists title link src_text relevancy summary,
                Articles.has_fields article title link src_text relevancy
                /\ Articles.summarise summarization re_sub_punctuation src_text
                   = Ok summary) top) as Hok.
    { eapply Forall_impl; [exact Htop|]. intros a Ha.
      rewrite Forall_forall in Hfields, Hsum. apply list_elem_of_In in Ha.
      destruct (Hfields a Ha) as (t & l & s & r & Hf).
      destruct (Hsum _ Ha s) as [summary Hs]; [apply Hf|].
      now exists t, l, s, r, summary. }
    destruct (for_append_total
                (Articles.show_article summarization re_sub_punctuation search_term)
                top []) as (shown & Hrun & Hshown).
    { eapply Forall_impl; [exact Hok|].
      intros a (t & l & s & r & summary & Hf & Hs).
      eexists. eapply show_article_has_fields; [exact Hf | exact Hs]. }
    exists shown. split; [exact Hrun|]. split.
    + rewrite <- (Forall2_length _ _ _ Hshown). unfold top.
      now rewrite length_firstn, (Permutation_length Hperm').
    + eapply Forall2_impl; [exact (Forall2_Forall_l _ _ _ _ Hok Hshown)|].
      intros a item [(t & l & s & r & summary & Hf & Hs) Hitem].
      rewrite (show_article_has_fields _ _ _ _ _ _ _ _ _ Hf Hs) in Hitem.
      injection Hitem as <-. now exists t, l, s, r.
Qed.

Lemma sorted_articles_ranked_and_shown_witness :
  let articles := [Samples.ranked "ml" 5; Samples.ranked "sagemaker" 8] in
  Forall (fun article => exists title link src_text relevancy,
            Articles.has_fields article title link src_text relevancy)
         articles
  /\ Forall (fun article => forall src_text,
               article !! "src_text" = Some (Articles.VStr src_text) ->
               exists summary,
                 Articles.summarise Samples.summarization id src_text = Ok summary)
            articles
  /\ exists sorted_articles,
       Articles.sorted_articles articles = Ok sorted_articles
       /\ Permutation sorted_articles articles.
Proof.
  intros articles.
  assert (Forall (fun article => exists title link src_text relevancy,
            Articles.has_fields article title link src_text relevancy)
            articles) as Hfields
    by (repeat constructor; do 4 eexists; apply make_article_has_fields).
  assert (Forall (fun article => forall src_text,
            article !! "src_text" = Some (Articles.VStr src_text) ->
            exists summary,
              Articles.summarise Samples.summarization id src_text = Ok summary)
            articles) as Hsum
    by (repeat constructor; intros src_text _; eexists; reflexivity).
  split; [exact Hfields|]. split; [exact Hsum|].
  destruct (sorted_articles_ranked_and_shown Samples.summarization id
              "machine learning" 1 articles Hfields Hsum)
    as (sorted_articles & Hsorted & Hperm & _).
  exists sorted_articles. split; [exact Hsorted | exact Hperm].
Defined.

(** The longer sample page scores higher, is sorted first, and is the one
    article shown when one is asked for. *)
Example sorted_articles_sample :
  Articles.sorted_articles [Samples.ranked "ml" 5; Samples.ranked "sagemaker" 8]
  = Ok [Samples.ranked "sagemaker" 8; Samples.ranked "ml" 5]
  /\ Articles.print_articles Samples.summarization id "machine learning" 1
       [Samples.ranked "sagemaker" 8; Samples.ranked "ml" 5]
     = ([{| Articles.shown_title := Articles.VStr "sagemaker";
            Articles.shown_link := Articles.VStr "http://blog/sagemaker";
            Articles.shown_summary := "All about http://blog/sagemaker";
            Articles.shown_search_term := "machine learning";
            Articles.shown_score := (3100 # 100)%Q |}], None).
Proof. split; vm_compute; reflexivity. Qed.

(** The records of a completed ranking cell have the fields that sorting and
    printing read. *)
Lemma rank_feed_articles_have_fields
    {response : Type}
    (requests_get : string -> result response)
    (BeautifulSoup_lxml : response -> list Html.node)
    (zero_shot_classification : string -> string -> result Articles.classification)
    (time_time : nat -> Q) (time_mktime : Feed.struct_time -> result Q)
    (search_term : string) (days : Z)
    (newsfeed_entries : list Feed.entry) (articles : list (gmap string Articles.pyval)) :
  Articles.rank_feed requests_get BeautifulSoup_lxml zero_shot_classification
    time_time time_mktime search_term days newsfeed_entries = (articles, None) ->
  Forall (fun article => exists title link src_text relevancy,
            Articles.has_fields article title link src_text relevancy)
         articles.
Proof.
  unfold Articles.rank_feed.
  destruct (Articles.recent_entries _ _ _ 0 newsfeed_entries) as [entries|];
    [|discriminate].
  intros Hrun. apply for_append_completes in Hrun as (ys & -> & Hall). simpl.
  induction Hall as [|entry article entries ys Hhead _ IH]; constructor; [|exact IH].
  apply rank_entry_Ok in Hhead
    as (title & link & html & published & c & relevancy & _ & _ & _ & _ & _ & _ & ->).
  do 4 eexists. apply make_article_has_fields.
Qed.

(** ** The semantic search *)

Lemma slice_from_minus_nat {A} (l : list A) (n : nat) :
  1 <= n -> Py.slice_from l (- Z.of_nat n) = skipn (length l - n) l.
Proof.
  intros Hn. unfold Py.slice_from, Py.slice_bound.
  destruct (Z.ltb_spec (- Z.of_nat n) 0) as [_|H]; [|lia].
  f_equal. lia.
Qed.

Lemma slice_from_minus_zero {A} (l : list A) : Py.slice_from l (- 0) = l.
Proof. reflexivity. Qed.

Lemma list_comp_getitem_nth {A} (d : A) (l : list A) (idx : list nat) :
  Forall (fun i => i < length l) idx ->
  Py.list_comp (fun i => Py.getitem l i) idx = Ok (map (fun i => nth i l d) idx).
Proof.
  intros H. apply list_comp_Ok.
  induction H as [|i idx Hi _ IH]; simpl; constructor; [|exact IH].
  apply getitem_Ok. now apply nth_error_nth'.
Qed.

Section SemanticFacts.
Variable similarities : list string -> string -> list Q.
Variable argsort : list Q -> list nat.
Variables (input_text : list string) (search_term : string).

Let results := similarities input_text search_term.

(** One similarity per sentence; [argsort] returns the indices of the
    array, in ascending order of the values they point to. *)
Hypothesis similarities_length : length results = length input_text.
Hypothesis argsort_perm : Permutation (argsort results) (seq 0 (length results)).
Hypothesis argsort_sorted :
  StronglySorted (fun i j => (nth i results 0 <= nth j results 0)%Q) (argsort results).

Let search_result := Semantic.search_result similarities input_text search_term.

Lemma search_results_of (selected : list nat) :
  Forall (fun i => In i (argsort results)) selected ->
  (scores ← Py.list_comp (fun i => Py.getitem results i) selected;
   sentences ← Py.list_comp (fun idx => Py.getitem input_text idx) selected;
   mret (combine sentences scores))
  = Ok (map search_result selected).
Proof.
  intros H.
  assert (Forall (fun i => i < length results) selected) as Hr.
  { eapply Forall_impl; [exact H|]. intros i Hi.
    eapply Permutation_in in Hi; [|exact argsort_perm].
    apply in_seq in Hi. lia. }
  rewrite (list_comp_getitem_nth 0%Q) by exact Hr. simpl.
  rewrite (list_comp_getitem_nth "") by now rewrite <- similarities_length.
  simpl. unfold mret, result_ret. f_equal.
  clear. induction selected as [|i l IH]; simpl; [reflexivity | now rewrite IH].
Qed.

(** With [num_results >= 1] the lines printed are those of the last
    [num_results] indices of [argsort], last first. *)
Lemma search_results_positive (num_results : nat) :
  1 <= num_results ->
  Semantic.search_results similarities argsort input_text search_term
    (Z.of_nat num_results)
  = Ok (map search_result
          (rev (skipn (length (argsort results) - num_results) (argsort results)))).
Proof.
  intros Hn. unfold Semantic.search_results. fold results.
  rewrite slice_from_minus_nat by exact Hn. unfold Py.reversed.
  apply search_results_of, Forall_forall. intros i Hi.
  apply list_elem_of_In, in_rev in Hi.
  rewrite <- (firstn_skipn (length (argsort results) - num_results) (argsort results)).
  apply in_or_app. now right.
Qed.

(** With [num_results = 0] the slice [[-0:]] is the whole array: a line is
    printed for every sentence. *)
Lemma search_results_zero :
  Semantic.search_results similarities argsort input_text search_term 0
  = Ok (map search_result (rev (argsort results))).
Proof.
  unfold Semantic.search_results. fold results.
  rewrite slice_from_minus_zero. unfold Py.reversed.
  apply search_results_of, Forall_forall. intros i Hi.
  now apply list_elem_of_In, in_rev in Hi.
Qed.

(** For [num_results >= 1] the search prints [min num_results len(input_text)]
    sentences, each with its own similarity, in non-increasing order of
    similarity, and no sentence left out is more similar than one printed. *)
Lemma search_results_top (num_results : nat) :
  1 <= num_results ->
  exists selected,
    Semantic.search_results similarities argsort input_text search_term
      (Z.of_nat num_results) = Ok (map search_result selected)
    /\ length selected = Nat.min num_results (length input_text)
    /\ NoDup selected
    /\ Forall (fun i => i < length input_text) selected
    /\ StronglySorted (fun p q => (snd q <= snd p)%Q) (map search_result selected)
    /\ (forall i j, i < length input_text -> ~ In i selected -> In j selected ->
          (nth i results 0 <= nth j results 0)%Q).
Proof.
  intros Hn.
  set (order := argsort results).
  set (cut := length order - num_results).
  assert (length order = length input_text) as Hlen.
  { unfold order. now rewrite (Permutation_length argsort_perm), length_seq. }
  exists (rev (skipn cut order)).
  split; [now apply search_results_positive|].
  destruct (StronglySorted_firstn_skipn _ cut order argsort_sorted) as [_ Hcut].
  assert (StronglySorted (fun i j => (nth i results 0 <= nth j results 0)%Q)
            (skipn cut order)) as Hlast.
  { pose proof argsort_sorted as H. fold order in H.
    rewrite <- (firstn_skipn cut order) in H.
    now apply StronglySorted_app in H as (_ & _ & H). }
  assert (NoDup order) as Hnodup.
  { unfold order. rewrite argsort_perm. apply NoDup_seq. }
  split; [|split; [|split; [|split]]].
  - rewrite length_rev, length_skipn. unfold cut. lia.
  - rewrite <- Permutation_rev.
    rewrite <- (firstn_skipn cut order) in Hnodup.
    now apply NoDup_app in Hnodup as (_ & _ & H).
  - apply Forall_forall. intros i Hi.
    apply list_elem_of_In, in_rev in Hi.
    assert (In i order) as Hio.
    { rewrite <- (firstn_skipn cut order). apply in_or_app. now right. }
    eapply Permutation_in in Hio; [|exact argsort_perm].
    apply in_seq in Hio. lia.
  - apply StronglySorted_map. apply (StronglySorted_rev _ _ Hlast).
  - intros i j Hi Hnot Hj. apply in_rev in Hj.
    assert (In i order) as Hio.
    { eapply Permutation_in; [symmetry; exact argsort_perm|].
      apply in_seq. lia. }
    rewrite <- (firstn_skipn cut order) in Hio.
    apply in_app_or in Hio as [Hio|Hio].
    + now apply Hcut.
    + exfalso. apply Hnot. now apply in_rev in Hio.
Qed.
End SemanticFacts.

(** The stand-in for [argsort] is one: it returns the indices of the array
    in ascending order of their values. *)
Lemma sample_argsort_contract (a : list Q) :
  Permutation (Samples.argsort a) (seq 0 (length a))
  /\ StronglySorted (fun i j => (nth i a 0 <= nth j a 0)%Q) (Samples.argsort a).
Proof.
  unfold Samples.argsort.
  set (pairs := Py.sorted Py.float_lt snd false (Py.enumerate a)).
  assert (Permutation pairs (Py.enumerate a)) as Hperm by apply sorted_perm.
  assert (map fst (Py.enumerate a) = seq 0 (length a)) as Hfst.
  { rewrite (enumerate_tabulate 0%Q), map_map. apply map_id. }
  split.
  - rewrite <- Hfst. now apply Permutation_map.
  - apply (StronglySorted_map_Forall fst (fun p => snd p = nth (fst p) a 0%Q)
             (Py.key_le Py.float_lt snd)).
    + intros [i x] [j y] Hi Hj Hle. simpl in *. subst.
      now apply float_lt_false.
    + eapply Permutation_Forall; [symmetry; exact Hperm|].
      rewrite (enumerate_tabulate 0%Q). apply Forall_forall. intros p Hp.
      now apply list_elem_of_In, in_map_iff in Hp as (i & <- & _).
    + apply (stable_sort_sorted Py.float_lt snd float_lt_asym float_ge_trans).
Qed.

(** C4, where the code departs from it.  For [num_results >= 1] the search
    prints the [num_results] most similar sentences, most similar first
    ([search_results_top]).  For [num_results = 0] the claim has it print no
    sentence, but the slice [[-num_results:]] is then [[0:]], the whole index
    array, and the search prints every sentence of [input_text]. *)
Theorem search_results_zero_prints_every_sentence :
  Semantic.search_results Samples.similarities Samples.argsort Samples.sentences
    "natural language processing" 0
  = Ok [ (" It is used in language processing", (34 # 100)%Q);
         ("Deep learning is a field", (24 # 100)%Q);
         (" End", (4 # 100)%Q) ].
Proof. reflexivity. Qed.

(** Asked for two results, the sample search prints the two longest
    sentences. *)
Example search_results_sample :
  Semantic.search_results Samples.similarities Samples.argsort Samples.sentences
    "natural language processing" 2
  = Ok [ (" It is used in language processing", (34 # 100)%Q);
         ("Deep learning is a field", (24 # 100)%Q) ].
Proof. reflexivity. Qed.

(** Whatever the encoder and [argsort] are, zero results asked for means
    every sentence printed. *)
Lemma search_results_zero_length
    (similarities : list string -> string -> list Q) (argsort : list Q -> list nat)
    (input_text : list string) (search_term : string) :
  length (similarities input_text search_term) = length input_text ->
  Permutation (argsort (similarities input_text search_term))
    (seq 0 (length (similarities input_text search_term))) ->
  exists printed,
    Semantic.search_results similarities argsort input_text search_term 0 = Ok printed
    /\ length printed = length input_text.
Proof.
  intros Hlen Hperm. eexists. split.
  - now apply search_results_zero.
  - now rewrite length_map, length_rev, (Permutation_length Hperm), length_seq.
Qed.

(** * Further properties of the notebooks *)

(** ** [split] *)

Lemma split_nonempty (s : string) (sep : ascii) : Py.split s sep <> [].
Proof.
  destruct s as [|c s]; simpl; [discriminate|].
  destruct (Ascii.eqb c sep); [discriminate|].
  destruct (Py.split s sep); discriminate.
Qed.

Lemma join_cons_char (sep : string) (c : ascii) (piece : string) (pieces : list string) :
  Py.join sep (String c piece :: pieces) = String c (Py.join sep (piece :: pieces)).
Proof. unfold Py.join. simpl. now destruct pieces. Qed.

Lemma join_split (s : string) (sep : ascii) :
  Py.join (String sep "") (Py.split s sep) = s.
Proof.
  induction s as [|c s IH]; [reflexivity|]. simpl.
  destruct (Ascii.eqb_spec c sep) as [->|Hne].
  - pose proof (split_nonempty s sep) as Hne.
    destruct (Py.split s sep) as [|p ps]; [congruence|].
    change (Py.join (String sep "") ("" :: p :: ps))
      with (String sep (Py.join (String sep "") (p :: ps))).
    now rewrite IH.
  - pose proof (split_nonempty s sep) as Hnil.
    destruct (Py.split s sep) as [|p ps]; [congruence|].
    now rewrite join_cons_char, IH.
Qed.

Lemma split_incl (s : string) (sep : ascii) (piece : string) :
  In piece (Py.split s sep) ->
  incl (list_ascii_of_string piece) (list_ascii_of_string s)
  /\ ~ In sep (list_ascii_of_string piece).
Proof.
  revert piece. induction s as [|c s IH]; intros piece; simpl.
  - intros [<-|[]]. split; [apply incl_refl | intros []].
  - destruct (Ascii.eqb_spec c sep) as [->|Hne].
    + intros [<-|H]; [split; [intros x [] | intros []]|].
      destruct (IH _ H) as [Hi Hn]. split; [now apply incl_tl | exact Hn].
    + pose proof (split_nonempty s sep) as Hnil.
      destruct (Py.split s sep) as [|p ps]; [congruence|].
      intros [<-|H].
      * destruct (IH p (or_introl eq_refl)) as [Hi Hn]. simpl. split.
        -- intros x [<-|Hx]; [now left | right; now apply Hi].
        -- intros [E|Hx]; [congruence | now apply Hn].
      * destruct (IH piece (or_intror H)) as [Hi Hn].
        split; [now apply incl_tl | exact Hn].
Qed.

Lemma length_split (s : string) (sep : ascii) :
  length (Py.split s sep)
  = S (count_occ ascii_dec (list_ascii_of_string s) sep).
Proof.
  induction s as [|c s IH]; [reflexivity|]. simpl.
  destruct (Ascii.eqb_spec c sep) as [->|Hne].
  - destruct (ascii_dec sep sep); [|congruence]. simpl. now rewrite IH.
  - destruct (ascii_dec c sep); [congruence|].
    pose proof (split_nonempty s sep) as Hnil.
    destruct (Py.split s sep) as [|p ps]; [congruence|]. exact IH.
Qed.

Lemma split_ends_with_sep (s : string) (sep : ascii) :
  Py.split (s +:+ String sep "") sep = Py.split s sep ++ [""].
Proof.
  induction s as [|c s IH]; simpl.
  - now rewrite Ascii.eqb_refl.
  - destruct (Ascii.eqb c sep); [now rewrite IH|].
    change (String.append s (String sep "")) with (s +:+ String sep "").
    rewrite IH.
    pose proof (split_nonempty s sep) as Hnil.
    now destruct (Py.split s sep) as [|p ps]; [congruence|].
Qed.

(** X1. The query of the BM25 notebook is the lowercased search term cut
    at its spaces: it is never empty, it has one word more than the
    lowercased term has spaces (so two spaces in a row or a space at an end
    give an empty word), joining its words with spaces gives the lowercased
    term back, and every word is free of spaces and is its own lowercase. *)
Theorem query_words (search_term : string) :
  Bm25.query search_term <> []
  /\ Py.join " " (Bm25.query search_term) = Py.lower search_term
  /\ length (Bm25.query search_term)
     = S (count_occ ascii_dec (list_ascii_of_string (Py.lower search_term)) " "%char)
  /\ (forall word, In word (Bm25.query search_term) ->
        ~ In " "%char (list_ascii_of_string word) /\ Py.lower word = word).
Proof.
  unfold Bm25.query. split; [apply split_nonempty|].
  split; [apply join_split|]. split; [apply length_split|].
  intros word H. apply split_incl in H as [Hi Hn].
  split; [exact Hn | now apply lower_incl in Hi].
Qed.

Example query_sample :
  Bm25.query "Natural Language Inference" = ["natural"; "language"; "inference"]
  /\ Bm25.query "BM25  ranking " = ["bm25"; ""; "ranking"; ""].
Proof. split; reflexivity. Qed.

(** X2. The sentences of the semantic-search notebook are the page text cut
    at its periods: there is always at least one, one more than the text has
    periods; joining them with periods gives the text back; no sentence holds
    a period; and a text that ends with a period gives an empty last
    sentence. *)
Theorem input_text_sentences (src_text : string) :
  Semantic.input_text src_text <> []
  /\ Py.join "." (Semantic.input_text src_text) = src_text
  /\ length (Semantic.input_text src_text)
     = S (count_occ ascii_dec (list_ascii_of_string src_text) "."%char)
  /\ (forall sentence, In sentence (Semantic.input_text src_text) ->
        ~ In "."%char (list_ascii_of_string sentence))
  /\ Semantic.input_text (src_text +:+ ".")
     = Semantic.input_text src_text ++ [""].
Proof.
  unfold Semantic.input_text. split; [apply split_nonempty|].
  split; [apply join_split|]. split; [apply length_split|].
  split; [|apply split_ends_with_sep].
  intros sentence H. now apply split_incl in H.
Qed.

Example input_text_sample :
  Semantic.input_text "Deep learning is a field. It is used." 
  = ["Deep learning is a field"; " It is used"; ""].
Proof. reflexivity. Qed.

(** ** How a loop that appends ends *)

Lemma for_append_ends {X Y} (body : X -> result Y) (xs : list X) (acc out : list Y)
    (stopped : option Py.exn) :
  Py.for_append body xs acc = (out, stopped) ->
  exists before after ys,
    xs = before ++ after
    /\ out = acc ++ ys
    /\ Forall2 (fun x y => body x = Ok y) before ys
    /\ match stopped with
       | None => after = []
       | Some e => exists x rest, after = x :: rest /\ body x = Raised e
       end.
Proof.
  revert acc. induction xs as [|x xs IH]; intros acc; simpl.
  - intros [= <- <-]. exists [], [], [].
    split; [reflexivity|]. split; [now rewrite app_nil_r|].
    split; [constructor | reflexivity].
  - destruct (body x) as [y|e] eqn:Ex.
    + intros H. apply IH in H as (before & after & ys & -> & -> & Hall & Hend).
      exists (x :: before), after, (y :: ys).
      split; [reflexivity|]. split; [now rewrite <- app_assoc|].
      split; [now constructor | exact Hend].
    + intros [= <- <-]. exists [], (x :: xs), [].
      split; [reflexivity|]. split; [now rewrite app_nil_r|].
      split; [constructor|]. now exists x, xs.
Qed.

Lemma list_comp_Raised {A B} (f : A -> result B) (before after : list A) (x : A)
    (ys : list B) (e : Py.exn) :
  Forall2 (fun x y => f x = Ok y) before ys ->
  f x = Raised e ->
  Py.list_comp f (before ++ x :: after) = Raised e.
Proof.
  intros H Hx. induction H as [|x' y xs ys' Hxy _ IH]; simpl.
  - now rewrite Hx.
  - now rewrite Hxy, IH.
Qed.

(** ** The preprocessing loop, whatever the feed *)

(** X3. The preprocessing loop of the BM25 notebook completes exactly when
    every feed entry has a summary.  Whatever the feed, [tokenized_docs]
    ends up holding the token lists of the entries before the first one
    without a summary, in order, and the only exception the loop can end
    with is the [AttributeError] of that entry. *)
Theorem tokenized_docs_completes_iff
    (stop_words : list string) (re_sub_specials re_sub_spaces : string -> string)
    (word_tokenize : string -> list string) (feed_entries : list Feed.entry) :
  let tokenized_docs :=
    Bm25.tokenized_docs stop_words re_sub_specials re_sub_spaces word_tokenize in
  let tokenize_summary :=
    Bm25.tokenize_summary stop_words re_sub_specials re_sub_spaces word_tokenize in
  ((exists docs, tokenized_docs feed_entries = (docs, None))
   <-> Forall (fun doc => exists s, Feed.summary doc = Some s) feed_entries)
  /\ (forall docs stopped,
        tokenized_docs feed_entries = (docs, stopped) ->
        exists before after,
          feed_entries = before ++ after
          /\ Forall2 (fun doc tokens =>
                        exists s, Feed.summary doc = Some s
                                  /\ tokens = tokenize_summary s) before docs
          /\ match stopped with
             | None => after = []
             | Some e =>
                 e = Py.AttributeError "summary"
                 /\ exists doc rest, after = doc :: rest /\ Feed.summary doc = None
             end).
Proof.
  intros tokenized_docs tokenize_summary.
  set (body := Bm25.tokenize_entry stop_words re_sub_specials re_sub_spaces word_tokenize).
  assert (forall doc tokens, body doc = Ok tokens <->
            exists s, Feed.summary doc = Some s /\ tokens = tokenize_summary s) as Hok.
  { intros doc tokens. unfold body, Bm25.tokenize_entry.
    destruct (Feed.summary doc) as [s|]; simpl; split.
    - intros [= <-]. now exists s.
    - now intros (s' & [= <-] & ->).
    - discriminate.
    - now intros (s' & [=] & _). }
  assert (forall doc e, body doc = Raised e ->
            e = Py.AttributeError "summary" /\ Feed.summary doc = None) as Hraise.
  { intros doc e. unfold body, Bm25.tokenize_entry.
    destruct (Feed.summary doc) as [s|]; simpl; [discriminate|].
    now intros [= <-]. }
  assert (forall docs stopped,
            tokenized_docs feed_entries = (docs, stopped) ->
            exists before after,
              feed_entries = before ++ after
              /\ Forall2 (fun doc tokens =>
                            exists s, Feed.summary doc = Some s
                                      /\ tokens = tokenize_summary s) before docs
              /\ match stopped with
                 | None => after = []
                 | Some e =>
                     e = Py.AttributeError "summary"
                     /\ exists doc rest, after = doc :: rest /\ Feed.summary doc = None
                 end) as Hends.
  { intros docs stopped H. apply for_append_ends in H
      as (before & after & ys & -> & -> & Hall & Hend).
    exists before, after. split; [reflexivity|]. split.
    - simpl. eapply Forall2_impl; [exact Hall|]. intros doc tokens. apply Hok.
    - destruct stopped as [e|]; [|exact Hend].
      destruct Hend as (doc & rest & -> & Hdoc). apply Hraise in Hdoc as [-> Hdoc].
      split; [reflexivity|]. now exists doc, rest. }
  split; [|exact Hends]. split.
  - intros [docs H]. apply Hends in H as (before & after & -> & Hall & ->).
    rewrite app_nil_r. apply Forall_forall. intros doc Hin.
    apply list_elem_of_In, In_nth_error in Hin as [i Hi].
    destruct (Forall2_nth_error _ _ _ _ _ Hall Hi) as (tokens & _ & s & Hs & _).
    now exists s.
  - intros H. destruct (for_append_total body feed_entries []) as (docs & Hrun & _).
    + eapply Forall_impl; [exact H|]. intros doc [s Hs].
      exists (tokenize_summary s). apply Hok. now exists s.
    + now exists docs.
Qed.

(** ** The ranking of the BM25 notebook *)

Lemma precedes_In_r {A} (a b : A) (l : list A) : Py.precedes a b l -> In b l.
Proof. induction 1; simpl; auto. Qed.

Section RankingOrderFacts.
Variable get_scores : list (list string) -> list string -> list Q.
Variables (docs : list (list string)) (query : list string).
Hypothesis get_scores_length : length (get_scores docs query) = length docs.

Let scores := Bm25.get_bm25_scores get_scores docs query.
Let score := Bm25.document_score get_scores docs query.

Lemma scores_precedes (i j : nat) :
  i < j -> j < length docs -> (score i == score j)%Q ->
  Py.precedes (i, score i) (j, score j) scores.
Proof.
  intros Hij Hj Heq. unfold scores. rewrite get_bm25_scores_unfold, get_scores_length.
  apply (filter_precedes (fun a => Py.same_key Py.float_lt (snd a) (score i))).
  rewrite (sorted_stable Py.float_lt snd float_ge_trans).
  apply precedes_filter.
  - apply (precedes_tabulate (fun i => (i, score i))); lia.
  - now apply float_same_key.
  - apply float_same_key. simpl. now symmetry.
Qed.

Lemma scores_NoDup : NoDup (map fst scores).
Proof.
  destruct (get_bm25_scores_sorted_permutation_aux get_scores docs query
              get_scores_length) as [Hperm _].
  fold scores in Hperm. rewrite Hperm, map_map. simpl. rewrite map_id.
  apply NoDup_seq.
Qed.
End RankingOrderFacts.

(** X4. For a corpus with at least one document, the first pair that
    [get_bm25_scores] returns is the best match: its score is the library's
    score of its document, no document scores higher, and every document
    that scores as high has a greater index. *)
Theorem get_bm25_scores_best_first
    (get_scores : list (list string) -> list string -> list Q)
    (docs : list (list string)) (query : list string) :
  docs <> [] ->
  length (get_scores docs query) = length docs ->
  exists i s rest,
    Bm25.get_bm25_scores get_scores docs query = (i, s) :: rest
    /\ i < length docs
    /\ s = Bm25.document_score get_scores docs query i
    /\ (forall j, j < length docs ->
          (Bm25.document_score get_scores docs query j <= s)%Q)
    /\ (forall j, j < length docs ->
          (Bm25.document_score get_scores docs query j == s)%Q -> i <= j).
Proof.
  intros Hne Hlen.
  pose proof (scores_length get_scores docs query Hlen) as Hslen.
  pose proof (scores_NoDup get_scores docs query Hlen) as Hnodup.
  destruct (get_bm25_scores_sorted_permutation_aux get_scores docs query Hlen)
    as [_ Hsorted].
  pose proof (scores_entry get_scores docs query Hlen) as Hentry.
  pose proof (scores_complete get_scores docs query Hlen) as Hcomplete.
  pose proof (scores_precedes get_scores docs query Hlen) as Hprec.
  destruct (Bm25.get_bm25_scores get_scores docs query) as [|[i s] rest] eqn:Es.
  { destruct docs; [congruence | discriminate]. }
  destruct (Hentry i s (or_introl eq_refl)) as [Hi Hs].
  exists i, s, rest. split; [reflexivity|]. split; [exact Hi|]. split; [exact Hs|].
  apply StronglySorted_inv in Hsorted as [_ Hhead].
  rewrite Forall_forall in Hhead. split.
  - intros j Hj. destruct (Hcomplete j Hj) as [[= <- <-]|Hin].
    + apply Qle_refl.
    + apply list_elem_of_In, Hhead in Hin. exact Hin.
  - intros j Hj Heq. destruct (Nat.le_gt_cases i j) as [|Hlt]; [assumption|].
    exfalso. rewrite Hs in Heq.
    pose proof (Hprec j i Hlt Hi Heq) as H. rewrite <- Hs in H.
    simpl in Hnodup. apply NoDup_cons in Hnodup as [Hnotin _].
    inversion H as [l Hin [Hji Hl]|x l Hin [Hx Hl]].
    + lia.
    + apply precedes_In_r in Hin.
      apply Hnotin, list_elem_of_In, in_map_iff.
      now exists (i, s).
Qed.

Lemma get_bm25_scores_best_first_witness :
  Samples.docs <> []
  /\ length (Samples.count_scores Samples.docs Samples.query) = length Samples.docs
  /\ exists i s rest,
       Bm25.get_bm25_scores Samples.count_scores Samples.docs Samples.query
       = (i, s) :: rest
       /\ i < length Samples.docs.
Proof.
  assert (Samples.docs <> []) as H1 by discriminate.
  assert (length (Samples.count_scores Samples.docs Samples.query)
          = length Samples.docs) as H2 by reflexivity.
  split; [exact H1|]. split; [exact H2|].
  destruct (get_bm25_scores_best_first Samples.count_scores Samples.docs
              Samples.query H1 H2) as (i & s & rest & Hs & Hi & _).
  exists i, s, rest. split; [exact Hs | exact Hi].
Defined.

(** ** The selection for any [num_results] *)

Lemma slice_bound_le (len : nat) (i : Z) : Py.slice_bound len i <= len.
Proof. unfold Py.slice_bound. destruct (Z.ltb_spec i 0); lia. Qed.

Lemma length_slice_to {A} (l : list A) (stop : Z) :
  length (Py.slice_to l stop) = Py.slice_bound (length l) stop.
Proof.
  unfold Py.slice_to. rewrite length_firstn.
  pose proof (slice_bound_le (length l) stop). lia.
Qed.

Lemma slice_bound_cases (len : nat) (i : Z) :
  ((0 <= i)%Z -> Py.slice_bound len i = Nat.min (Z.to_nat i) len)
  /\ ((i < 0)%Z -> Py.slice_bound len i = len - Z.to_nat (- i)).
Proof.
  unfold Py.slice_bound. split; intros H.
  - destruct (Z.ltb_spec i 0); [lia | reflexivity].
  - destruct (Z.ltb_spec i 0); lia.
Qed.

Lemma Forall2_map_fst {A B C} (P : A -> C -> Prop) (pairs : list (A * B))
    (cs : list C) :
  Forall2 P (map fst pairs) cs -> Forall2 (fun pair c => P (fst pair) c) pairs cs.
Proof.
  revert cs. induction pairs as [|pair pairs IH]; intros cs H; simpl in H.
  - inversion H. constructor.
  - inversion H; subst. constructor; [assumption | now apply IH].
Qed.

Lemma Forall2_combine_snd {A B C} (P : A * B -> C -> Prop) (pairs : list (A * B))
    (cs : list C) :
  Forall2 P pairs cs ->
  map snd (combine cs (map snd pairs)) = map snd pairs
  /\ Forall2 (fun pair line => P pair (fst line) /\ snd line = snd pair)
       pairs (combine cs (map snd pairs)).
Proof.
  induction 1 as [|pair c pairs cs Hpc _ [IH1 IH2]]; simpl.
  - split; [reflexivity | constructor].
  - split; [now rewrite IH1 | now constructor].
Qed.

Lemma select_in_range (feed_entries : list Feed.entry) (scores : list (nat * Q))
    (num_results : Z) :
  scores <> [] ->
  Forall (fun pair => fst pair < length feed_entries) scores ->
  exists documents,
    Bm25.select feed_entries scores num_results
    = Ok (documents, map snd (Py.slice_to scores num_results))
    /\ Forall2 (fun pair doc => nth_error feed_entries (fst pair) = Some doc)
         (Py.slice_to scores num_results) documents.
Proof.
  intros Hne Hrange.
  assert (Forall (fun i => i < length feed_entries)
            (map fst (Py.slice_to scores num_results))) as Hidx.
  { apply Forall_forall. intros i Hi.
    apply list_elem_of_In, in_map_iff in Hi as (pair & <- & Hin).
    apply In_firstn in Hin. rewrite Forall_forall in Hrange.
    now apply Hrange, list_elem_of_In. }
  destruct (list_comp_getitem feed_entries _ Hidx) as (documents & Hdoc & Hall).
  exists documents. split.
  - unfold Bm25.select, Bm25.idx, Bm25.final_scores, Bm25.np_array.
    destruct scores as [|pair rest]; [congruence|].
    simpl. unfold Bm25.documents. now rewrite Hdoc.
  - now apply Forall2_map_fst in Hall.
Qed.

Lemma Forall2_map_eq {A B C} (f : A -> C) (g : B -> C) (l : list A) (k : list B) :
  Forall2 (fun a b => g b = f a) l k -> map g k = map f l.
Proof. induction 1 as [|a b l k Hab _ IH]; simpl; congruence. Qed.

Lemma search_output_lines (feed_entries : list Feed.entry) (scores : list (nat * Q))
    (num_results : Z) :
  scores <> [] ->
  Forall (fun pair => fst pair < length feed_entries) scores ->
  Forall Bm25.printable feed_entries ->
  exists printed,
    Bm25.search_output feed_entries scores num_results = (printed, None)
    /\ map Bm25.printed_score printed = map snd (Py.slice_to scores num_results)
    /\ Forall2 (fun pair line =>
                  (exists doc, nth_error feed_entries (fst pair) = Some doc
                               /\ Bm25.shows doc line)
                  /\ Bm25.printed_score line = snd pair)
         (Py.slice_to scores num_results) printed.
Proof.
  intros Hne Hrange Hprintable.
  destruct (select_in_range feed_entries scores num_results Hne Hrange)
    as (documents & Hsel & Hall).
  set (selected := combine documents (map snd (Py.slice_to scores num_results))).
  destruct (Forall2_combine_snd _ _ _ Hall) as [_ Hselected]. fold selected in Hselected.
  destruct (print_loop_lines selected [])
    as (printed & stopped & Hrun & _ & Hlines & Hfull).
  destruct Hfull as [-> Hlen].
  { apply Forall_forall. intros [doc score] Hin. simpl.
    apply list_elem_of_In, In_nth_error in Hin as [j Hj].
    destruct (Forall2_nth_error _ _ _ _ _ (proj2 (Forall2_flip _ _ _) Hselected) Hj)
      as (pair & _ & Hentry & _).
    simpl in Hentry. apply nth_error_In in Hentry.
    rewrite Forall_forall in Hprintable. now apply Hprintable, list_elem_of_In. }
  rewrite Hlen, firstn_all in Hlines.
  assert (Forall2 (fun pair line =>
                     (exists doc, nth_error feed_entries (fst pair) = Some doc
                                  /\ Bm25.shows doc line)
                     /\ Bm25.printed_score line = snd pair)
            (Py.slice_to scores num_results) printed) as Hout.
  { eapply Forall2_impl; [exact (Forall2_compose _ _ _ _ _ Hselected Hlines)|].
    intros pair line ([doc score] & (Hdoc & Hscore) & Hshow & Hpscore).
    simpl in *. split; [now exists doc | congruence]. }
  exists printed. unfold Bm25.search_output. rewrite Hsel. fold selected.
  split; [exact Hrun|]. split; [|exact Hout].
  apply Forall2_map_eq. eapply Forall2_impl; [exact Hout|]. now intros pair line [_ H].
Qed.

Lemma scores_in_range
    (get_scores : list (list string) -> list string -> list Q)
    (feed_entries : list Feed.entry)
    (tokenized_docs : list (list string)) (query : list string) :
  length tokenized_docs = length feed_entries ->
  length (get_scores tokenized_docs query) = length tokenized_docs ->
  Forall (fun pair => fst pair < length feed_entries
                      /\ snd pair = Bm25.document_score get_scores tokenized_docs
                                      query (fst pair))
         (Bm25.get_bm25_scores get_scores tokenized_docs query).
Proof.
  intros Hdocs Hlen. apply Forall_forall. intros [i s] Hin.
  apply list_elem_of_In, (scores_entry get_scores tokenized_docs query Hlen) in Hin.
  simpl. split; [lia | tauto].
Qed.

(** X5. For a feed with at least one entry, whose entries all have a
    title, a link and a summary, the selection and the print loop never
    raise, whatever integer [num_results] is: the lines printed show the
    entries and scores of [scores[:num_results]], best first.  A
    [num_results] above the number of entries prints every entry, and a
    negative [num_results = -k] prints all but the [k] lowest-scoring
    entries. *)
Theorem search_output_any_num_results
    (get_scores : list (list string) -> list string -> list Q)
    (feed_entries : list Feed.entry)
    (tokenized_docs : list (list string)) (query : list string)
    (num_results : Z) :
  feed_entries <> [] ->
  Forall Bm25.printable feed_entries ->
  length tokenized_docs = length feed_entries ->
  length (get_scores tokenized_docs query) = length tokenized_docs ->
  let scores := Bm25.get_bm25_scores get_scores tokenized_docs query in
  exists printed,
    Bm25.search_output feed_entries scores num_results = (printed, None)
    /\ Forall2 (fun pair line =>
                  (exists doc, nth_error feed_entries (fst pair) = Some doc
                               /\ Bm25.shows doc line)
                  /\ Bm25.printed_score line = snd pair)
         (Py.slice_to scores num_results) printed
    /\ StronglySorted (fun a b => (b <= a)%Q) (map Bm25.printed_score printed)
    /\ ((0 <= num_results)%Z ->
        length printed = Nat.min (Z.to_nat num_results) (length feed_entries))
    /\ ((num_results < 0)%Z ->
        length printed = length feed_entries - Z.to_nat (- num_results)).
Proof.
  intros Hne Hprintable Hdocs Hlen scores.
  pose proof (scores_length get_scores tokenized_docs query Hlen) as Hslen.
  fold scores in Hslen.
  assert (scores <> []) as Hsne.
  { intros E. rewrite E in Hslen. destruct feed_entries; [congruence|].
    simpl in *. lia. }
  assert (Forall (fun pair => fst pair < length feed_entries) scores) as Hrange.
  { eapply Forall_impl; [apply (scores_in_range get_scores feed_entries); eassumption|].
    now intros pair [H _]. }
  destruct (search_output_lines feed_entries scores num_results Hsne Hrange Hprintable)
    as (printed & Hout & Hsnd & Hall).
  exists printed. split; [exact Hout|]. split; [exact Hall|].
  assert (length printed = Py.slice_bound (length feed_entries) num_results) as Hcount.
  { rewrite <- (Forall2_length _ _ _ Hall), length_slice_to. congruence. }
  destruct (slice_bound_cases (length feed_entries) num_results) as [Hpos Hneg].
  split; [|split; intros H; rewrite Hcount; auto].
  rewrite Hsnd. apply StronglySorted_map.
  destruct (get_bm25_scores_sorted_permutation_aux get_scores tokenized_docs query Hlen)
    as [_ Hsorted].
  now apply (StronglySorted_firstn_skipn _ _ _ Hsorted).
Qed.

Lemma search_output_any_num_results_witness :
  Samples.feed_entries <> []
  /\ Forall Bm25.printable Samples.feed_entries
  /\ length Samples.docs = length Samples.feed_entries
  /\ length (Samples.count_scores Samples.docs Samples.query) = length Samples.docs
  /\ exists printed,
       Bm25.search_output Samples.feed_entries
         (Bm25.get_bm25_scores Samples.count_scores Samples.docs Samples.query) (-1)
       = (printed, None)
       /\ ((-1 < 0)%Z ->
           length printed = length Samples.feed_entries - Z.to_nat (- (-1))).
Proof.
  assert (Samples.feed_entries <> []) as H1 by discriminate.
  assert (Forall Bm25.printable Samples.feed_entries) as Hp
    by (repeat constructor; eexists; reflexivity).
  assert (length Samples.docs = length Samples.feed_entries) as H2 by reflexivity.
  assert (length (Samples.count_scores Samples.docs Samples.query)
          = length Samples.docs) as H3 by reflexivity.
  split; [exact H1|]. split; [exact Hp|]. split; [exact H2|]. split; [exact H3|].
  destruct (search_output_any_num_results Samples.count_scores Samples.feed_entries
              Samples.docs Samples.query (-1) H1 Hp H2 H3)
    as (printed & Hout & _ & _ & _ & Hneg).
  exists printed. split; [exact Hout | exact Hneg].
Defined.

(** Asked for ten results or for minus one, the sample search prints four
    lines or three. *)
Example search_output_sample :
  let scores := Bm25.get_bm25_scores Samples.count_scores Samples.docs Samples.query in
  map Bm25.printed_title (fst (Bm25.search_output Samples.feed_entries scores 10))
  = ["B"; "D"; "A"; "C"]
  /\ map Bm25.printed_title
         (fst (Bm25.search_output Samples.feed_entries scores (-1)))
     = ["B"; "D"; "A"].
Proof. split; reflexivity. Qed.

(** ** The BM25 notebook from the feed to the printed lines *)

(** X6. Run on a feed with at least one entry, whose entries all have a
    title, a link and a summary, with a library that builds its object from
    a corpus that is not empty and returns one score per document, and with
    [num_results] at most the number of entries, the BM25 notebook prints
    exactly [num_results] lines; each line shows an entry of the feed with
    the score the library gave to the tokens of that entry's summary, and the
    lines come in non-increasing order of score.  The length precondition of
    the selection always holds here: the preprocessing loop made one token
    list per entry. *)
Theorem bm25_search_end_to_end
    (stop_words : list string) (re_sub_specials re_sub_spaces : string -> string)
    (word_tokenize : string -> list string)
    (BM25Okapi : list (list string) -> result (list string -> list Q))
    (feed_entries : list Feed.entry) (search_term : string) (num_results : nat) :
  feed_entries <> [] ->
  Forall Bm25.printable feed_entries ->
  (forall docs, docs <> [] ->
     exists get_scores,
       BM25Okapi docs = Ok get_scores
       /\ length (get_scores (Bm25.query search_term)) = length docs) ->
  num_results <= length feed_entries ->
  exists printed tokenized_docs get_scores,
    Bm25.search stop_words re_sub_specials re_sub_spaces word_tokenize BM25Okapi
      feed_entries search_term (Z.of_nat num_results) = (printed, None)
    /\ length printed = num_results
    /\ Forall2 (fun doc tokens =>
                  exists s, Feed.summary doc = Some s
                    /\ tokens = Bm25.tokenize_summary stop_words re_sub_specials
                                  re_sub_spaces word_tokenize s)
         feed_entries tokenized_docs
    /\ BM25Okapi tokenized_docs = Ok get_scores
    /\ Forall (fun line =>
                 exists i doc,
                   nth_error feed_entries i = Some doc
                   /\ Bm25.shows doc line
                   /\ Bm25.printed_score line
                      = nth i (get_scores (Bm25.query search_term)) 0%Q)
         printed
    /\ StronglySorted (fun a b => (b <= a)%Q) (map Bm25.printed_score printed).
Proof.
  intros Hne Hprintable Hcontract Hnum.
  set (body := Bm25.tokenize_entry stop_words re_sub_specials re_sub_spaces word_tokenize).
  destruct (for_append_total body feed_entries []) as (docs & Hrun & Hall).
  { eapply Forall_impl; [exact Hprintable|]. intros doc (_ & _ & [s Hs]).
    eexists. unfold body, Bm25.tokenize_entry. now rewrite Hs. }
  simpl in Hrun.
  assert (length docs = length feed_entries) as Hdocs
    by (symmetry; eapply Forall2_length, Hall).
  assert (docs <> []) as Hdne.
  { intros E. rewrite E in Hdocs. destruct feed_entries; [congruence|discriminate]. }
  set (query := Bm25.query search_term).
  destruct (Hcontract docs Hdne) as (get_scores & Hbuilt & Hlen'). fold query in Hlen'.
  set (library := fun _ : list (list string) => get_scores).
  assert (length (library docs query) = length docs) as Hlen by exact Hlen'.
  set (scores := Bm25.get_bm25_scores library docs query).
  pose proof (scores_length library docs query Hlen) as Hslen. fold scores in Hslen.
  pose proof (scores_in_range library feed_entries docs query Hdocs Hlen) as Hin.
  fold scores in Hin.
  assert (Forall2 (fun doc tokens =>
                     exists s, Feed.summary doc = Some s
                       /\ tokens = Bm25.tokenize_summary stop_words re_sub_specials
                                     re_sub_spaces word_tokenize s)
            feed_entries docs) as Htokens.
  { eapply Forall2_impl; [exact Hall|]. intros doc tokens.
    unfold body, Bm25.tokenize_entry.
    destruct (Feed.summary doc) as [s|]; simpl; [|discriminate].
    intros [= <-]. now exists s. }
  assert (scores <> []) as Hsne.
  { intros E. rewrite E in Hslen. simpl in Hslen.
    destruct docs; [congruence | simpl in Hslen; lia]. }
  destruct (search_output_lines feed_entries scores (Z.of_nat num_results) Hsne)
    as (printed & Hout & Hsnd & Hlines); [|exact Hprintable|].
  { eapply Forall_impl; [exact Hin|]. now intros pair [H _]. }
  rewrite slice_to_nat in Hsnd, Hlines.
  exists printed, docs, get_scores. split; [|split; [|split; [exact Htokens|split;
    [exact Hbuilt|split]]]].
  - unfold Bm25.search, Bm25.tokenized_docs. fold body. rewrite Hrun.
    fold query. rewrite Hbuilt. exact Hout.
  - rewrite <- (Forall2_length _ _ _ Hlines), length_firstn. lia.
  - apply Forall_forall. intros line Hline.
    apply list_elem_of_In, In_nth_error in Hline as [j Hj].
    destruct (Forall2_nth_error _ _ _ _ _ (proj2 (Forall2_flip _ _ _) Hlines) Hj)
      as (pair & Hpair & (doc & Hentry & Hshow) & Hscore).
    exists (fst pair), doc. split; [exact Hentry|]. split; [exact Hshow|].
    apply nth_error_In, In_firstn in Hpair.
    rewrite Forall_forall in Hin. apply list_elem_of_In, Hin in Hpair.
    rewrite Hscore. apply Hpair.
  - rewrite Hsnd. apply StronglySorted_map.
    destruct (get_bm25_scores_sorted_permutation_aux library docs query Hlen)
      as [_ Hsorted].
    now apply (StronglySorted_firstn_skipn _ _ _ Hsorted).
Qed.

Lemma count_scores_length (docs : list (list string)) (query : list string) :
  length (Samples.count_scores docs query) = length docs.
Proof. unfold Samples.count_scores. apply length_map. Qed.

Lemma sample_BM25Okapi_builds (query : list string) (docs : list (list string)) :
  docs <> [] ->
  exists get_scores,
    Samples.BM25Okapi docs = Ok get_scores
    /\ length (get_scores query) = length docs.
Proof.
  intros H. destruct docs as [|doc docs]; [congruence|].
  eexists. split; [reflexivity|]. apply count_scores_length.
Qed.

Lemma bm25_search_end_to_end_witness :
  Samples.feed_entries <> []
  /\ Forall Bm25.printable Samples.feed_entries
  /\ 2 <= length Samples.feed_entries
  /\ exists printed,
       Bm25.search Samples.stop_words id id Samples.split_words Samples.BM25Okapi
         Samples.feed_entries "Natural Language Inference" 2 = (printed, None)
       /\ length printed = 2.
Proof.
  assert (Samples.feed_entries <> []) as H0 by discriminate.
  assert (Forall Bm25.printable Samples.feed_entries) as H1
    by (repeat constructor; eexists; reflexivity).
  assert (2 <= length Samples.feed_entries) as H2 by (simpl; lia).
  split; [exact H0|]. split; [exact H1|]. split; [exact H2|].
  destruct (bm25_search_end_to_end Samples.stop_words id id Samples.split_words
              Samples.BM25Okapi Samples.feed_entries "Natural Language Inference" 2
              H0 H1 (sample_BM25Okapi_builds _) H2)
    as (printed & docs & get_scores & Hrun & Hlen & _).
  exists printed. split; [exact Hrun | exact Hlen].
Defined.

(** The sample search prints B and D; on an empty feed the library stops the
    notebook before the selection. *)
Example bm25_search_sample :
  map (fun line => (Bm25.printed_title line, Bm25.printed_score line))
      (fst (Bm25.search Samples.stop_words id id Samples.split_words
              Samples.BM25Okapi Samples.feed_entries
              "Natural Language Inference" 2))
  = [("B", (3 # 1)%Q); ("D", (3 # 1)%Q)]
  /\ Bm25.search Samples.stop_words id id Samples.split_words Samples.BM25Okapi
       [] "Natural Language Inference" 2
     = ([], Some (Py.LibraryError "ZeroDivisionError")).
Proof. split; reflexivity. Qed.

(** ** The date filter, whatever the feed *)

(** X7. The date filter returns a list exactly when every entry of the feed
    has a [published_parsed] that is a time tuple which [time.mktime]
    converts.  Otherwise it raises at the first entry of the feed for which
    this fails: the [AttributeError] of the attribute when that entry has
    none, a [TypeError] when its date is [None], and else what [time.mktime]
    raised on its date. *)
Theorem recent_entries_total_iff
    (time_time : nat -> Q) (time_mktime : Feed.struct_time -> result Q) (days : Z)
    (k : nat) (newsfeed_entries : list Feed.entry) :
  let dated entry :=
    exists published seconds,
      Feed.published_parsed entry = Some (Some published)
      /\ time_mktime published = Ok seconds in
  ((exists entries,
       Articles.recent_entries time_time time_mktime days k newsfeed_entries
       = Ok entries)
   <-> Forall dated newsfeed_entries)
  /\ (forall e,
        Articles.recent_entries time_time time_mktime days k newsfeed_entries
        = Raised e ->
        exists before entry after,
          newsfeed_entries = before ++ entry :: after
          /\ Forall dated before
          /\ match Feed.published_parsed entry with
             | None => e = Py.AttributeError "published_parsed"
             | Some None => e = Py.TypeError
             | Some (Some published) => time_mktime published = Raised e
             end).
Proof.
  intros dated. revert k. induction newsfeed_entries as [|entry rest IH]; intros k.
  - split; [split; [constructor | now exists []] | discriminate].
  - cbn [Articles.recent_entries].
    destruct (Feed.published_parsed entry) as [[published|]|] eqn:Ep; simpl.
    + destruct (time_mktime published) as [seconds|e0] eqn:Em; simpl.
      * destruct (IH (S k)) as [[IH1 IH2] IH3].
        destruct (Articles.recent_entries _ _ _ (S k) rest) as [kept|e'] eqn:Er; simpl.
        -- split; [|discriminate]. split; [|eauto].
           intros _. constructor; [now exists published, seconds | apply IH1; eauto].
        -- split.
           ++ split; [now intros [? [=]]|].
              intros H. apply Forall_cons in H as [_ H]. apply IH2 in H as [? [=]].
           ++ intros e [= <-].
              destruct (IH3 e' eq_refl) as (before & x & after & -> & Hb & Hx).
              exists (entry :: before), x, after. split; [reflexivity|].
              split; [|exact Hx].
              constructor; [now exists published, seconds | exact Hb].
      * split.
        -- split; [now intros [? [=]]|].
           intros H. apply Forall_cons in H as [(p & sec & Hp & Hs) _]. congruence.
        -- intros e [= <-]. exists [], entry, rest.
           split; [reflexivity|]. split; [constructor|]. now rewrite Ep.
    + split.
      * split; [now intros [? [=]]|].
        intros H. apply Forall_cons in H as [(p & sec & Hp & _) _]. congruence.
      * intros e [= <-]. exists [], entry, rest.
        split; [reflexivity|]. split; [constructor|]. now rewrite Ep.
    + split.
      * split; [now intros [? [=]]|].
        intros H. apply Forall_cons in H as [(p & sec & Hp & _) _]. congruence.
      * intros e [= <-]. exists [], entry, rest.
        split; [reflexivity|]. split; [constructor|]. now rewrite Ep.
Qed.

(** An entry without the attribute, an entry whose date feedparser could
    not parse and an entry whose year is out of range each stop the filter
    and the ranking cell, each in its own way. *)
Example recent_entries_sample :
  let undated published :=
    {| Feed.title := Some "x"; Feed.link := Some "http://blog/x";
       Feed.summary := None; Feed.published_parsed := published |} in
  let far :=
    {| Feed.tm_year := 2147483648; Feed.tm_mon := 1; Feed.tm_mday := 1;
       Feed.tm_hour := 0; Feed.tm_min := 0; Feed.tm_sec := 0;
       Feed.tm_wday := 0; Feed.tm_yday := 1; Feed.tm_isdst := 0 |} in
  Articles.recent_entries Samples.clock Samples.mktime 7 0
    [Samples.news "ml" 5; undated None]
  = Raised (Py.AttributeError "published_parsed")
  /\ Articles.recent_entries Samples.clock Samples.mktime 7 0
       [Samples.news "ml" 5; undated (Some None)]
     = Raised Py.TypeError
  /\ Articles.recent_entries Samples.clock Samples.mktime 7 0
       [Samples.news "ml" 5; undated (Some (Some far))]
     = Raised (Py.LibraryError "OverflowError")
  /\ Articles.rank_feed Samples.requests_get Samples.parse_page Samples.zero_shot
       Samples.clock Samples.mktime "machine learning" 7
       [Samples.news "ml" 5; undated (Some None)]
     = ([], Some Py.TypeError).
Proof. repeat split; vm_compute; reflexivity. Qed.

Lemma sublist_filter_snd {A B} (p : A * B -> bool) (ks : list A) (l : list B) :
  sublist (map snd (List.filter p (combine ks l))) l.
Proof.
  revert ks. induction l as [|x l IH]; intros [|k ks]; simpl;
    try apply sublist_nil_l.
  destruct (p (k, x)); simpl; [apply sublist_skip | apply sublist_cons]; apply IH.
Qed.

Lemma sublist_filter_mono {A B} (p q : A -> bool) (f : A -> B) (l : list A) :
  (forall x, p x = true -> q x = true) ->
  sublist (map f (List.filter p l)) (map f (List.filter q l)).
Proof.
  intros Hpq. induction l as [|x l IH]; simpl; [constructor|].
  destruct (p x) eqn:Ep.
  - rewrite (Hpq x Ep). simpl. now apply sublist_skip.
  - destruct (q x); simpl; [now apply sublist_cons | exact IH].
Qed.

Lemma passes_date_filter_mono
    (time_time : nat -> Q) (time_mktime : Feed.struct_time -> result Q) (days days' : Z)
    (k : nat) (entry : Feed.entry) :
  (days <= days')%Z ->
  Articles.passes_date_filter time_time time_mktime days k entry = true ->
  Articles.passes_date_filter time_time time_mktime days' k entry = true.
Proof.
  intros Hd. unfold Articles.passes_date_filter.
  destruct (Feed.published_parsed entry) as [[published|]|];
    [|discriminate|discriminate].
  destruct (time_mktime published) as [seconds|]; [|discriminate].
  rewrite !float_lt_true. intros H. eapply Qlt_le_trans; [exact H|].
  rewrite <- Zle_Qle. lia.
Qed.

(** X8. The date filter only ever leaves entries out: the entries it keeps
    are a sublist of the feed, in feed order; and a longer period keeps at
    least the entries of a shorter one. *)
Theorem recent_entries_grow_with_days
    (time_time : nat -> Q) (time_mktime : Feed.struct_time -> result Q) (days days' : Z)
    (newsfeed_entries entries entries' : list Feed.entry) :
  (days <= days')%Z ->
  Articles.recent_entries time_time time_mktime days 0 newsfeed_entries = Ok entries ->
  Articles.recent_entries time_time time_mktime days' 0 newsfeed_entries = Ok entries' ->
  sublist entries entries' /\ sublist entries' newsfeed_entries.
Proof.
  intros Hd H H'.
  apply recent_entries_filter in H, H'. subst. split.
  - apply sublist_filter_mono. intros [k entry]. simpl.
    now apply passes_date_filter_mono.
  - apply sublist_filter_snd.
Qed.

Lemma recent_entries_grow_with_days_witness :
  (1 <= 7)%Z
  /\ Articles.recent_entries Samples.clock Samples.mktime 1 0 Samples.newsfeed = Ok []
  /\ Articles.recent_entries Samples.clock Samples.mktime 7 0 Samples.newsfeed
     = Ok [Samples.news "ml" 5; Samples.news "sagemaker" 8]
  /\ sublist [] [Samples.news "ml" 5; Samples.news "sagemaker" 8]
  /\ sublist [Samples.news "ml" 5; Samples.news "sagemaker" 8] Samples.newsfeed.
Proof.
  assert (1 <= 7)%Z as H1 by lia.
  assert (Articles.recent_entries Samples.clock Samples.mktime 1 0 Samples.newsfeed
          = Ok []) as H2 by (vm_compute; reflexivity).
  assert (Articles.recent_entries Samples.clock Samples.mktime 7 0 Samples.newsfeed
          = Ok [Samples.news "ml" 5; Samples.news "sagemaker" 8]) as H3
    by (vm_compute; reflexivity).
  split; [exact H1|]. split; [exact H2|]. split; [exact H3|].
  exact (recent_entries_grow_with_days _ _ _ _ _ _ _ H1 H2 H3).
Defined.

(** ** Pages without a paragraph *)

Lemma tag_visible_other_parent (element : Html.element) :
  Html.parent_name element <> "p" -> Html.tag_visible element = false.
Proof.
  intros H. apply not_true_iff_false. now rewrite tag_visible_parent.
Qed.

Fixpoint text_nodes_without_p (n : Html.node) :
  forall parent, parent <> "p" -> Html.has_tag "p" n = false ->
  List.filter Html.tag_visible (Html.text_nodes parent n) = [].
Proof.
  destruct n as [s|s|t children]; intros parent Hp Hn.
  - simpl. now rewrite tag_visible_other_parent.
  - simpl. now rewrite tag_visible_other_parent.
  - simpl in Hn. apply orb_false_iff in Hn as [Ht Hc].
    apply String.eqb_neq in Ht. simpl.
    induction children as [|c cs IH]; [reflexivity|].
    simpl in Hc. apply orb_false_iff in Hc as [Hc1 Hc2].
    simpl. rewrite List.filter_app, (text_nodes_without_p c t Ht Hc1).
    now apply IH.
Qed.

Lemma visible_texts_without_p (soup : list Html.node) :
  existsb (Html.has_tag "p") soup = false -> Html.visible_texts soup = [].
Proof.
  unfold Html.visible_texts, Html.findAll_text.
  induction soup as [|n soup IH]; [reflexivity|]. simpl.
  intros H. apply orb_false_iff in H as [Hn Hs].
  rewrite List.filter_app, text_nodes_without_p by (discriminate || assumption).
  now apply IH.
Qed.

(** X9. A page in which no [p] tag occurs gives the empty text: whatever
    else the page holds, [text_from_html] returns the empty string. *)
Theorem text_from_html_without_paragraph
    {response : Type} (BeautifulSoup_lxml : response -> list Html.node)
    (html : response) :
  existsb (Html.has_tag "p") (BeautifulSoup_lxml html) = false ->
  Html.text_from_html BeautifulSoup_lxml html = "".
Proof.
  intros H. unfold Html.text_from_html.
  pose proof (visible_texts_without_p _ H) as Hv.
  unfold Html.visible_texts in Hv. now rewrite Hv.
Qed.

Lemma text_from_html_without_paragraph_witness :
  existsb (Html.has_tag "p") (Samples.parse_without_paragraph "Deep learning") = false
  /\ Html.text_from_html Samples.parse_without_paragraph "Deep learning" = "".
Proof.
  assert (existsb (Html.has_tag "p") (Samples.parse_without_paragraph "Deep learning")
          = false) as H by reflexivity.
  split; [exact H|].
  exact (text_from_html_without_paragraph Samples.parse_without_paragraph _ H).
Defined.

(** ** The text handed to the pipelines *)

Lemma length_list_ascii_of_string (s : string) :
  length (list_ascii_of_string s) = String.length s.
Proof. induction s; simpl; congruence. Qed.

Lemma str_slice_to_short (s : string) (n : nat) :
  String.length s <= n -> Py.str_slice_to s (Z.of_nat n) = s.
Proof.
  intros H. unfold Py.str_slice_to. rewrite slice_to_nat, firstn_all2.
  - apply string_of_list_ascii_of_string.
  - now rewrite length_list_ascii_of_string.
Qed.

Lemma str_slice_to_length (s : string) (n : nat) :
  String.length (Py.str_slice_to s (Z.of_nat n)) = Nat.min n (String.length s).
Proof.
  rewrite <- !length_list_ascii_of_string, str_slice_to_chars.
  apply length_firstn.
Qed.

(** X10. The text [classifier] and [summarise] hand to their pipeline has
    [min(1024, len(source_text))] characters: each function calls its
    pipeline on one text of that length, which is [source_text] itself when
    that has at most 1024 characters.  Cutting the text beforehand changes
    nothing. *)
Theorem pipelines_get_at_most_1024_characters
    (zero_shot_classification : string -> string -> result Articles.classification)
    (summarization : string -> result (list string))
    (re_sub_punctuation : string -> string)
    (search_term source_text : string) :
  (exists src_text,
      String.length src_text = Nat.min 1024 (String.length source_text)
      /\ (String.length source_text <= 1024 -> src_text = source_text)
      /\ Articles.classifier zero_shot_classification source_text search_term
         = zero_shot_classification src_text search_term
      /\ Articles.summarise summarization re_sub_punctuation source_text
         = (summaries ← summarization src_text;
            summary_text ← Py.getitem summaries 0;
            mret (re_sub_punctuation summary_text)))
  /\ Articles.classifier zero_shot_classification
       (Py.str_slice_to source_text 1024) search_term
     = Articles.classifier zero_shot_classification source_text search_term
  /\ Articles.summarise summarization re_sub_punctuation
       (Py.str_slice_to source_text 1024)
     = Articles.summarise summarization re_sub_punctuation source_text.
Proof.
  pose proof (str_slice_to_length source_text 1024) as Hlen.
  change (Z.of_nat 1024) with 1024%Z in Hlen.
  assert (Py.str_slice_to (Py.str_slice_to source_text 1024) 1024
          = Py.str_slice_to source_text 1024) as Hidem.
  { apply (str_slice_to_short _ 1024). rewrite Hlen. apply Nat.le_min_l. }
  split; [|split].
  - exists (Py.str_slice_to source_text 1024).
    split; [exact Hlen|]. split; [|split].
    + intros H. apply (str_slice_to_short source_text 1024 H).
    + unfold Articles.classifier. now destruct (zero_shot_classification _ _).
    + reflexivity.
  - unfold Articles.classifier. now rewrite Hidem.
  - unfold Articles.summarise. now rewrite Hidem.
Qed.

(** X11. For an entry with a title, a link and a date whose page holds no
    [p] tag, the ranking loop still records an article: the classifier is
    asked about the empty text, and the article carries the empty string as
    its [src_text] together with the score of that answer. *)
Theorem rank_entry_without_paragraph
    {response : Type}
    (requests_get : string -> result response)
    (BeautifulSoup_lxml : response -> list Html.node)
    (zero_shot_classification : string -> string -> result Articles.classification)
    (search_term : string) (entry : Feed.entry)
    (title link : string) (published : option Feed.struct_time) (html : response)
    (classification : Articles.classification) (relevancy : Q) :
  Feed.title entry = Some title ->
  Feed.link entry = Some link ->
  Feed.published_parsed entry = Some published ->
  requests_get link = Ok html ->
  existsb (Html.has_tag "p") (BeautifulSoup_lxml html) = false ->
  zero_shot_classification "" search_term = Ok classification ->
  nth_error (Articles.scores classification) 0 = Some relevancy ->
  Articles.rank_entry requests_get BeautifulSoup_lxml zero_shot_classification
    search_term entry
  = Ok (Articles.make_article title link "" published relevancy).
Proof.
  intros Ht Hl Hp Hg Hno Hz Hr.
  unfold Articles.rank_entry. rewrite Hl. simpl. rewrite Hg. simpl.
  assert (Html.text_from_html BeautifulSoup_lxml html = "") as ->.
  { unfold Html.text_from_html.
    pose proof (visible_texts_without_p _ Hno) as Hv.
    unfold Html.visible_texts in Hv. now rewrite Hv. }
  unfold Articles.classifier.
  change (Py.str_slice_to "" 1024) with "". rewrite Hz. simpl.
  rewrite Ht. simpl. rewrite Hp. simpl.
  unfold Py.getitem. rewrite Hr. reflexivity.
Qed.

Lemma rank_entry_without_paragraph_witness :
  Articles.rank_entry Samples.requests_get Samples.parse_without_paragraph
    Samples.zero_shot "machine learning" (Samples.news "ml" 5)
  = Ok (Articles.make_article "ml" "http://blog/ml" "" (Some (Samples.day 5))
          (0 # 100)%Q).
Proof.
  apply (rank_entry_without_paragraph Samples.requests_get
           Samples.parse_without_paragraph Samples.zero_shot "machine learning"
           (Samples.news "ml" 5) "ml" "http://blog/ml" (Some (Samples.day 5))
           "All about http://blog/ml"
           {| Articles.sequence := ""; Articles.labels := ["machine learning"];
              Articles.scores := [(0 # 100)%Q] |});
    reflexivity.
Defined.

(** ** Sorting and printing the articles, further *)

Lemma sorted_articles_pairs (articles sorted_articles : list (gmap string Articles.pyval)) :
  Articles.sorted_articles articles = Ok sorted_articles ->
  exists keys,
    Forall2 (fun article key => Articles.relevancy article = Ok key) articles keys
    /\ sorted_articles
       = map snd (Py.sorted Py.float_lt fst true (combine keys articles)).
Proof.
  unfold Articles.sorted_articles.
  destruct (Py.list_comp Articles.relevancy articles) as [keys|] eqn:Ek; simpl;
    [|discriminate].
  intros [= <-]. exists keys. split; [now apply list_comp_Ok | reflexivity].
Qed.

Lemma relevancy_Ok (article : gmap string Articles.pyval) (x : Q) :
  Articles.relevancy article = Ok x <->
  article !! "relevancy" = Some (Articles.VFloat x).
Proof.
  unfold Articles.relevancy, Articles.getkey.
  destruct (article !! "relevancy") as [[s|y|t|]|]; simpl; split; congruence.
Qed.

Lemma map_snd_filter {A B} (p : A * B -> bool) (q : B -> bool) (l : list (A * B)) :
  Forall (fun pair => p pair = q (snd pair)) l ->
  map snd (List.filter p l) = List.filter q (map snd l).
Proof.
  induction 1 as [|pair l Hp _ IH]; [reflexivity|]. simpl.
  rewrite <- Hp. destruct (p pair); simpl; now rewrite IH.
Qed.

Lemma same_key_Qeq_bool (x y : Q) : Py.same_key Py.float_lt x y = Qeq_bool x y.
Proof.
  apply eq_true_iff_eq. now rewrite float_same_key, Qeq_bool_iff.
Qed.

(** X12. The sort of the articles is stable: the articles whose relevancy
    compares equal to a given value stand in [sorted_articles] in the order
    in which the ranking loop appended them. *)
Theorem sorted_articles_stable
    (articles sorted_articles : list (gmap string Articles.pyval)) (x : Q) :
  Articles.sorted_articles articles = Ok sorted_articles ->
  List.filter (Articles.relevancy_is x) sorted_articles
  = List.filter (Articles.relevancy_is x) articles.
Proof.
  intros H. apply sorted_articles_pairs in H as (keys & Hkeys & ->).
  destruct (map_snd_combine_Forall2 _ _ _ Hkeys) as [Hsnd Hpairs].
  set (pairs := combine keys articles) in *.
  assert (forall l, Forall (fun pair => Articles.relevancy (snd pair) = Ok (fst pair)) l ->
            Forall (fun pair => Py.same_key Py.float_lt (fst pair) x
                                = Articles.relevancy_is x (snd pair)) l) as Hsame.
  { intros l Hl. eapply Forall_impl; [exact Hl|].
    intros [key article] Hk. simpl in *.
    apply relevancy_Ok in Hk. unfold Articles.relevancy_is. rewrite Hk.
    apply same_key_Qeq_bool. }
  rewrite <- (map_snd_filter (fun pair => Py.same_key Py.float_lt (fst pair) x)).
  - rewrite (sorted_stable Py.float_lt fst float_ge_trans).
    rewrite (map_snd_filter _ (Articles.relevancy_is x)) by now apply Hsame.
    now rewrite Hsnd.
  - apply Hsame. eapply Permutation_Forall; [|exact Hpairs].
    symmetry. apply sorted_perm.
Qed.

Lemma sorted_articles_stable_witness :
  let tie := Articles.make_article "tie" "http://blog/tie" "All about http://blog/ml"
               (Some (Samples.day 6)) (24 # 100)%Q in
  Articles.sorted_articles [Samples.ranked "ml" 5; Samples.ranked "sagemaker" 8; tie]
  = Ok [Samples.ranked "sagemaker" 8; Samples.ranked "ml" 5; tie]
  /\ List.filter (Articles.relevancy_is (24 # 100)%Q)
       [Samples.ranked "sagemaker" 8; Samples.ranked "ml" 5; tie]
     = List.filter (Articles.relevancy_is (24 # 100)%Q)
         [Samples.ranked "ml" 5; Samples.ranked "sagemaker" 8; tie].
Proof.
  intros tie.
  assert (Articles.sorted_articles
            [Samples.ranked "ml" 5; Samples.ranked "sagemaker" 8; tie]
          = Ok [Samples.ranked "sagemaker" 8; Samples.ranked "ml" 5; tie]) as H
    by (vm_compute; reflexivity).
  split; [exact H|].
  exact (sorted_articles_stable _ _ (24 # 100)%Q H).
Defined.

(** X13. [sorted] computes the key of every article before it compares
    any: when the first article that lacks a float [relevancy] lacks the key
    altogether, the sort raises the [KeyError] of that key and returns no
    list, however many well-formed articles surround it. *)
Theorem sorted_articles_missing_relevancy
    (before after : list (gmap string Articles.pyval))
    (article : gmap string Articles.pyval) :
  Forall (fun a => exists x, a !! "relevancy" = Some (Articles.VFloat x)) before ->
  article !! "relevancy" = None ->
  Articles.sorted_articles (before ++ article :: after)
  = Raised (Py.KeyError "relevancy").
Proof.
  intros Hbefore Hmissing. unfold Articles.sorted_articles.
  assert (exists keys, Forall2 (fun a key => Articles.relevancy a = Ok key) before keys)
    as [keys Hkeys].
  { induction Hbefore as [|a l [x Hx] _ [keys IH]]; [now exists []|].
    exists (x :: keys). constructor; [now apply relevancy_Ok | exact IH]. }
  rewrite (list_comp_Raised _ before after article keys (Py.KeyError "relevancy") Hkeys).
  - reflexivity.
  - unfold Articles.relevancy, Articles.getkey. now rewrite Hmissing.
Qed.

Lemma sorted_articles_missing_relevancy_witness :
  Articles.sorted_articles
    ([Samples.ranked "ml" 5] ++ (delete "relevancy" (Samples.ranked "old" 1))
                             :: [Samples.ranked "sagemaker" 8])
  = Raised (Py.KeyError "relevancy").
Proof.
  apply sorted_articles_missing_relevancy.
  - repeat constructor. eexists. apply make_article_fields.
  - apply lookup_delete_eq.
Defined.

Lemma sorted_articles_of_fields (articles : list (gmap string Articles.pyval)) :
  Forall (fun article => exists title link src_text relevancy,
            Articles.has_fields article title link src_text relevancy) articles ->
  exists sorted_articles,
    Articles.sorted_articles articles = Ok sorted_articles
    /\ Permutation sorted_articles articles
    /\ StronglySorted
         (fun a b => exists x y,
            Articles.relevancy a = Ok x /\ Articles.relevancy b = Ok y /\ (y <= x)%Q)
         sorted_articles.
Proof.
  intros Hfields.
  destruct (list_comp_total Articles.relevancy articles) as [keys Hkeys].
  { eapply Forall_impl; [exact Hfields|].
    intros a (t & l & s & r & Hf). exists r. eapply relevancy_has_fields, Hf. }
  pose proof (proj1 (list_comp_Ok _ _ _) Hkeys) as Hall.
  destruct (map_snd_combine_Forall2 _ _ _ Hall) as [Hsnd Hpairs].
  set (pairs := Py.sorted Py.float_lt fst true (combine keys articles)).
  assert (Permutation pairs (combine keys articles)) as Hperm by apply sorted_perm.
  exists (map snd pairs).
  split; [unfold Articles.sorted_articles; now rewrite Hkeys|]. split.
  - transitivity (map snd (combine keys articles));
      [now apply Permutation_map | now rewrite Hsnd].
  - apply (StronglySorted_map_Forall snd
             (fun p => Articles.relevancy (snd p) = Ok (fst p))
             (fun p q => Py.float_lt (fst p) (fst q) = false)).
    + intros [x a] [y b] Hx Hy Hle. simpl in *.
      exists x, y. repeat split; try assumption. now apply float_lt_false.
    + eapply Permutation_Forall; [symmetry; exact Hperm | exact Hpairs].
    + apply (sorted_reverse_sorted Py.float_lt fst float_lt_asym float_ge_trans).
Qed.

Section PrintFacts.
Variable summarization : string -> result (list string).
Variable re_sub_punctuation : string -> string.
Variable search_term : string.

Let summarise := Articles.summarise summarization re_sub_punctuation.
Let show_article := Articles.show_article summarization re_sub_punctuation search_term.

(** The line shown for an article. *)
Let shows (article : gmap string Articles.pyval) (item : Articles.shown) : Prop :=
  exists title link src_text relevancy,
    Articles.has_fields article title link src_text relevancy
    /\ summarise src_text = Ok (Articles.shown_summary item)
    /\ Articles.shown_title item = title
    /\ Articles.shown_link item = link
    /\ Articles.shown_search_term item = search_term
    /\ Articles.shown_score item = (100 * relevancy)%Q.

Lemma show_article_shows (article : gmap string Articles.pyval) :
  (exists title link src_text relevancy,
      Articles.has_fields article title link src_text relevancy) ->
  (forall src_text, article !! "src_text" = Some (Articles.VStr src_text) ->
     exists summary, summarise src_text = Ok summary) ->
  exists item, show_article article = Ok item /\ shows article item.
Proof.
  intros (t & l & s & r & Hf) Hsum.
  destruct (Hsum s) as [summary Hs]; [apply Hf|].
  eexists. split.
  - unfold show_article. eapply show_article_has_fields; [exact Hf | exact Hs].
  - exists t, l, s, r. split; [exact Hf|]. split; [exact Hs|]. now repeat split.
Qed.

Lemma print_articles_shows (number_of_articles : Z)
    (sorted_articles : list (gmap string Articles.pyval)) :
  Forall (fun article => exists title link src_text relevancy,
            Articles.has_fields article title link src_text relevancy)
         sorted_articles ->
  Forall (fun article => forall src_text,
            article !! "src_text" = Some (Articles.VStr src_text) ->
            exists summary, summarise src_text = Ok summary) sorted_articles ->
  exists shown,
    Articles.print_articles summarization re_sub_punctuation search_term
      number_of_articles sorted_articles = (shown, None)
    /\ Forall2 shows (Py.slice_to sorted_articles number_of_articles) shown.
Proof.
  intros Hfields Hsum. unfold Articles.print_articles.
  assert (Forall (fun a => exists item, show_article a = Ok item /\ shows a item)
            (Py.slice_to sorted_articles number_of_articles)) as Hok.
  { apply Forall_forall. intros a Ha. unfold Py.slice_to in Ha.
    apply list_elem_of_In, In_firstn, list_elem_of_In in Ha.
    rewrite Forall_forall in Hfields, Hsum.
    apply show_article_shows; [exact (Hfields a Ha) | exact (Hsum a Ha)]. }
  generalize dependent (Py.slice_to sorted_articles number_of_articles).
  intros top Hok.
  assert (exists shown, Forall2 (fun a item => show_article a = Ok item /\ shows a item)
                          top shown) as [shown Hshown].
  { induction Hok as [|a l (item & Hi) _ [shown IH]]; [now exists []|].
    exists (item :: shown). now constructor. }
  exists shown. split.
  - apply (for_append_Ok show_article top shown []).
    eapply Forall2_impl; [exact Hshown|]. now intros a item [H _].
  - eapply Forall2_impl; [exact Hshown|]. now intros a item [_ H].
Qed.
End PrintFacts.

(** X14. The printing loop shows the articles one by one and stops at the
    first one whose summary cannot be made: the articles before it stay
    shown, that exception ends the cell, and no later article is shown. *)
Theorem print_articles_stops_at_first_failure
    (summarization : string -> result (list string))
    (re_sub_punctuation : string -> string)
    (search_term : string) (number_of_articles : Z)
    (sorted_articles before after : list (gmap string Articles.pyval))
    (article : gmap string Articles.pyval) (shown : list Articles.shown)
    (src_text : string) (e : Py.exn) :
  Py.slice_to sorted_articles number_of_articles = before ++ article :: after ->
  Forall2 (fun a item =>
             Articles.show_article summarization re_sub_punctuation search_term a
             = Ok item) before shown ->
  article !! "src_text" = Some (Articles.VStr src_text) ->
  Articles.summarise summarization re_sub_punctuation src_text = Raised e ->
  Articles.print_articles summarization re_sub_punctuation search_term
    number_of_articles sorted_articles = (shown, Some e).
Proof.
  intros Hslice Hbefore Hsrc Hsum. unfold Articles.print_articles. rewrite Hslice.
  apply (for_append_Raised _ before after article shown [] e Hbefore).
  unfold Articles.show_article, Articles.getkey. rewrite Hsrc. simpl.
  now rewrite Hsum.
Qed.

Lemma print_articles_stops_at_first_failure_witness :
  let failing (text : string) : result (list string) :=
    if String.eqb text "All about http://blog/ml"
    then Raised (Py.LibraryError "summarization") else Ok [text] in
  Articles.print_articles failing id "machine learning" 2
    [Samples.ranked "sagemaker" 8; Samples.ranked "ml" 5]
  = ([{| Articles.shown_title := Articles.VStr "sagemaker";
         Articles.shown_link := Articles.VStr "http://blog/sagemaker";
         Articles.shown_summary := "All about http://blog/sagemaker";
         Articles.shown_search_term := "machine learning";
         Articles.shown_score := (100 * (31 # 100))%Q |}],
     Some (Py.LibraryError "summarization")).
Proof.
  intros failing.
  apply (print_articles_stops_at_first_failure failing id "machine learning" 2
           [Samples.ranked "sagemaker" 8; Samples.ranked "ml" 5]
           [Samples.ranked "sagemaker" 8] [] (Samples.ranked "ml" 5) _
           "All about http://blog/ml").
  - reflexivity.
  - repeat constructor.
  - apply make_article_fields.
  - reflexivity.
Defined.

(** X15. Given articles with the fields the loop stores and a summariser
    that answers, the printing loop shows the articles of
    [sorted_articles[:number_of_articles]] for any integer
    [number_of_articles]: a negative [number_of_articles = -k] shows all but
    the last [k] articles of the list, and none when [k] is at least their
    number. *)
Theorem print_articles_any_number
    (summarization : string -> result (list string))
    (re_sub_punctuation : string -> string)
    (search_term : string) (number_of_articles : Z)
    (sorted_articles : list (gmap string Articles.pyval)) :
  Forall (fun article => exists title link src_text relevancy,
            Articles.has_fields article title link src_text relevancy)
         sorted_articles ->
  Forall (fun article => forall src_text,
            article !! "src_text" = Some (Articles.VStr src_text) ->
            exists summary,
              Articles.summarise summarization re_sub_punctuation src_text = Ok summary)
         sorted_articles ->
  exists shown,
    Articles.print_articles summarization re_sub_punctuation search_term
      number_of_articles sorted_articles = (shown, None)
    /\ Forall2
         (fun article item =>
            exists title link src_text relevancy,
              Articles.has_fields article title link src_text relevancy
              /\ Articles.summarise summarization re_sub_punctuation src_text
                 = Ok (Articles.shown_summary item)
              /\ Articles.shown_title item = title
              /\ Articles.shown_link item = link
              /\ Articles.shown_search_term item = search_term
              /\ Articles.shown_score item = (100 * relevancy)%Q)
         (Py.slice_to sorted_articles number_of_articles) shown
    /\ ((0 <= number_of_articles)%Z ->
        length shown = Nat.min (Z.to_nat number_of_articles) (length sorted_articles))
    /\ ((number_of_articles < 0)%Z ->
        length shown = length sorted_articles - Z.to_nat (- number_of_articles)
        /\ Py.slice_to sorted_articles number_of_articles
           = firstn (length sorted_articles - Z.to_nat (- number_of_articles))
               sorted_articles).
Proof.
  intros Hfields Hsum.
  destruct (print_articles_shows summarization re_sub_punctuation search_term
              number_of_articles sorted_articles Hfields Hsum) as (shown & Hrun & Hall).
  exists shown. split; [exact Hrun|]. split; [exact Hall|].
  assert (length shown = Py.slice_bound (length sorted_articles) number_of_articles)
    as Hcount by now rewrite <- (Forall2_length _ _ _ Hall), length_slice_to.
  destruct (slice_bound_cases (length sorted_articles) number_of_articles)
    as [Hpos Hneg].
  split; intros H; rewrite Hcount; [auto|].
  split; [auto|]. unfold Py.slice_to. now rewrite Hneg.
Qed.

Lemma print_articles_any_number_witness :
  let articles := [Samples.ranked "sagemaker" 8; Samples.ranked "ml" 5] in
  Forall (fun article => exists title link src_text relevancy,
            Articles.has_fields article title link src_text relevancy) articles
  /\ Forall (fun article => forall src_text,
               article !! "src_text" = Some (Articles.VStr src_text) ->
               exists summary,
                 Articles.summarise Samples.summarization id src_text = Ok summary)
            articles
  /\ exists shown,
       Articles.print_articles Samples.summarization id "machine learning" (-1) articles
       = (shown, None)
       /\ ((-1 < 0)%Z ->
           length shown = length articles - Z.to_nat (- (-1))
           /\ Py.slice_to articles (-1)
              = firstn (length articles - Z.to_nat (- (-1))) articles).
Proof.
  intros articles.
  assert (Forall (fun article => exists title link src_text relevancy,
            Articles.has_fields article title link src_text relevancy) articles)
    as Hfields
    by (repeat constructor; do 4 eexists; apply make_article_has_fields).
  assert (Forall (fun article => forall src_text,
            article !! "src_text" = Some (Articles.VStr src_text) ->
            exists summary,
              Articles.summarise Samples.summarization id src_text = Ok summary)
            articles) as Hsum
    by (repeat constructor; intros src_text _; eexists; reflexivity).
  split; [exact Hfields|]. split; [exact Hsum|].
  destruct (print_articles_any_number Samples.summarization id "machine learning"
              (-1) articles Hfields Hsum) as (shown & Hrun & _ & _ & Hneg).
  exists shown. split; [exact Hrun | exact Hneg].
Defined.

(** ** The article notebook from the feed to the shown articles *)

Lemma Forall2_map_r_sorted {A B} (R : A -> A -> Prop) (S : Q -> Q -> Prop)
    (P : A -> B -> Prop) (g : B -> Q) (l : list A) (k : list B) :
  (forall a a' b b', R a a' -> P a b -> P a' b' -> S (g b) (g b')) ->
  StronglySorted R l -> Forall2 P l k -> StronglySorted S (map g k).
Proof.
  intros HS Hsorted Hall. revert Hsorted.
  induction Hall as [|a b l k Hab Hrest IH]; intros Hsorted; simpl; [constructor|].
  apply StronglySorted_inv in Hsorted as [Hl Ha].
  constructor; [now apply IH|].
  apply Forall_forall. intros y Hy.
  apply list_elem_of_In, in_map_iff in Hy as (b' & <- & Hb').
  apply In_nth_error in Hb' as [j Hj].
  destruct (Forall2_nth_error _ _ _ _ _ (proj2 (Forall2_flip _ _ _) Hrest) Hj)
    as (a' & Ha' & Hp). unfold flip in Hp.
  rewrite Forall_forall in Ha.
  eapply HS; [apply Ha, list_elem_of_In, (nth_error_In _ _ Ha') | exact Hab | exact Hp].
Qed.

(** X16. When the ranking cell completes and the summariser answers, the
    rest of the notebook cannot fail: the sort finds a float [relevancy] in
    every article, and the printing loop shows
    [min(number_of_articles, len(articles))] lines, each the title, link and
    hundredfold relevancy of an article of the ranking cell, in
    non-increasing order of score. *)
Theorem articles_run_after_ranking
    {response : Type}
    (requests_get : string -> result response)
    (BeautifulSoup_lxml : response -> list Html.node)
    (zero_shot_classification : string -> string -> result Articles.classification)
    (summarization : string -> result (list string))
    (re_sub_punctuation : string -> string)
    (time_time : nat -> Q) (time_mktime : Feed.struct_time -> result Q)
    (search_term : string) (days : Z) (number_of_articles : nat)
    (newsfeed_entries : list Feed.entry) (articles : list (gmap string Articles.pyval)) :
  Articles.rank_feed requests_get BeautifulSoup_lxml zero_shot_classification
    time_time time_mktime search_term days newsfeed_entries = (articles, None) ->
  (forall src_text, exists summary,
      Articles.summarise summarization re_sub_punctuation src_text = Ok summary) ->
  exists sorted_articles shown,
    Articles.sorted_articles articles = Ok sorted_articles
    /\ Permutation sorted_articles articles
    /\ Articles.run requests_get BeautifulSoup_lxml zero_shot_classification
         summarization re_sub_punctuation time_time time_mktime search_term days
         (Z.of_nat number_of_articles) newsfeed_entries = (shown, None)
    /\ length shown = Nat.min number_of_articles (length articles)
    /\ Forall2
         (fun article item =>
            article !! "title" = Some (Articles.shown_title item)
            /\ article !! "link" = Some (Articles.shown_link item)
            /\ exists relevancy,
                 article !! "relevancy" = Some (Articles.VFloat relevancy)
                 /\ Articles.shown_score item = (100 * relevancy)%Q)
         (firstn number_of_articles sorted_articles) shown
    /\ StronglySorted (fun a b => (b <= a)%Q) (map Articles.shown_score shown).
Proof.
  intros Hrank Hsum.
  pose proof (rank_feed_articles_have_fields _ _ _ _ _ _ _ _ _ Hrank) as Hfields.
  destruct (sorted_articles_of_fields articles Hfields)
    as (sorted_articles & Hsorted & Hperm & Hdesc).
  assert (Forall (fun article => exists title link src_text relevancy,
            Articles.has_fields article title link src_text relevancy)
            sorted_articles) as Hfields'.
  { eapply Permutation_Forall; [symmetry; exact Hperm | exact Hfields]. }
  destruct (print_articles_shows summarization re_sub_punctuation search_term
              (Z.of_nat number_of_articles) sorted_articles Hfields')
    as (shown & Hprint & Hshown).
  { apply Forall_forall. intros a _ src_text _. apply Hsum. }
  rewrite slice_to_nat in Hshown.
  exists sorted_articles, shown. split; [exact Hsorted|]. split; [exact Hperm|].
  split; [unfold Articles.run; now rewrite Hrank, Hsorted|]. split; [|split].
  - rewrite <- (Forall2_length _ _ _ Hshown), length_firstn.
    now rewrite (Permutation_length Hperm).
  - eapply Forall2_impl; [exact Hshown|].
    intros a item (t & l & s & r & (Ht & Hl & _ & Hr) & _ & <- & <- & _ & Hscore).
    split; [exact Ht|]. split; [exact Hl|]. now exists r.
  - eapply Forall2_map_r_sorted;
      [|exact (proj1 (StronglySorted_firstn_skipn _ number_of_articles _ Hdesc))
       |exact Hshown].
    intros a a' b b' (x & y & Hx & Hy & Hle)
      (t & l & s & r & Hf & _ & _ & _ & _ & Hscore)
      (t' & l' & s' & r' & Hf' & _ & _ & _ & _ & Hscore').
    simpl. rewrite Hscore, Hscore'.
    rewrite (relevancy_has_fields _ _ _ _ _ Hf) in Hx.
    rewrite (relevancy_has_fields _ _ _ _ _ Hf') in Hy.
    injection Hx as ->. injection Hy as ->.
    apply Qmult_le_l; [reflexivity | exact Hle].
Qed.

Lemma summarization_answers (src_text : string) :
  exists summary, Articles.summarise Samples.summarization id src_text = Ok summary.
Proof. eexists. reflexivity. Qed.

Lemma articles_run_after_ranking_witness :
  Articles.rank_feed Samples.requests_get Samples.parse_page Samples.zero_shot
    Samples.clock Samples.mktime "machine learning" 7 Samples.newsfeed
  = ([Samples.ranked "ml" 5; Samples.ranked "sagemaker" 8], None)
  /\ exists sorted_articles shown,
       Articles.sorted_articles [Samples.ranked "ml" 5; Samples.ranked "sagemaker" 8]
       = Ok sorted_articles
       /\ Articles.run Samples.requests_get Samples.parse_page Samples.zero_shot
            Samples.summarization id Samples.clock Samples.mktime "machine learning"
            7 1 Samples.newsfeed = (shown, None).
Proof.
  assert (Articles.rank_feed Samples.requests_get Samples.parse_page Samples.zero_shot
            Samples.clock Samples.mktime "machine learning" 7 Samples.newsfeed
          = ([Samples.ranked "ml" 5; Samples.ranked "sagemaker" 8], None)) as Hrun
    by (vm_compute; reflexivity).
  split; [exact Hrun|].
  destruct (articles_run_after_ranking _ _ _ Samples.summarization id _ _ _ _ 1 _ _
              Hrun summarization_answers)
    as (sorted_articles & shown & Hsorted & _ & Hshown & _).
  exists sorted_articles, shown. split; [exact Hsorted | exact Hshown].
Defined.

(** ** The semantic search, further *)

Lemma map_nth_seq {A} (d : A) (l : list A) :
  map (fun i => nth i l d) (seq 0 (length l)) = l.
Proof.
  enough (forall a, map (fun i => nth (i - a) l d) (seq a (length l)) = l) as H.
  { transitivity (map (fun i => nth (i - 0) l d) (seq 0 (length l))); [|apply H].
    apply map_ext. intros i. now rewrite Nat.sub_0_r. }
  induction l as [|x l IH]; intros a; [reflexivity|].
  simpl. rewrite Nat.sub_diag. f_equal.
  transitivity (map (fun i => nth (i - S a) l d) (seq (S a) (length l))); [|apply IH].
  apply map_ext_in. intros i Hi. apply in_seq in Hi.
  replace (i - a) with (S (i - S a)) by lia. reflexivity.
Qed.

Lemma slice_from_nat {A} (l : list A) (k : nat) :
  Py.slice_from l (Z.of_nat k) = skipn k l.
Proof.
  unfold Py.slice_from, Py.slice_bound.
  destruct (Z.ltb_spec (Z.of_nat k) 0) as [H|_]; [lia|].
  rewrite Nat2Z.id. destruct (Nat.le_gt_cases k (length l)) as [H|H].
  - now rewrite Nat.min_l.
  - rewrite Nat.min_r by lia. now rewrite !skipn_all2 by lia.
Qed.

Section SemanticCutFacts.
Variable similarities : list string -> string -> list Q.
Variable argsort : list Q -> list nat.
Variables (input_text : list string) (search_term : string).

Let results := similarities input_text search_term.
Let search_result := Semantic.search_result similarities input_text search_term.

Hypothesis similarities_length : length results = length input_text.
Hypothesis argsort_perm : Permutation (argsort results) (seq 0 (length results)).
Hypothesis argsort_sorted :
  StronglySorted (fun i j => (nth i results 0 <= nth j results 0)%Q) (argsort results).

(** The lines of the indices that [argsort] puts after position [cut], last
    first: they are the [len - cut] most similar sentences, most similar
    first. *)
Lemma search_results_after_cut (cut : nat) :
  let selected := rev (skipn cut (argsort results)) in
  length selected = length input_text - cut
  /\ NoDup selected
  /\ Forall (fun i => i < length input_text) selected
  /\ StronglySorted (fun p q => (snd q <= snd p)%Q) (map search_result selected)
  /\ (forall i j, i < length input_text -> ~ In i selected -> In j selected ->
        (nth i results 0 <= nth j results 0)%Q).
Proof.
  set (order := argsort results). intros selected. subst selected.
  assert (length order = length input_text) as Hlen.
  { unfold order. now rewrite (Permutation_length argsort_perm), length_seq. }
  destruct (StronglySorted_firstn_skipn _ cut order argsort_sorted) as [_ Hcut].
  assert (StronglySorted (fun i j => (nth i results 0 <= nth j results 0)%Q)
            (skipn cut order)) as Hlast.
  { pose proof argsort_sorted as H. fold order in H.
    rewrite <- (firstn_skipn cut order) in H.
    now apply StronglySorted_app in H as (_ & _ & H). }
  assert (NoDup order) as Hnodup.
  { unfold order. rewrite argsort_perm. apply NoDup_seq. }
  split; [|split; [|split; [|split]]].
  - rewrite length_rev, length_skipn. lia.
  - rewrite <- Permutation_rev.
    rewrite <- (firstn_skipn cut order) in Hnodup.
    now apply NoDup_app in Hnodup as (_ & _ & H).
  - apply Forall_forall. intros i Hi.
    apply list_elem_of_In, in_rev in Hi.
    assert (In i order) as Hio.
    { rewrite <- (firstn_skipn cut order). apply in_or_app. now right. }
    eapply Permutation_in in Hio; [|exact argsort_perm].
    apply in_seq in Hio. lia.
  - apply StronglySorted_map. apply (StronglySorted_rev _ _ Hlast).
  - intros i j Hi Hnot Hj. apply in_rev in Hj.
    assert (In i order) as Hio.
    { eapply Permutation_in; [symmetry; exact argsort_perm|].
      apply in_seq. lia. }
    rewrite <- (firstn_skipn cut order) in Hio.
    apply in_app_or in Hio as [Hio|Hio].
    + now apply Hcut.
    + exfalso. apply Hnot. now apply in_rev in Hio.
Qed.

Lemma search_results_negative (k : nat) :
  Semantic.search_results similarities argsort input_text search_term
    (- Z.of_nat k)
  = Ok (map search_result (rev (skipn k (argsort results)))).
Proof.
  unfold Semantic.search_results. fold results.
  rewrite Z.opp_involutive, slice_from_nat. unfold Py.reversed.
  apply (search_results_of similarities argsort input_text search_term
           similarities_length argsort_perm).
  fold results. apply Forall_forall. intros i Hi.
  apply list_elem_of_In, in_rev in Hi.
  rewrite <- (firstn_skipn k (argsort results)).
  apply in_or_app. now right.
Qed.

Lemma search_results_all_sentences :
  Permutation (map fst (map search_result (rev (argsort results)))) input_text.
Proof.
  rewrite map_map. unfold search_result, Semantic.search_result. simpl.
  rewrite <- Permutation_rev, argsort_perm, similarities_length.
  now rewrite (map_nth_seq "").
Qed.
End SemanticCutFacts.

Lemma sample_similarities_length (input_text : list string) (search_term : string) :
  length (Samples.similarities input_text search_term) = length input_text.
Proof. unfold Samples.similarities. apply length_map. Qed.

(** X17. Given one similarity per sentence and an [argsort] that returns the
    indices in ascending order of similarity, the semantic search asked for
    [num_results >= 1] prints [min(num_results, len(input_text))] different
    sentences of [input_text], each with its own similarity; the lines come
    in non-increasing order of similarity, and no sentence left out is more
    similar than a sentence printed. *)
Theorem semantic_search_prints_most_similar
    (similarities : list string -> string -> list Q) (argsort : list Q -> list nat)
    (input_text : list string) (search_term : string) (num_results : nat) :
  let results := similarities input_text search_term in
  length results = length input_text ->
  Permutation (argsort results) (seq 0 (length results)) ->
  StronglySorted (fun i j => (nth i results 0 <= nth j results 0)%Q) (argsort results) ->
  1 <= num_results ->
  exists selected,
    Semantic.search_results similarities argsort input_text search_term
      (Z.of_nat num_results)
    = Ok (map (Semantic.search_result similarities input_text search_term) selected)
    /\ length selected = Nat.min num_results (length input_text)
    /\ NoDup selected
    /\ Forall (fun i => i < length input_text) selected
    /\ StronglySorted (fun p q => (snd q <= snd p)%Q)
         (map (Semantic.search_result similarities input_text search_term) selected)
    /\ (forall i j, i < length input_text -> ~ In i selected -> In j selected ->
          (nth i results 0 <= nth j results 0)%Q).
Proof.
  intros results Hlen Hperm Hsorted Hn.
  exact (search_results_top similarities argsort input_text search_term
           Hlen Hperm Hsorted num_results Hn).
Qed.

Lemma semantic_search_prints_most_similar_witness :
  let results := Samples.similarities Samples.sentences "natural language processing" in
  length results = length Samples.sentences
  /\ Permutation (Samples.argsort results) (seq 0 (length results))
  /\ StronglySorted (fun i j => (nth i results 0 <= nth j results 0)%Q)
       (Samples.argsort results)
  /\ 1 <= 2
  /\ exists selected,
       Semantic.search_results Samples.similarities Samples.argsort Samples.sentences
         "natural language processing" 2
       = Ok (map (Semantic.search_result Samples.similarities Samples.sentences
                    "natural language processing") selected)
       /\ length selected = Nat.min 2 (length Samples.sentences).
Proof.
  intros results.
  assert (length results = length Samples.sentences) as H1 by reflexivity.
  destruct (sample_argsort_contract results) as [H2 H3].
  assert (1 <= 2) as H4 by lia.
  split; [exact H1|]. split; [exact H2|]. split; [exact H3|]. split; [exact H4|].
  destruct (semantic_search_prints_most_similar Samples.similarities Samples.argsort
              Samples.sentences "natural language processing" 2 H1 H2 H3 H4)
    as (selected & Hrun & Hlen & _).
  exists selected. split; [exact Hrun | exact Hlen].
Defined.

(** X18. Asked for zero results, the semantic search prints a line for
    every sentence, whatever the encoder and [argsort] return within their
    contract: the sentences printed are a rearrangement of [input_text], most
    similar first. *)
Theorem semantic_search_zero_prints_all
    (similarities : list string -> string -> list Q) (argsort : list Q -> list nat)
    (input_text : list string) (search_term : string) :
  let results := similarities input_text search_term in
  length results = length input_text ->
  Permutation (argsort results) (seq 0 (length results)) ->
  StronglySorted (fun i j => (nth i results 0 <= nth j results 0)%Q) (argsort results) ->
  exists printed,
    Semantic.search_results similarities argsort input_text search_term 0 = Ok printed
    /\ length printed = length input_text
    /\ Permutation (map fst printed) input_text
    /\ StronglySorted (fun p q => (snd q <= snd p)%Q) printed.
Proof.
  intros results Hlen Hperm Hsorted.
  eexists. split; [now apply search_results_zero|].
  split; [|split].
  - fold results.
    now rewrite length_map, length_rev, (Permutation_length Hperm), length_seq.
  - now apply search_results_all_sentences.
  - apply StronglySorted_map. now apply (StronglySorted_rev _ _ Hsorted).
Qed.

Lemma semantic_search_zero_prints_all_witness :
  let results := Samples.similarities Samples.sentences "natural language processing" in
  length results = length Samples.sentences
  /\ Permutation (Samples.argsort results) (seq 0 (length results))
  /\ StronglySorted (fun i j => (nth i results 0 <= nth j results 0)%Q)
       (Samples.argsort results)
  /\ exists printed,
       Semantic.search_results Samples.similarities Samples.argsort Samples.sentences
         "natural language processing" 0 = Ok printed
       /\ length printed = length Samples.sentences.
Proof.
  intros results.
  assert (length results = length Samples.sentences) as H1 by reflexivity.
  destruct (sample_argsort_contract results) as [H2 H3].
  split; [exact H1|]. split; [exact H2|]. split; [exact H3|].
  destruct (semantic_search_zero_prints_all Samples.similarities Samples.argsort
              Samples.sentences "natural language processing" H1 H2 H3)
    as (printed & Hrun & Hlen & _).
  exists printed. split; [exact Hrun | exact Hlen].
Defined.

(** X19. Asked for a negative number of results [-k], the semantic search
    does not raise: [[-num_results:]] is then [[k:]], and the search prints
    all but the [k] least similar sentences, most similar first (nothing when
    [k] is at least the number of sentences). *)
Theorem semantic_search_negative_num_results
    (similarities : list string -> string -> list Q) (argsort : list Q -> list nat)
    (input_text : list string) (search_term : string) (k : nat) :
  let results := similarities input_text search_term in
  length results = length input_text ->
  Permutation (argsort results) (seq 0 (length results)) ->
  StronglySorted (fun i j => (nth i results 0 <= nth j results 0)%Q) (argsort results) ->
  exists selected,
    Semantic.search_results similarities argsort input_text search_term
      (- Z.of_nat k)
    = Ok (map (Semantic.search_result similarities input_text search_term) selected)
    /\ length selected = length input_text - k
    /\ NoDup selected
    /\ StronglySorted (fun p q => (snd q <= snd p)%Q)
         (map (Semantic.search_result similarities input_text search_term) selected)
    /\ (forall i j, i < length input_text -> ~ In i selected -> In j selected ->
          (nth i results 0 <= nth j results 0)%Q).
Proof.
  intros results Hlen Hperm Hsorted.
  destruct (search_results_after_cut similarities argsort input_text search_term
              Hlen Hperm Hsorted k) as (H1 & H2 & _ & H4 & H5).
  eexists. split; [now apply search_results_negative|].
  now repeat split.
Qed.

Lemma semantic_search_negative_num_results_witness :
  let results := Samples.similarities Samples.sentences "natural language processing" in
  length results = length Samples.sentences
  /\ Permutation (Samples.argsort results) (seq 0 (length results))
  /\ StronglySorted (fun i j => (nth i results 0 <= nth j results 0)%Q)
       (Samples.argsort results)
  /\ exists selected,
       Semantic.search_results Samples.similarities Samples.argsort Samples.sentences
         "natural language processing" (-1)
       = Ok (map (Semantic.search_result Samples.similarities Samples.sentences
                    "natural language processing") selected)
       /\ length selected = length Samples.sentences - 1.
Proof.
  intros results.
  assert (length results = length Samples.sentences) as H1 by reflexivity.
  destruct (sample_argsort_contract results) as [H2 H3].
  split; [exact H1|]. split; [exact H2|]. split; [exact H3|].
  destruct (semantic_search_negative_num_results Samples.similarities Samples.argsort
              Samples.sentences "natural language processing" 1 H1 H2 H3)
    as (selected & Hrun & Hlen & _).
  exists selected. split; [exact Hrun | exact Hlen].
Defined.

(** X20. When the page is fetched, the semantic-search notebook asked for
    [num_results >= 1] always prints at least one line and at most
    [num_results]: the page text always gives at least one sentence, even
    when it is empty.  Every line printed is a sentence of the page text. *)
Theorem semantic_search_end_to_end
    {response : Type}
    (requests_get : string -> result response)
    (BeautifulSoup_lxml : response -> list Html.node)
    (similarities : list string -> string -> list Q) (argsort : list Q -> list nat)
    (website search_term : string) (num_results : nat) (html : response) :
  requests_get website = Ok html ->
  (forall input_text,
      length (similarities input_text search_term) = length input_text) ->
  (forall a, Permutation (argsort a) (seq 0 (length a))) ->
  1 <= num_results ->
  exists printed,
    Semantic.search requests_get BeautifulSoup_lxml similarities argsort
      website search_term (Z.of_nat num_results) = Ok printed
    /\ 1 <= length printed <= num_results
    /\ Forall (fun line =>
                 In (fst line)
                    (Semantic.input_text (Html.text_from_html BeautifulSoup_lxml html)))
         printed.
Proof.
  intros Hget Hlen Hperm Hn. unfold Semantic.search. rewrite Hget. simpl.
  set (input_text := Semantic.input_text (Html.text_from_html BeautifulSoup_lxml html)).
  set (results := similarities input_text search_term).
  assert (1 <= length input_text) as Hone.
  { pose proof (split_nonempty (Html.text_from_html BeautifulSoup_lxml html) ".") as H.
    fold (Semantic.input_text (Html.text_from_html BeautifulSoup_lxml html)) in H.
    fold input_text in H. destruct input_text; [congruence | simpl; lia]. }
  rewrite (search_results_positive similarities argsort input_text search_term
             (Hlen input_text) (Hperm results) num_results Hn).
  fold results. eexists. split; [reflexivity|].
  assert (length (argsort results) = length input_text) as Ho.
  { rewrite (Permutation_length (Hperm results)), length_seq.
    unfold results. apply Hlen. }
  split.
  - rewrite length_map, length_rev, length_skipn. lia.
  - apply Forall_forall. intros line Hline.
    apply list_elem_of_In, in_map_iff in Hline as (i & <- & Hi). simpl.
    apply nth_In. apply in_rev in Hi.
    assert (In i (argsort results)) as Hio.
    { rewrite <- (firstn_skipn (length (argsort results) - num_results)
                    (argsort results)). apply in_or_app. now right. }
    eapply Permutation_in in Hio; [|apply Hperm].
    apply in_seq in Hio. unfold results in Hio. rewrite Hlen in Hio. lia.
Qed.

Lemma sample_argsort_perm (a : list Q) :
  Permutation (Samples.argsort a) (seq 0 (length a)).
Proof. apply sample_argsort_contract. Qed.

Lemma semantic_search_end_to_end_witness :
  Samples.requests_get "http://blog/ml" = Ok "All about http://blog/ml"
  /\ 1 <= 2
  /\ exists printed,
       Semantic.search Samples.requests_get Samples.parse_page Samples.similarities
         Samples.argsort "http://blog/ml" "machine learning" 2 = Ok printed
       /\ 1 <= length printed <= 2.
Proof.
  assert (Samples.requests_get "http://blog/ml" = Ok "All about http://blog/ml")
    as H1 by reflexivity.
  assert (1 <= 2) as H2 by lia.
  split; [exact H1|]. split; [exact H2|].
  destruct (semantic_search_end_to_end Samples.requests_get Samples.parse_page
              Samples.similarities Samples.argsort "http://blog/ml"
              "machine learning" 2 _ H1
              (fun input_text => sample_similarities_length input_text _)
              sample_argsort_perm H2) as (printed & Hrun & Hlen & _).
  exists printed. split; [exact Hrun | exact Hlen].
Defined.

(** The sample page holds no period: it is one sentence, and the one line
    printed. *)
Example semantic_search_sample :
  Semantic.search Samples.requests_get Samples.parse_page Samples.similarities
    Samples.argsort "http://blog/ml" "machine learning" 2
  = Ok [("All about http://blog/ml", (24 # 100)%Q)].
Proof. reflexivity. Qed.

(** ** The dataset of the fine-tuning notebook *)

Lemma subscript_nat {A} (l : list A) (i : nat) :
  Py.subscript l (Z.of_nat i) = Py.getitem l i.
Proof.
  unfold Py.subscript.
  destruct (Z.ltb_spec (Z.of_nat i) 0) as [H|_]; [lia|].
  destruct (Z.ltb_spec (Z.of_nat i) 0) as [H|_]; [lia|].
  now rewrite Nat2Z.id.
Qed.

Lemma subscript_from_end {A} (l : list A) (i : nat) :
  i < length l ->
  Py.subscript l (Z.of_nat i - Z.of_nat (length l)) = Py.getitem l i.
Proof.
  intros Hi. unfold Py.subscript.
  destruct (Z.ltb_spec (Z.of_nat i - Z.of_nat (length l)) 0) as [_|H]; [|lia].
  replace (Z.of_nat (length l) + (Z.of_nat i - Z.of_nat (length l)))%Z
    with (Z.of_nat i) by lia.
  destruct (Z.ltb_spec (Z.of_nat i) 0) as [H|_]; [lia|].
  now rewrite Nat2Z.id.
Qed.

Lemma subscript_outside {A} (l : list A) (i : Z) :
  (Z.of_nat (length l) <= i \/ i < - Z.of_nat (length l))%Z ->
  Py.subscript l i = Raised Py.IndexError.
Proof.
  intros Hi. unfold Py.subscript.
  destruct (Z.ltb_spec i 0) as [Hneg|Hpos].
  - destruct (Z.ltb_spec (Z.of_nat (length l) + i) 0) as [_|H]; [reflexivity|lia].
  - destruct (Z.ltb_spec i 0) as [H|_]; [lia|].
    unfold Py.getitem.
    destruct (nth_error l (Z.to_nat i)) eqn:E; [|reflexivity].
    assert (Z.to_nat i < length l) by (apply nth_error_Some; congruence). lia.
Qed.

Lemma getitem_nth_error {A} (l : list A) (i : nat) (x : A) :
  nth_error l i = Some x -> Py.getitem l i = Ok x.
Proof. unfold Py.getitem. now intros ->. Qed.

Lemma list_comp_map {A B} (f : A -> result B) (g : A -> B) (l : list A) :
  Forall (fun x => f x = Ok (g x)) l -> Py.list_comp f l = Ok (map g l).
Proof.
  induction 1 as [|x l Hx _ IH]; simpl; [reflexivity|].
  now rewrite Hx, IH.
Qed.

Lemma list_comp_raises {A B} (f : A -> result B) (e : Py.exn) (l : list A) :
  Forall (fun x => f x = Raised e \/ exists y, f x = Ok y) l ->
  Exists (fun x => f x = Raised e) l ->
  Py.list_comp f l = Raised e.
Proof.
  intros Hall Hex. induction Hall as [|x l Hx Hall IH]; [inversion Hex|].
  simpl. destruct Hx as [Hx|[y Hy]].
  - now rewrite Hx.
  - rewrite Hy. simpl.
    inversion Hex as [? ? Hhere|? ? Hlater]; subst; [congruence|].
    now rewrite (IH Hlater).
Qed.

(** A comprehension whose body raises on no value of the dictionary maps
    every value and keeps every key. *)
Lemma dict_comp_fmap {A B} (f : A -> result B) (g : A -> B) (d : gmap string A) :
  (forall key val, d !! key = Some val -> f val = Ok (g val)) ->
  Py.dict_comp f d = Ok (g <$> d).
Proof.
  intros H. unfold Py.dict_comp.
  rewrite (list_comp_map _ (prod_map id g)).
  - simpl. unfold mret, result_ret. f_equal.
    change (map (prod_map id g) (map_to_list d)) with (prod_map id g <$> map_to_list d).
    now rewrite list_to_map_fmap, list_to_map_to_list.
  - apply Forall_forall. intros [key val] Hin.
    apply elem_of_map_to_list in Hin. simpl. now rewrite (H key val Hin).
Qed.

(** A comprehension whose body can only raise [e], and does on some value,
    raises [e]. *)
Lemma dict_comp_raises {A B} (f : A -> result B) (e : Py.exn) (d : gmap string A)
    (key : string) (val : A) :
  (forall key val, d !! key = Some val -> f val = Raised e \/ exists y, f val = Ok y) ->
  d !! key = Some val -> f val = Raised e ->
  Py.dict_comp f d = Raised e.
Proof.
  intros Hall Hkey Hval. unfold Py.dict_comp.
  rewrite (list_comp_raises _ e); [reflexivity| |].
  - apply Forall_forall. intros [k v] Hin. apply elem_of_map_to_list in Hin. simpl.
    destruct (Hall k v Hin) as [->|[y ->]]; [now left|right; now eexists].
  - apply Exists_exists. exists (key, val). split.
    + now apply elem_of_map_to_list.
    + simpl. now rewrite Hval.
Qed.

Section NliDatasetFacts.
Variable self : Nli.NLIDataset.
Variable input_ids : list (list Z).
Hypothesis has_input_ids : Nli.encodings self !! "input_ids" = Some input_ids.
Hypothesis rectangular : forall key column,
  Nli.encodings self !! key = Some column -> length column = length input_ids.
Hypothesis one_label_per_row : length (Nli.labels self) = length input_ids.

Lemma nli_len : Nli.__len__ self = Ok (length input_ids).
Proof. unfold Nli.__len__. now rewrite has_input_ids. Qed.

Lemma nli_item_at (idx : nat) (i : Z) :
  idx < length input_ids ->
  (forall A (l : list A), length l = length input_ids ->
     Py.subscript l i = Py.getitem l idx) ->
  Nli.__getitem__ self i
  = Ok (<["labels" := Nli.Tensor0d (nth idx (Nli.labels self) 0%Z)]>
          ((fun column => Nli.Tensor1d (nth idx column [])) <$> Nli.encodings self)).
Proof.
  intros Hidx Hi. unfold Nli.__getitem__.
  rewrite (dict_comp_fmap _ (fun column => Nli.Tensor1d (nth idx column []))).
  - simpl. rewrite (Hi _ _ one_label_per_row).
    rewrite (getitem_nth_error _ idx (nth idx (Nli.labels self) 0%Z)); [reflexivity|].
    apply nth_error_nth'. lia.
  - intros key column Hkey. rewrite (Hi _ _ (rectangular key column Hkey)).
    rewrite (getitem_nth_error _ idx (nth idx column [])); [reflexivity|].
    apply nth_error_nth'. rewrite (rectangular key column Hkey). lia.
Qed.

Lemma nli_item_outside (i : Z) :
  (Z.of_nat (length input_ids) <= i \/ i < - Z.of_nat (length input_ids))%Z ->
  Nli.__getitem__ self i = Raised Py.IndexError.
Proof.
  intros Hi. unfold Nli.__getitem__.
  rewrite (dict_comp_raises _ Py.IndexError _ "input_ids" input_ids); [reflexivity| |exact has_input_ids|].
  - intros key column Hkey. left.
    rewrite subscript_outside; [reflexivity|].
    now rewrite (rectangular key column Hkey).
  - now rewrite subscript_outside.
Qed.

Lemma nli_item_fields (idx : nat) (item : gmap string Nli.tensor) :
  idx < length input_ids ->
  item = <["labels" := Nli.Tensor0d (nth idx (Nli.labels self) 0%Z)]>
           ((fun column => Nli.Tensor1d (nth idx column [])) <$> Nli.encodings self) ->
  item !! "labels" = Nli.Tensor0d <$> nth_error (Nli.labels self) idx
  /\ (forall key, key <> "labels" ->
        item !! key
        = column ← Nli.encodings self !! key; Nli.Tensor1d <$> nth_error column idx).
Proof.
  intros Hidx ->. split.
  - rewrite lookup_insert_eq.
    rewrite (nth_error_nth' (Nli.labels self) 0%Z) by lia. reflexivity.
  - intros key Hkey. rewrite lookup_insert_ne by congruence.
    rewrite lookup_fmap. destruct (Nli.encodings self !! key) as [column|] eqn:E; simpl.
    + rewrite (nth_error_nth' column []); [reflexivity|].
      rewrite (rectangular key column E). lia.
    + reflexivity.
Qed.

End NliDatasetFacts.

(** X21. An [NLIDataset] of 64-bit integers whose encodings have an
    [input_ids] column, whose columns all have as many rows as [input_ids],
    and which has one label per row, has exactly the items [0 .. len - 1]:
    [__len__] is the number of rows; at an index below it [__getitem__]
    returns a dictionary with the row [idx] of every column under that
    column's name and the label [idx] under [labels], all of them integers
    that the tensors hold; the same item answers the index counted from the
    end; and every index outside [-len .. len - 1] raises [IndexError]. *)
Theorem nli_dataset_items_within_len
    (self : Nli.NLIDataset) (input_ids : list (list Z)) :
  Nli.encodings self !! "input_ids" = Some input_ids ->
  (forall key column,
      Nli.encodings self !! key = Some column -> length column = length input_ids) ->
  length (Nli.labels self) = length input_ids ->
  (forall key column,
      Nli.encodings self !! key = Some column -> Forall (Forall Nli.int64) column) ->
  Forall Nli.int64 (Nli.labels self) ->
  Nli.__len__ self = Ok (length input_ids)
  /\ (forall idx, idx < length input_ids ->
        exists item,
          Nli.__getitem__ self (Z.of_nat idx) = Ok item
          /\ item !! "labels" = Nli.Tensor0d <$> nth_error (Nli.labels self) idx
          /\ (forall key, key <> "labels" ->
                item !! key
                = column ← Nli.encodings self !! key;
                  Nli.Tensor1d <$> nth_error column idx)
          /\ (forall key row, item !! key = Some (Nli.Tensor1d row) ->
                Forall Nli.int64 row)
          /\ (forall key value, item !! key = Some (Nli.Tensor0d value) ->
                Nli.int64 value)
          /\ Nli.__getitem__ self (Z.of_nat idx - Z.of_nat (length input_ids))
             = Ok item)
  /\ (forall idx : Z,
        (Z.of_nat (length input_ids) <= idx \/ idx < - Z.of_nat (length input_ids))%Z ->
        Nli.__getitem__ self idx = Raised Py.IndexError).
Proof.
  intros Hids Hrect Hlabels Hrows Hrange. split; [|split].
  - now apply nli_len.
  - intros idx Hidx.
    pose proof (nli_item_fields self input_ids Hrect Hlabels idx _ Hidx eq_refl)
      as [Hlabel Hcolumns].
    eexists. split; [|split; [exact Hlabel|split; [exact Hcolumns|split; [|split]]]].
    + apply (nli_item_at self input_ids Hrect Hlabels idx (Z.of_nat idx) Hidx).
      intros A l _. apply subscript_nat.
    + intros key row Hrow.
      destruct (decide (key = "labels")) as [->|Hkey].
      * rewrite Hlabel in Hrow.
        destruct (nth_error (Nli.labels self) idx); discriminate.
      * rewrite (Hcolumns key Hkey) in Hrow.
        destruct (Nli.encodings self !! key) as [column|] eqn:Ec; [|discriminate].
        simpl in Hrow.
        destruct (nth_error column idx) as [row'|] eqn:Er; [|discriminate].
        injection Hrow as <-. pose proof (Hrows key column Ec) as Hall.
        rewrite Forall_forall in Hall. eapply Hall, list_elem_of_In, nth_error_In, Er.
    + intros key value Hvalue.
      destruct (decide (key = "labels")) as [->|Hkey].
      * rewrite Hlabel in Hvalue.
        destruct (nth_error (Nli.labels self) idx) as [label|] eqn:El; [|discriminate].
        injection Hvalue as <-. rewrite Forall_forall in Hrange.
        eapply Hrange, list_elem_of_In, nth_error_In, El.
      * rewrite (Hcolumns key Hkey) in Hvalue.
        destruct (Nli.encodings self !! key) as [column|]; [|discriminate].
        simpl in Hvalue. destruct (nth_error column idx); discriminate.
    + apply (nli_item_at self input_ids Hrect Hlabels idx _ Hidx).
      intros A l Hl. rewrite <- Hl. apply subscript_from_end. lia.
  - intros idx Hidx. now apply (nli_item_outside self input_ids Hids Hrect).
Qed.

Lemma sample_tokeniser_rows (premises hypotheses : list string) (key : string)
    (column : list (list Z)) :
  Samples.tokeniser premises hypotheses !! key = Some column ->
  length column = length (combine premises hypotheses).
Proof.
  unfold Samples.tokeniser. intros H.
  apply lookup_insert_Some in H as [[_ <-]|[_ H]]; [now rewrite length_map|].
  apply lookup_insert_Some in H as [[_ <-]|[_ H]]; [now rewrite length_map|].
  now rewrite lookup_empty in H.
Qed.

Lemma sample_dataset_int64 (key : string) (column : list (list Z)) :
  Samples.tokeniser (Nli.premise Samples.nli_train) (Nli.hypothesis Samples.nli_train)
    !! key = Some column ->
  Forall (Forall Nli.int64) column.
Proof.
  unfold Samples.tokeniser. intros H.
  apply lookup_insert_Some in H as [[_ <-]|[_ H]].
  { repeat constructor; unfold Nli.int64; simpl; lia. }
  apply lookup_insert_Some in H as [[_ <-]|[_ H]];
    [|now rewrite lookup_empty in H].
  repeat constructor; unfold Nli.int64; simpl; lia.
Qed.

Lemma nli_dataset_items_within_len_witness :
  let self := Nli.val_dataset Samples.tokeniser Samples.nli_train in
  let input_ids := [[10; 13]; [8; 14]; [9; 13]]%Z in
  Nli.encodings self !! "input_ids" = Some input_ids
  /\ (forall key column,
        Nli.encodings self !! key = Some column -> length column = length input_ids)
  /\ length (Nli.labels self) = length input_ids
  /\ (forall key column,
        Nli.encodings self !! key = Some column -> Forall (Forall Nli.int64) column)
  /\ Forall Nli.int64 (Nli.labels self)
  /\ Nli.__len__ self = Ok 3
  /\ Nli.__getitem__ self 3 = Raised Py.IndexError.
Proof.
  intros self input_ids.
  assert (Nli.encodings self !! "input_ids" = Some input_ids) as H1 by reflexivity.
  assert (forall key column,
             Nli.encodings self !! key = Some column -> length column = length input_ids)
    as H2 by (intros key column H; exact (sample_tokeniser_rows _ _ key column H)).
  assert (length (Nli.labels self) = length input_ids) as H3 by reflexivity.
  assert (forall key column,
             Nli.encodings self !! key = Some column -> Forall (Forall Nli.int64) column)
    as H4 by exact sample_dataset_int64.
  assert (Forall Nli.int64 (Nli.labels self)) as H5
    by (repeat constructor; unfold Nli.int64; simpl; lia).
  split; [exact H1|]. split; [exact H2|]. split; [exact H3|].
  split; [exact H4|]. split; [exact H5|].
  destruct (nli_dataset_items_within_len self input_ids H1 H2 H3 H4 H5)
    as (Hlen & _ & Hout).
  split; [exact Hlen|]. apply Hout. left. simpl. lia.
Defined.

(** X22. The training set of the fine-tuning notebook.  When the tokeniser
    returns one row per sentence pair in every column, the dataset built from
    the first 20000 pairs has [min(20000, n)] items, [n] the size of the
    training split, and its item [idx] carries the label of pair [idx] of the
    split.  Cutting the labels to 20000 a second time changes nothing: they
    were cut with the data. *)
Theorem train_dataset_one_item_per_pair
    (tokeniser : list string -> list string -> gmap string (list (list Z)))
    (train : Nli.split) (input_ids : list (list Z)) :
  length (Nli.premise train) = length (Nli.label train) ->
  length (Nli.hypothesis train) = length (Nli.label train) ->
  Nli.train_encodings tokeniser train !! "input_ids" = Some input_ids ->
  (forall key column,
      Nli.train_encodings tokeniser train !! key = Some column ->
      length column = length (Nli.premise (Nli.train_data train))) ->
  let n := Nat.min (Z.to_nat 20000) (length (Nli.label train)) in
  Nli.train_labels train = Nli.label (Nli.train_data train)
  /\ Nli.train_labels train = firstn (Z.to_nat 20000) (Nli.label train)
  /\ Nli.__len__ (Nli.train_dataset tokeniser train) = Ok n
  /\ (forall idx, idx < n ->
        exists item,
          Nli.__getitem__ (Nli.train_dataset tokeniser train) (Z.of_nat idx) = Ok item
          /\ item !! "labels" = Nli.Tensor0d <$> nth_error (Nli.label train) idx)
  /\ Nli.__getitem__ (Nli.train_dataset tokeniser train) (Z.of_nat n)
     = Raised Py.IndexError.
Proof.
  intros Hp Hh Hids Hrows n.
  assert (forall A (l : list A),
             Py.slice_to l 20000 = firstn (Z.to_nat 20000) l) as Hcut.
  { intros A l. rewrite <- (Z2Nat.id 20000) at 1 by lia. apply slice_to_nat. }
  assert (Nli.train_labels train = firstn (Z.to_nat 20000) (Nli.label train)) as Hlabels.
  { unfold Nli.train_labels, Nli.train_data, Nli.split_slice_to. simpl.
    rewrite !Hcut. rewrite firstn_firstn. now rewrite Nat.min_id. }
  assert (Nli.label (Nli.train_data train) = firstn (Z.to_nat 20000) (Nli.label train))
    as Hdata.
  { unfold Nli.train_data, Nli.split_slice_to. simpl. apply Hcut. }
  assert (length (Nli.premise (Nli.train_data train)) = n) as Hn.
  { unfold Nli.train_data, Nli.split_slice_to. simpl.
    rewrite Hcut. rewrite length_firstn. rewrite Hp. reflexivity. }
  assert (length input_ids = n) as Hrows_ids.
  { now rewrite (Hrows "input_ids" input_ids Hids). }
  assert (forall key column,
             Nli.encodings (Nli.train_dataset tokeniser train) !! key = Some column ->
             length column = length input_ids) as Hrect.
  { intros key column H. rewrite Hrows_ids, <- Hn. exact (Hrows key column H). }
  assert (length (Nli.labels (Nli.train_dataset tokeniser train)) = length input_ids)
    as Hone.
  { simpl. rewrite Hlabels, length_firstn, Hrows_ids. reflexivity. }
  split; [congruence|]. split; [exact Hlabels|]. split; [|split].
  - rewrite <- Hrows_ids.
    exact (nli_len (Nli.train_dataset tokeniser train) input_ids Hids).
  - intros idx Hidx. eexists. split.
    + apply (nli_item_at (Nli.train_dataset tokeniser train) input_ids Hrect Hone
               idx (Z.of_nat idx)); [lia|].
      intros A l _. apply subscript_nat.
    + rewrite lookup_insert_eq. simpl. rewrite Hlabels.
      assert (nth_error (Nli.label train) idx
              = Some (nth idx (firstn (Z.to_nat 20000) (Nli.label train)) 0%Z)) as ->.
      { rewrite <- (nth_error_nth' (firstn (Z.to_nat 20000) (Nli.label train)) 0%Z).
        - rewrite nth_error_firstn.
          destruct (Nat.ltb_spec idx (Z.to_nat 20000)) as [_|H]; [reflexivity|].
          unfold n in Hidx. lia.
        - rewrite length_firstn. exact Hidx. }
      reflexivity.
  - apply (nli_item_outside (Nli.train_dataset tokeniser train) input_ids Hids Hrect).
    left. lia.
Qed.

Lemma train_dataset_one_item_per_pair_witness :
  let input_ids := [[10; 13]; [8; 14]; [9; 13]]%Z in
  length (Nli.premise Samples.nli_train) = length (Nli.label Samples.nli_train)
  /\ length (Nli.hypothesis Samples.nli_train) = length (Nli.label Samples.nli_train)
  /\ Nli.train_encodings Samples.tokeniser Samples.nli_train !! "input_ids"
     = Some input_ids
  /\ (forall key column,
        Nli.train_encodings Samples.tokeniser Samples.nli_train !! key = Some column ->
        length column = length (Nli.premise (Nli.train_data Samples.nli_train)))
  /\ Nli.__len__ (Nli.train_dataset Samples.tokeniser Samples.nli_train) = Ok 3
  /\ Nli.__getitem__ (Nli.train_dataset Samples.tokeniser Samples.nli_train) 3
     = Raised Py.IndexError.
Proof.
  intros input_ids.
  assert (length (Nli.premise Samples.nli_train) = length (Nli.label Samples.nli_train))
    as H1 by reflexivity.
  assert (length (Nli.hypothesis Samples.nli_train)
          = length (Nli.label Samples.nli_train)) as H2 by reflexivity.
  assert (Nli.train_encodings Samples.tokeniser Samples.nli_train !! "input_ids"
          = Some input_ids) as H3 by reflexivity.
  assert (forall key column,
        Nli.train_encodings Samples.tokeniser Samples.nli_train !! key = Some column ->
        length column = length (Nli.premise (Nli.train_data Samples.nli_train)))
    as H4 by (intros key column H; exact (sample_tokeniser_rows _ _ key column H)).
  split; [exact H1|]. split; [exact H2|]. split; [exact H3|]. split; [exact H4|].
  destruct (train_dataset_one_item_per_pair Samples.tokeniser Samples.nli_train
              input_ids H1 H2 H3 H4) as (_ & _ & Hlen & _ & Hout).
  split; [exact Hlen | exact Hout].
Defined.

(** The second item of the sample training set. *)
Example train_dataset_sample_item :
  Nli.__getitem__ (Nli.train_dataset Samples.tokeniser Samples.nli_train) 1
  = Ok (<["labels" := Nli.Tensor0d 2]>
          (<["input_ids" := Nli.Tensor1d [8; 14]%Z]>
             (<["attention_mask" := Nli.Tensor1d [1; 1]%Z]> ∅))).
Proof. vm_compute. reflexivity. Qed.
